(** * KinetiCandles: time bucketing, candle aggregation and pattern labels

    A shallow embedding of the aggregation core of [KinetiCandles_v3.py]
    (class [DataModel], the week chart of [ChartView] and the window update
    of [KinetiCandlesApp]), together with the corresponding routines of the
    older entry point [candle.py], and the properties of the design
    document that concern them.  The later sections add the navigation of
    [DataModel], the candle shapes and tick marks of [ChartView],
    the view switching of [KinetiCandlesApp] and the activity counts, with
    further properties read off the code.  Where a property depends on
    the cursor of the model being a valid index, or on a non-zero candle
    interval, it says so as a hypothesis.

    Conventions.
    - A pandas timestamp ([datetime64[ns]], no time zone) is the integer
      number of nanoseconds since 1970-01-01T00:00:00; Python integers are
      unbounded, so they are [Z].  Python's [//] and [%] are floor division
      and the matching remainder, which is what [Z.div] and [Z.modulo] are
      for a divisor of either sign.
    - A pandas float is an exact rational or NaN: [float := option Q], with
      [None] for NaN.  Rounding is not modelled.  Comparisons with NaN are
      false, reductions skip NaN and give NaN on an empty selection.
    - A [DataFrame] is an object with identity.  Frames reachable under
      several names live in a store ([gmap loc DataFrame]); a frame that is
      built and consumed inside a single call is passed by value. *)

From Stdlib Require Import ZArith QArith Qabs Lia Lqa.
From stdpp Require Import base option list gmap strings sorting.

#[local] Set Warnings "-clear-no-such-hyp".

Open Scope Z_scope.

(** ** Pandas floats *)

Module Float.

Definition float : Type := option Q.

Definition NaN : float := None.
Definition of_Q (q : Q) : float := Some q.
Definition of_Z (z : Z) : float := Some (inject_Z z).

Definition Qltb (x y : Q) : bool := negb (Qle_bool y x).

(** [a > b], [a < b]: false as soon as one side is NaN. *)
Definition gt (a b : float) : bool :=
  match a, b with
  | Some x, Some y => Qltb y x
  | _, _ => false
  end.

Definition lt (a b : float) : bool := gt b a.

Definition sub (a b : float) : float :=
  x ← a; y ← b; Some (x - y)%Q.

Definition mul (a b : float) : float :=
  x ← a; y ← b; Some (x * y)%Q.

Definition abs (a : float) : float := Qabs <$> a.

Definition isna (a : float) : bool :=
  match a with None => true | Some _ => false end.

(** [Series.fillna(v)] on one cell. *)
Definition fillna (v : Q) (a : float) : float :=
  match a with None => Some v | Some _ => a end.

End Float.

Abbreviation float := Float.float.
Abbreviation NaN := Float.NaN.

(** ** Reductions of a pandas Series of floats

    All of them skip NaN cells ([skipna=True] is the default). *)

Module Series.

Definition dropna (s : list float) : list Q := omap id s.

Definition qsum (l : list Q) : Q := foldr Qplus 0%Q l.

Definition qmax (x y : Q) : Q := if Qle_bool x y then y else x.
Definition qmin (x y : Q) : Q := if Qle_bool y x then y else x.

(** Mean of the cells that are not NaN; NaN when there is none.  The
    quotient is kept in lowest terms. *)
Definition mean (s : list float) : float :=
  match dropna s with
  | [] => NaN
  | l => Some (Qred (qsum l / inject_Z (Z.of_nat (length l))))
  end.

Definition max (s : list float) : float :=
  match dropna s with
  | [] => NaN
  | x :: l => Some (foldl qmax x l)
  end.

Definition min (s : list float) : float :=
  match dropna s with
  | [] => NaN
  | x :: l => Some (foldl qmin x l)
  end.

(** [count]: number of cells that are not NaN. *)
Definition count (s : list float) : nat := length (dropna s).

(** [Series.isna().all()]: true on the empty series. *)
Definition isna_all (s : list float) : bool := forallb Float.isna s.

(** [groupby(...).agg('first')] and ['last']: first and last cell that is
    not NaN. *)
Definition first (s : list float) : float := head (dropna s).
Definition last (s : list float) : float := List.last (Some <$> dropna s) NaN.

(** Unbiased variance ([ddof=1]); NaN with fewer than two values.
    [Series.std()] is its non-negative square root. *)
Definition var (s : list float) : float :=
  match dropna s with
  | [] | [_] => NaN
  | l =>
      let n := inject_Z (Z.of_nat (length l)) in
      let m := (qsum l / n)%Q in
      Some (Qred (qsum ((λ x, (x - m) * (x - m))%Q <$> l) / (n - 1)))
  end.

(** [s.std() < b] for a bound [b >= 0], decided on the squares. *)
Definition std_lt (s : list float) (b : Q) : bool :=
  match var s with
  | Some v => Float.Qltb v (b * b)
  | None => false
  end.

(** Position and value of the first cell that attains the best value among
    the cells that are not NaN. *)
Fixpoint argbest (better : Q → Q → bool) (s : list float) : option (nat * Q) :=
  match s with
  | [] => None
  | a :: s' =>
      let rest := prod_map S id <$> argbest better s' in
      match a, rest with
      | None, _ => rest
      | Some x, Some (i, y) => if better y x then Some (i, y) else Some (O, x)
      | Some x, None => Some (O, x)
      end
  end.

(** [idxmax] / [idxmin] as positions: NaN cells are skipped, the first
    occurrence wins.  [None] when every cell is NaN. *)
Definition idxmax (s : list float) : option nat :=
  fst <$> argbest (λ y x, Float.Qltb x y) s.
Definition idxmin (s : list float) : option nat :=
  fst <$> argbest (λ y x, Float.Qltb y x) s.

End Series.

(** ** Timestamps: the [.dt] accessors the program uses *)

Module Dt.

Definition NS_PER_SECOND : Z := 10 ^ 9.

(** [timestamp.astype('int64') // 10**9] *)
Definition epoch_seconds (ts : Z) : Z := ts / NS_PER_SECOND.

(** [.dt.date], as the number of days since 1970-01-01. *)
Definition date (ts : Z) : Z := epoch_seconds ts / 86400.

Definition hour (ts : Z) : Z := (epoch_seconds ts / 3600) mod 24.
Definition minute (ts : Z) : Z := (epoch_seconds ts / 60) mod 60.
Definition second (ts : Z) : Z := epoch_seconds ts mod 60.

(** [pd.to_datetime(s, unit='s')] *)
Definition of_seconds (s : Z) : Z := s * NS_PER_SECOND.

(** A wall-clock instant, for writing examples. *)
Definition at_time (day h m s : Z) : Z :=
  of_seconds (day * 86400 + h * 3600 + m * 60 + s).

End Dt.

Definition DAYS_OF_WEEK : list string :=
  ["Monday"; "Tuesday"; "Wednesday"; "Thursday"; "Friday"; "Saturday";
   "Sunday"].

(** [.dt.day_name()]: 1970-01-01 was a Thursday. *)
Definition day_name (ts : Z) : string :=
  default "Monday" (DAYS_OF_WEEK !! Z.to_nat ((Dt.date ts + 3) mod 7)).

(** [.dt.strftime('%Y-%m-%d %H:%M')].  The text is a rendering of the
    calendar date, the hour and the minute and determines all three; the key
    is kept as that triple. *)
Definition minute_key : Type := Z * Z * Z.

Definition strftime_minute (ts : Z) : minute_key :=
  (Dt.date ts, Dt.hour ts, Dt.minute ts).

(** The order of the rendered keys: date, then hour, then minute. *)
Definition minute_key_leb (a b : minute_key) : bool :=
  let '(d1, h1, m1) := a in
  let '(d2, h2, m2) := b in
  if d1 <? d2 then true else if d2 <? d1 then false
  else if h1 <? h2 then true else if h2 <? h1 then false
  else m1 <=? m2.

(** ** Data frames *)

Inductive cell :=
  | CInt (z : Z)
  | CFloat (x : float)
  | CMinute (k : minute_key).

(** One row of the loaded series: the two columns read from the file, the
    derived [day_of_week], and the cells of whatever columns were added to
    the frame afterwards.  Rows whose activity level is missing are not
    modelled. *)
Record Row := mkRow {
  timestamp : Z;
  activity_level : Q;
  day_of_week : string;
  extra : gmap string cell
}.

Record DataFrame := mkFrame {
  columns : list string;
  rows : list Row
}.

Definition loc : Type := nat.

Module Frame.

Definition len (df : DataFrame) : nat := length (rows df).

(** [df[mask]]: a new frame with the rows the mask keeps, in order. *)
Definition select (mask : Row → bool) (df : DataFrame) : DataFrame :=
  mkFrame (columns df) (List.filter mask (rows df)).

Definition set_cell (c : string) (v : cell) (r : Row) : Row :=
  mkRow (timestamp r) (activity_level r) (day_of_week r) (<[c := v]> (extra r)).

(** [df[c] = f(df)], in place: the column is appended when it is new and
    overwritten otherwise. *)
Definition assign (c : string) (f : Row → cell) (df : DataFrame) : DataFrame :=
  mkFrame (if decide (c ∈ columns df) then columns df else columns df ++ [c])
          ((λ r, set_cell c (f r) r) <$> rows df).

(** [df.sample(n)]: a new frame with [n] rows drawn without replacement.
    [draw] lists the row positions the generator picks. *)
Definition sample (draw : list nat) (n : nat) (df : DataFrame) : DataFrame :=
  mkFrame (columns df) (omap (λ i, rows df !! i) (take n draw)).

Definition activity (rs : list Row) : list float :=
  (λ r, Some (activity_level r)) <$> rs.

End Frame.

(** *** The store of frames *)

Definition alloc (df : DataFrame) (h : gmap loc DataFrame)
  : loc * gmap loc DataFrame :=
  let l := fresh (dom h) in (l, <[l := df]> h).

(** ** [groupby]

    Groups come in ascending key order ([sort=True]); inside a group the
    rows keep the order they have in the frame. *)

Section groupby.
Context {A K : Type} `{EqDecision K} (leb : K → K → bool).

Fixpoint insert_key (k : K) (ks : list K) : list K :=
  match ks with
  | [] => [k]
  | k' :: ks' => if leb k k' then k :: ks else k' :: insert_key k ks'
  end.

Fixpoint unique_keys (ks : list K) : list K :=
  match ks with
  | [] => []
  | k :: ks' =>
      let u := unique_keys ks' in
      if decide (k ∈ u) then u else insert_key k u
  end.

Definition group (key : A → K) (rs : list A) (k : K) : list A :=
  filter (λ r, key r = k) rs.

Definition groupby (key : A → K) (rs : list A) : list (K * list A) :=
  (λ k, (k, group key rs k)) <$> unique_keys (key <$> rs).

(** [groupby(...).size()] *)
Definition groupby_size (key : A → K) (rs : list A) : list (K * nat) :=
  (λ g, (g.1, length g.2)) <$> groupby key rs.

End groupby.

(** Python's [l[i]]: negative positions count from the end; [None] stands
    for [IndexError]. *)
Definition py_index {A} (l : list A) (i : Z) : option A :=
  if 0 <=? i then l !! Z.to_nat i
  else if - Z.of_nat (length l) <=? i then l !! Z.to_nat (Z.of_nat (length l) + i)
  else None.

(** ** class DataModel *)

Record DataModel := mkModel {
  data : option loc;
  current_day_index : Z;
  days : list Z;
  has_second_resolution : bool
}.

(** The model object together with the frames it can reach. *)
Record Session := mkSession {
  store : gmap loc DataFrame;
  self : DataModel
}.

Module Model.

Definition set_store (h : gmap loc DataFrame) (σ : Session) : Session :=
  mkSession h (self σ).

Definition set_has_second_resolution (b : bool) (σ : Session) : Session :=
  mkSession (store σ)
    (mkModel (data (self σ)) (current_day_index (self σ)) (days (self σ)) b).

(** The frame [self.data] names, if any. *)
Definition data_frame (σ : Session) : option DataFrame :=
  l ← data (self σ); store σ !! l.

(** [detect_data_resolution(self, data)].  [draw] is what the random
    generator picks if [data.sample] is called.  The method returns nothing;
    its verdict is left in [self.has_second_resolution]. *)
Definition detect_data_resolution (draw : list nat) (data : loc) (σ : Session)
  : Session :=
  match store σ !! data with
  | None => σ
  | Some df =>
      let sample_size := Nat.min 1000 (Frame.len df) in
      let '(sample, h) :=
        if decide (sample_size < Frame.len df)%nat
        then alloc (Frame.sample draw sample_size df) (store σ)
        else (data, store σ) in
      (* sample['minute_key'] = sample['timestamp'].dt.strftime(...) *)
      let h := alter (Frame.assign "minute_key"
                        (λ r, CMinute (strftime_minute (timestamp r)))) sample h in
      let sampled := default [] (rows <$> h !! sample) in
      let records_per_minute :=
        groupby_size minute_key_leb (λ r, strftime_minute (timestamp r)) sampled in
      set_has_second_resolution
        (existsb (λ g, bool_decide (1 < g.2)%nat) records_per_minute)
        (set_store h σ)
  end.

(** [load_data], after [pd.read_csv] and [pd.to_datetime] have succeeded on
    a file with both required columns: [csv] is the parsed rows in file
    order. *)
Definition load_data (draw : list nat) (csv : list (Z * Q)) (σ : Session)
  : Session :=
  let df := mkFrame ["timestamp"; "activity_level"; "day_of_week"]
              ((λ p, mkRow p.1 p.2 (day_name p.1) ∅) <$> csv) in
  let '(l, h) := alloc df (store σ) in
  let σ := detect_data_resolution draw l (set_store h σ) in
  let stored := default [] (rows <$> store σ !! l) in
  mkSession (store σ)
    (mkModel (Some l) 0
       (unique_keys Z.leb ((λ r, Dt.date (timestamp r)) <$> stored))
       (has_second_resolution (self σ))).

(** [get_current_date], the value it returns.  A negative index of at least
    [-len(self.days)] counts from the end of the list.  Below that
    [self.days[self.current_day_index]] raises IndexError: [index_error]
    says when, and the [None] given here stands for it.  The methods of the
    application raise it (see [model_get_current_date]). *)
Definition get_current_date (m : DataModel) : option Z :=
  if bool_decide (days m = []) || (Z.of_nat (length (days m)) <=? current_day_index m)
  then None
  else py_index (days m) (current_day_index m).

Definition index_error (m : DataModel) : bool :=
  negb (bool_decide (days m = []))
  && (current_day_index m <? - Z.of_nat (length (days m))).

Definition get_data_for_current_day (σ : Session) : option DataFrame :=
  current_date ← get_current_date (self σ);
  df ← data_frame σ;
  Some (Frame.select (λ r, Dt.date (timestamp r) =? current_date) df).

(** One row of the hourly aggregate: after [reset_index()] the hour sits in
    a column that is still called [timestamp].  The [std] column (a square
    root) is not represented. *)
Module Hourly.
Record t := mk {
  timestamp : Z;
  first : float;
  last : float;
  max : float;
  min : float;
  mean : float
}.
End Hourly.

Definition get_daily_data_grouped_by_hour (σ : Session) : option (list Hourly.t) :=
  day_data ← get_data_for_current_day σ;
  if bool_decide (Frame.len day_data = 0%nat) then None
  else
    Some ((λ g, let s := Frame.activity g.2 in
                Hourly.mk g.1 (Series.first s) (Series.last s) (Series.max s)
                  (Series.min s) (Series.mean s))
          <$> groupby Z.leb (λ r, Dt.hour (timestamp r)) (rows day_data)).

(** One row of the weekly aggregate, indexed by the day name.  [std] is not
    represented. *)
Module Weekly.
Record t := mk {
  mean : float;
  max : float;
  min : float;
  count : float
}.
Definition nan_row : t := mk NaN NaN NaN NaN.
End Weekly.

(** [.reindex(labels)]: one row per label, in the order of [labels]; a label
    the frame does not have gets a row of NaN. *)
Definition reindex {V} (nan : V) (labels : list string) (df : list (string * V))
  : list (string * V) :=
  (λ d, (d, default nan ((λ hit, hit.2.2) <$> list_find (λ p, p.1 = d) df)))
  <$> labels.

Definition get_weekly_data (σ : Session) : option (list (string * Weekly.t)) :=
  match data (self σ) with
  | None => None
  | Some l =>
      df ← store σ !! l;
      Some (reindex Weekly.nan_row DAYS_OF_WEEK
              ((λ g, let s := Frame.activity g.2 in
                     (g.1, Weekly.mk (Series.mean s) (Series.max s) (Series.min s)
                             (Float.of_Z (Z.of_nat (Series.count s)))))
               <$> groupby String.leb day_of_week (rows df)))
  end.

(** [get_high_resolution_data]: the rows of the current day whose hour lies
    in [start_hour, end_hour), in a frame of their own ([.copy()]) with the
    fractional minute of the day added as [time_index]. *)
Definition time_index_of (ts : Z) : Q :=
  (inject_Z (Dt.hour ts * 60 + Dt.minute ts) + inject_Z (Dt.second ts) / 60)%Q.

Definition get_high_resolution_data (start_hour end_hour : Z) (σ : Session)
  : option DataFrame :=
  day_data ← get_data_for_current_day σ;
  if bool_decide (Frame.len day_data = 0%nat) then None
  else
    let window_data :=
      Frame.select (λ r, (start_hour <=? Dt.hour (timestamp r))
                         && (Dt.hour (timestamp r) <? end_hour)) day_data in
    if bool_decide (Frame.len window_data = 0%nat) then None
    else Some (Frame.assign "time_index"
                 (λ r, CFloat (Some (time_index_of (timestamp r)))) window_data).

(** *** High-resolution candles *)

Module Candle.
Record t := mk {
  time_index : Q;
  first : Q;
  last : Q;
  max : float;
  min : float;
  timestamp : Z;
  interval_seconds : Z
}.
End Candle.

Definition epoch_of (r : Row) : Z := Dt.epoch_seconds (timestamp r).

(** [(window_data['epoch'] // interval_seconds) * interval_seconds] *)
Definition interval_of (interval_seconds : Z) (r : Row) : Z :=
  (epoch_of r / interval_seconds) * interval_seconds.

(** The two columns [get_candle_data] writes into the frame it is given. *)
Definition with_intervals (interval_seconds : Z) (window_data : DataFrame)
  : DataFrame :=
  Frame.assign "interval" (λ r, CInt (interval_of interval_seconds r))
    (Frame.assign "epoch" (λ r, CInt (epoch_of r)) window_data).

(** A row of the frame as it stands after the two assignments. *)
Definition tagged (interval_seconds : Z) (r : Row) : Row :=
  Frame.set_cell "interval" (CInt (interval_of interval_seconds r))
    (Frame.set_cell "epoch" (CInt (epoch_of r)) r).

(** [Series.iloc[i]] on the activity levels of a group. *)
Definition iloc (g : list Row) (i : Z) : option Q :=
  activity_level <$> py_index g i.

(** The body of the loop over the groups: the candle of one group, nothing
    for a group of fewer than two rows.  The outer [None] stands for an
    exception. *)
Definition candle_of_group (interval_seconds : Z) (g : Z * list Row)
  : option (list Candle.t) :=
  let '(interval, group) := g in
  if bool_decide (1 < length group)%nat then
    let interval_dt := Dt.of_seconds interval in
    first ← iloc group 0;
    last ← iloc group (-1);
    Some [Candle.mk (time_index_of interval_dt) first last
            (Series.max (Frame.activity group)) (Series.min (Frame.activity group))
            interval_dt interval_seconds]
  else Some [].

(** The groups the loop runs over, for a non-zero interval. *)
Definition interval_groups (interval_seconds : Z) (window_data : DataFrame)
  : list (Z * list Row) :=
  groupby Z.leb (interval_of interval_seconds)
    (rows (with_intervals interval_seconds window_data)).

(** [get_candle_data(window_data, interval_seconds)].  [None] stands for an
    exception; for [interval_seconds <> 0] the frame passed in becomes
    [with_intervals interval_seconds window_data].  With
    [interval_seconds = 0] the floor division of pandas gives infinities
    and the product NaN, a key that [groupby] drops: the loop runs over no
    group and there is no candle. *)
Definition get_candle_data (window_data : option DataFrame) (interval_seconds : Z)
  : option (list Candle.t) :=
  match window_data with
  | None => Some []
  | Some wd =>
      if bool_decide (Frame.len wd = 0%nat) then Some []
      else if bool_decide (interval_seconds = 0) then Some []
      else mjoin <$> mapM (candle_of_group interval_seconds)
                        (interval_groups interval_seconds wd)
  end.

(** *** Pattern analysis *)

Module Day.
Record t := mk {
  pattern_type : string;
  peak_hour : Z;
  morning_activity : float;
  midday_activity : float;
  evening_activity : float
}.
End Day.

(** [hourly_data[hourly_data['timestamp'].between(lo, hi)]], both ends
    included. *)
Definition between (lo hi : Z) (hourly_data : list Hourly.t) : list Hourly.t :=
  List.filter (λ h, (lo <=? Hourly.timestamp h) && (Hourly.timestamp h <=? hi))
    hourly_data.

Definition segment_activity (hours : list Hourly.t) : float :=
  if bool_decide (0 < length hours)%nat
  then Series.mean (Hourly.mean <$> hours)
  else Float.of_Z 0.

Definition day_pattern (morning_activity midday_activity evening_activity : float)
  : string :=
  if Float.gt morning_activity midday_activity
     && Float.gt morning_activity evening_activity then "morning_peak"
  else if Float.gt evening_activity morning_activity
          && Float.gt evening_activity midday_activity then "evening_peak"
  else if Float.gt midday_activity morning_activity
          && Float.gt midday_activity evening_activity then "midday_peak"
  else if Float.lt (Float.abs (Float.sub morning_activity evening_activity))
                   (Float.of_Z 5)
          && Float.gt morning_activity midday_activity then "bimodal"
  else "consistent".

(** [analyze_day_patterns]; [None] is the empty dictionary.  Volatility (a
    mean of standard deviations) is not represented. *)
Definition analyze_day_patterns (σ : Session) : option Day.t :=
  match get_daily_data_grouped_by_hour σ with
  | None => None
  | Some hourly_data =>
      if bool_decide (length hourly_data = 0%nat) then None
      else
        let peak_hour :=
          default 0 (i ← Series.idxmax (Hourly.max <$> hourly_data);
                     Hourly.timestamp <$> hourly_data !! i) in
        let morning_activity := segment_activity (between 6 11 hourly_data) in
        let midday_activity := segment_activity (between 12 17 hourly_data) in
        let evening_activity := segment_activity (between 18 23 hourly_data) in
        Some (Day.mk
                (day_pattern morning_activity midday_activity evening_activity)
                peak_hour morning_activity midday_activity evening_activity)
  end.

Module Week.
Record t := mk {
  pattern_type : string;
  most_active_day : option string;
  least_active_day : option string;
  weekday_avg : float;
  weekend_avg : float;
  daily_averages : list (string * float)
}.
End Week.

(** [s[labels]] for a Series indexed by label. *)
Definition at_labels (s : list (string * float)) (labels : list string)
  : list float :=
  omap (λ d, (λ hit, hit.2.2) <$> list_find (λ p, p.1 = d) s) labels.

(** The label at the position [Series.idxmax] / [idxmin] finds. *)
Definition label_at (s : list (string * float)) (i : option nat) : option string :=
  i ← i; fst <$> s !! i.

Definition week_pattern (weekday_avg weekend_avg : float) (daily_avg : list float)
  : string :=
  if Float.gt weekend_avg (Float.mul weekday_avg (Float.of_Q (13 # 10)))
  then "weekend_warrior"
  else if Float.gt weekday_avg (Float.mul weekend_avg (Float.of_Q (13 # 10)))
  then "workweek_active"
  else if Series.std_lt daily_avg 10 then "consistent_weekly"
  else "variable_weekly".

(** [analyze_week_patterns]; [None] is the empty dictionary. *)
Definition analyze_week_patterns (σ : Session) : option Week.t :=
  match get_weekly_data σ with
  | None => None
  | Some weekly_data =>
      if bool_decide (weekly_data = []) then None
      else
        (* Fill NaN values with 0 for days with no data *)
        let daily_avg :=
          (λ p, (p.1, Float.fillna 0 (Weekly.mean p.2))) <$> weekly_data in
        let weekday_indices :=
          List.filter (λ i, i <? 5)%nat (seq 0 (length DAYS_OF_WEEK)) in
        let weekend_indices :=
          List.filter (λ i, 5 <=? i)%nat (seq 0 (length DAYS_OF_WEEK)) in
        let present i :=
          d ← DAYS_OF_WEEK !! i;
          if decide (d ∈ daily_avg.*1) then Some d else None in
        let weekday_days := omap present weekday_indices in
        let weekend_days := omap present weekend_indices in
        let weekday_avg :=
          if bool_decide (weekday_days ≠ [])
          then Series.mean (at_labels daily_avg weekday_days)
          else Float.of_Z 0 in
        let weekend_avg :=
          if bool_decide (weekend_days ≠ [])
          then Series.mean (at_labels daily_avg weekend_days)
          else Float.of_Z 0 in
        let most_least :=
          if bool_decide (daily_avg ≠ []) then
            (if negb (Series.isna_all daily_avg.*2)
             then label_at daily_avg (Series.idxmax daily_avg.*2) else None,
             if negb (Series.isna_all daily_avg.*2)
             then label_at daily_avg (Series.idxmin daily_avg.*2) else None)
          else (None, None) in
        Some (Week.mk (week_pattern weekday_avg weekend_avg daily_avg.*2)
                most_least.1 most_least.2 weekday_avg weekend_avg daily_avg)
  end.

End Model.

(** ** What is on screen *)

Module WeekCandle.
Record t := mk {
  x : nat;
  open_val : float;
  close_val : float;
  high_val : float;
  low_val : float;
  color : string
}.
End WeekCandle.

Inductive drawing :=
  | Placeholder (text : string)
  | WeekBars (candles : list WeekCandle.t)
  | HighResBars (candles : list Model.Candle.t)
      (selected_date start_hour end_hour interval_seconds : Z)
  | MinuteBars (candles : list (Z * Q * Q * float * float))
      (selected_date start_hour end_hour : Z)
  | HourBars (candles : list (Z * float * float * float * float))
      (selected_date : Z).

Inductive dialog :=
  | showerror (title message : string)
  | showinfo (title message : string).

(** ** class ChartView *)

Module ChartView.

(** The candles [plot_week_view] draws, one per day name found in the index
    of [weekly_data]. *)
Definition week_candles (weekly_data : list (string * Model.Weekly.t))
  : list WeekCandle.t :=
  omap (λ '(i, day),
          day_stats ← (λ hit, hit.2.2) <$> list_find (λ p, p.1 = day) weekly_data;
          (* Use mean as open, mean as close; max/min as high/low *)
          Some (WeekCandle.mk i
                  (Model.Weekly.mean day_stats) (Model.Weekly.mean day_stats)
                  (Model.Weekly.max day_stats) (Model.Weekly.min day_stats)
                  (if (5 <=? i)%nat then "red" else "green")))
       (imap pair DAYS_OF_WEEK).

Definition plot_week_view (weekly_data : option (list (string * Model.Weekly.t)))
  : drawing :=
  match weekly_data with
  | None => Placeholder "No weekly data available"
  | Some [] => Placeholder "No weekly data available"
  | Some w => WeekBars (week_candles w)
  end.

Definition plot_high_resolution_view (candle_data : list Model.Candle.t)
    (selected_date start_hour end_hour interval_seconds : Z) : drawing :=
  if bool_decide (length candle_data = 0%nat)
  then Placeholder "No data available for selected time window"
  else HighResBars candle_data selected_date start_hour end_hour interval_seconds.

End ChartView.

(** ** Methods with side effects

    A method body is a function of the object's state that ends normally
    with a value, at a [return], or by raising an exception. *)

Inductive exn :=
  | ValueError (message : string)
  | IndexError.

Inductive outcome (A : Type) :=
  | Normal (a : A)
  | Returned
  | Raised (e : exn).
Arguments Normal {A} a.
Arguments Returned {A}.
Arguments Raised {A} e.

Definition M (S A : Type) : Type := S → outcome A * S.

#[global] Instance M_ret {S} : MRet (M S) := λ A a s, (Normal a, s).

#[global] Instance M_bind {S} : MBind (M S) := λ A B f m s,
  match m s with
  | (Normal a, s') => f a s'
  | (Returned, s') => (Returned, s')
  | (Raised e, s') => (Raised e, s')
  end.

Definition get {S} : M S S := λ s, (Normal s, s).
Definition modify {S} (f : S → S) : M S unit := λ s, (Normal (), f s).
Definition raise {S A} (e : exn) : M S A := λ s, (Raised e, s).
Definition return_ {S A} : M S A := λ s, (Returned, s).
Definition when {S} (b : bool) (c : M S unit) : M S unit :=
  if b then c else mret ().

(** [try: body except ValueError as e: handler(str(e))]; any other
    exception passes through. *)
Definition try_except_ValueError {S A} (body : M S A) (handler : string → M S A)
  : M S A :=
  λ s, match body s with
       | (Raised (ValueError msg), s') => handler msg s'
       | r => r
       end.

(** [try: body except Exception: handler] *)
Definition try_except_Exception {S A} (body handler : M S A) : M S A :=
  λ s, match body s with
       | (Raised _, s') => handler s'
       | r => r
       end.

(** A call of a method from another method: a [return] inside the callee
    ends the callee only. *)
Definition call {S} (c : M S unit) : M S unit :=
  λ s, match c s with
       | (Returned, s') => (Normal (), s')
       | r => r
       end.

(** Running a method to its end: the state it leaves, and the exception
    that escapes, if one does. *)
Definition run {S} (c : M S unit) (s : S) : option exn * S :=
  match c s with
  | (Raised e, s') => (Some e, s')
  | (_, s') => (None, s')
  end.

(** [int(var.get())] on the text of an entry field: [None] is a text that
    is not an integer literal.  Python ends the message of the ValueError
    with the text itself; that tail is not represented. *)
Definition int_of_var {S} (text : option Z) : M S Z :=
  match text with
  | Some z => mret z
  | None => raise (ValueError "invalid literal for int() with base 10")
  end.

(** ** class KinetiCandlesApp *)

Record App := mkApp {
  model : Session;
  current_view : string;
  selected_start_hour : Z;
  selected_end_hour : Z;
  candle_interval_seconds : Z;
  start_hour_var : option Z;
  end_hour_var : option Z;
  chart : option drawing;
  dialogs : list dialog
}.

Module KinetiCandlesApp.

Definition set_current_view (v : string) (a : App) : App :=
  mkApp (model a) v (selected_start_hour a) (selected_end_hour a)
    (candle_interval_seconds a) (start_hour_var a) (end_hour_var a)
    (chart a) (dialogs a).

Definition set_selected_start_hour (h : Z) (a : App) : App :=
  mkApp (model a) (current_view a) h (selected_end_hour a)
    (candle_interval_seconds a) (start_hour_var a) (end_hour_var a)
    (chart a) (dialogs a).

Definition set_selected_end_hour (h : Z) (a : App) : App :=
  mkApp (model a) (current_view a) (selected_start_hour a) h
    (candle_interval_seconds a) (start_hour_var a) (end_hour_var a)
    (chart a) (dialogs a).

Definition set_chart (c : option drawing) (a : App) : App :=
  mkApp (model a) (current_view a) (selected_start_hour a) (selected_end_hour a)
    (candle_interval_seconds a) (start_hour_var a) (end_hour_var a)
    c (dialogs a).

(** [messagebox.showerror] / [showinfo]: the dialog is appended to the log
    of what the user was shown. *)
Definition messagebox (d : dialog) (a : App) : App :=
  mkApp (model a) (current_view a) (selected_start_hour a) (selected_end_hour a)
    (candle_interval_seconds a) (start_hour_var a) (end_hour_var a)
    (chart a) (dialogs a ++ [d]).

(** [self.model.get_current_date()] as the application calls it: the
    IndexError of an index below [-len(days)] is raised. *)
Definition model_get_current_date : M App (option Z) :=
  a ← get;
  if Model.index_error (self (model a)) then raise IndexError
  else mret (Model.get_current_date (self (model a))).

(** [update_view_label]: the text of the label is not represented, what is
    left is the call that can raise. *)
Definition update_view_label : M App unit :=
  a ← get;
  if bool_decide (data (self (model a)) = None) then return_
  else
    current_date ← model_get_current_date;
    if bool_decide (current_date = None) then return_ else mret ().

(** [update_week_view], without the text panel. *)
Definition update_week_view : M App unit :=
  a ← get;
  modify (set_chart
            (Some (ChartView.plot_week_view (Model.get_weekly_data (model a))))).

(** [update_high_res_view], without the text panel; the two information
    dialogs carry their titles and a fixed text.  Only a ValueError is
    handled: an IndexError of [get_current_date] escapes. *)
Definition update_high_res_view : M App unit :=
  try_except_ValueError
    (a ← get;
     (* Get hour values from UI *)
     h ← int_of_var (start_hour_var a);
     modify (set_selected_start_hour h);;
     h ← int_of_var (end_hour_var a);
     modify (set_selected_end_hour h);;
     (* Validate input *)
     a ← get;
     when ((selected_start_hour a <? 0) || (23 <? selected_start_hour a))
       (raise (ValueError "Start hour must be between 0 and 23"));;
     when ((selected_end_hour a <? 0) || (24 <? selected_end_hour a))
       (raise (ValueError "End hour must be between 0 and 24"));;
     when (selected_end_hour a <=? selected_start_hour a)
       (raise (ValueError "End hour must be greater than start hour"));;
     when (4 <? selected_end_hour a - selected_start_hour a)
       (raise (ValueError "Time window must be 4 hours or less"));;
     (* Switch to high-res view if not already in it *)
     when (bool_decide (current_view a ≠ "high_res"))
       (modify (set_current_view "high_res"));;
     (* Get current date *)
     current_date ← model_get_current_date;
     a ← get;
     match current_date with
     | None => return_
     | Some current_date =>
         let window_data :=
           Model.get_high_resolution_data
             (selected_start_hour a) (selected_end_hour a) (model a) in
         if bool_decide (from_option Frame.len 0%nat window_data = 0%nat) then
           modify (set_chart None);;
           modify (messagebox (showinfo "No Data"
                     "No data available for the selected time window"));;
           return_
         else
           match Model.get_candle_data window_data (candle_interval_seconds a) with
           | None => raise IndexError
           | Some candle_data =>
               if bool_decide (length candle_data = 0%nat) then
                 modify (set_chart None);;
                 modify (messagebox (showinfo "Insufficient Data"
                           "Not enough data points to create candles in the selected time window."));;
                 return_
               else
                 modify (set_chart
                           (Some (ChartView.plot_high_resolution_view candle_data
                                    current_date (selected_start_hour a)
                                    (selected_end_hour a)
                                    (candle_interval_seconds a))));;
                 (* Update view label *)
                 call update_view_label
           end
     end)
    (λ e, modify (messagebox (showerror "Invalid Time Window" e))).

End KinetiCandlesApp.

(** ** The older entry point, [candle.py]

    Its one class keeps the frame in [self.data] and never writes to it
    after loading, so the frame is carried by value. *)

Module Legacy.

Record App := mkApp {
  data : option DataFrame;
  current_view : string;
  current_day : Z;
  selected_start_hour : Z;
  selected_end_hour : Z;
  start_hour_var : option Z;
  end_hour_var : option Z;
  chart : option drawing;
  dialogs : list dialog
}.

Definition set_current_day (d : Z) (a : App) : App :=
  mkApp (data a) (current_view a) d (selected_start_hour a)
    (selected_end_hour a) (start_hour_var a) (end_hour_var a) (chart a)
    (dialogs a).

Definition set_selected_start_hour (h : Z) (a : App) : App :=
  mkApp (data a) (current_view a) (current_day a) h (selected_end_hour a)
    (start_hour_var a) (end_hour_var a) (chart a) (dialogs a).

Definition set_selected_end_hour (h : Z) (a : App) : App :=
  mkApp (data a) (current_view a) (current_day a) (selected_start_hour a) h
    (start_hour_var a) (end_hour_var a) (chart a) (dialogs a).

Definition set_chart (c : option drawing) (a : App) : App :=
  mkApp (data a) (current_view a) (current_day a) (selected_start_hour a)
    (selected_end_hour a) (start_hour_var a) (end_hour_var a) c (dialogs a).

Definition messagebox (d : dialog) (a : App) : App :=
  mkApp (data a) (current_view a) (current_day a) (selected_start_hour a)
    (selected_end_hour a) (start_hour_var a) (end_hour_var a) (chart a)
    (dialogs a ++ [d]).

(** The candles of [plot_week_view]: a day name without rows is skipped,
    open and close are the first and the last row of that name. *)
Definition week_candles (df : DataFrame) : list WeekCandle.t :=
  omap (λ '(i, day),
          let day_data := List.filter (λ r, bool_decide (day_of_week r = day))
                            (rows df) in
          if bool_decide (length day_data = 0%nat) then None
          else
            open_val ← Model.iloc day_data 0;
            close_val ← Model.iloc day_data (-1);
            Some (WeekCandle.mk i (Some open_val) (Some close_val)
                    (Series.max (Frame.activity day_data))
                    (Series.min (Frame.activity day_data))
                    (if Qle_bool open_val close_val then "green" else "red")))
       (imap pair DAYS_OF_WEEK).

Definition minute_index_of (r : Row) : Z :=
  Dt.hour (timestamp r) * 60 + Dt.minute (timestamp r).

(** The loop of [plot_high_resolution_view] over the minutes of the
    window. *)
Definition minute_candle (g : Z * list Row)
  : option (list (Z * Q * Q * float * float)) :=
  let '(minute, group) := g in
  if bool_decide (1 < length group)%nat then
    first ← Model.iloc group 0;
    last ← Model.iloc group (-1);
    Some [(minute, first, last, Series.max (Frame.activity group),
           Series.min (Frame.activity group))]
  else Some [].

Definition minute_data (window_data : list Row)
  : option (list (Z * Q * Q * float * float)) :=
  mjoin <$> mapM minute_candle (groupby Z.leb minute_index_of window_data).

Definition days_of (df : DataFrame) : list Z :=
  unique_keys Z.leb ((λ r, Dt.date (timestamp r)) <$> rows df).

(** The opening lines shared by [plot_day_view] and
    [plot_high_resolution_view]: pick the current date, resetting
    [self.current_day] when it is past the end. *)
Definition select_day (df : DataFrame) : M App (Z * list Row) :=
  let days := days_of df in
  if bool_decide (days = []) then return_
  else
    a ← get;
    when (Z.of_nat (length days) <=? current_day a) (modify (set_current_day 0));;
    a ← get;
    match py_index days (current_day a) with
    | None => raise IndexError
    | Some selected_date =>
        mret (selected_date,
              List.filter (λ r, Dt.date (timestamp r) =? selected_date) (rows df))
    end.

Definition plot_day_view (df : DataFrame) : M App unit :=
  '(selected_date, day_data) ← select_day df;
  modify (set_chart (Some (HourBars
    ((λ g, let s := Frame.activity g.2 in
           (g.1, Series.first s, Series.last s, Series.max s, Series.min s))
     <$> groupby Z.leb (λ r, Dt.hour (timestamp r)) day_data)
    selected_date))).

Definition plot_week_view (df : DataFrame) : M App unit :=
  modify (set_chart (Some (WeekBars (week_candles df)))).

Definition plot_high_resolution_view (df : DataFrame) : M App unit :=
  '(selected_date, day_data) ← select_day df;
  a ← get;
  let start_hour := selected_start_hour a in
  let end_hour := selected_end_hour a in
  let window_data :=
    List.filter (λ r, (start_hour <=? Dt.hour (timestamp r))
                      && (Dt.hour (timestamp r) <? end_hour)) day_data in
  if bool_decide (length window_data = 0%nat) then
    modify (set_chart (Some (Placeholder
              "No data available for selected time window")));;
    return_
  else
    match minute_data window_data with
    | None => raise IndexError
    | Some candles =>
        if bool_decide (length candles = 0%nat) then
          modify (set_chart (Some (Placeholder
                    "Insufficient resolution for minute-by-minute analysis")));;
          return_
        else
          modify (set_chart
                    (Some (MinuteBars candles selected_date start_hour end_hour)))
    end.

(** [plot_kcandles]; its handler for the exceptions of the plotting code is
    the dialog "Error Plotting Data". *)
Definition plot_kcandles : M App unit :=
  a ← get;
  match data a with
  | None => return_
  | Some df =>
      modify (set_chart None);;
      try_except_Exception
        (if bool_decide (current_view a = "day") then call (plot_day_view df)
         else if bool_decide (current_view a = "week") then call (plot_week_view df)
         else if bool_decide (current_view a = "high_res")
              then call (plot_high_resolution_view df)
         else mret ())
        (modify (messagebox (showerror "Error Plotting Data" "")))
  end.

(** [update_view_label]: the text of the label is not represented, what is
    left is the indexing [days[self.current_day]], which raises IndexError
    below [-len(days)]. *)
Definition update_view_label : M App unit :=
  a ← get;
  match data a with
  | None => return_
  | Some df =>
      let label :=
        let days := days_of df in
        if negb (bool_decide (days = []))
           && (current_day a <? Z.of_nat (length days))
        then match py_index days (current_day a) with
             | None => raise IndexError
             | Some _ => mret ()
             end
        else mret () in
      if bool_decide (current_view a = "day") then label
      else if bool_decide (current_view a = "week") then mret ()
      else if bool_decide (current_view a = "high_res") then label
      else mret ()
  end.

(** [update_high_res_view].  Only a ValueError is handled. *)
Definition update_high_res_view : M App unit :=
  try_except_ValueError
    (a ← get;
     h ← int_of_var (start_hour_var a);
     modify (set_selected_start_hour h);;
     h ← int_of_var (end_hour_var a);
     modify (set_selected_end_hour h);;
     (* Validate input *)
     a ← get;
     when ((selected_start_hour a <? 0) || (23 <? selected_start_hour a))
       (raise (ValueError "Start hour must be between 0 and 23"));;
     when ((selected_end_hour a <? 0) || (24 <? selected_end_hour a))
       (raise (ValueError "End hour must be between 0 and 24"));;
     when ((selected_end_hour a <=? selected_start_hour a)
           || (4 <? selected_end_hour a - selected_start_hour a))
       (raise (ValueError "Time window must be between 1 and 4 hours"));;
     (* Update view if currently in high-res mode *)
     when (bool_decide (current_view a = "high_res"))
       (call update_view_label;; call plot_kcandles))
    (λ e, modify (messagebox (showerror "Invalid Time Window" e))).

(** [analyze_week_patterns], as the values it prints.  The frame is
    reindexed but not filled: a day name without rows stays NaN and the
    reductions skip it.  [idxmax] and [idxmin] have no label to give when
    every day is NaN. *)
Definition analyze_week_patterns (df : DataFrame) : Model.Week.t :=
  let daily_avg :=
    Model.reindex NaN DAYS_OF_WEEK
      ((λ g, (g.1, Series.mean (Frame.activity g.2)))
       <$> groupby String.leb day_of_week (rows df)) in
  let weekday_avg :=
    Series.mean (Model.at_labels daily_avg
                   ["Monday"; "Tuesday"; "Wednesday"; "Thursday"; "Friday"]) in
  let weekend_avg :=
    Series.mean (Model.at_labels daily_avg ["Saturday"; "Sunday"]) in
  Model.Week.mk
    (Model.week_pattern weekday_avg weekend_avg daily_avg.*2)
    (Model.label_at daily_avg (Series.idxmax daily_avg.*2))
    (Model.label_at daily_avg (Series.idxmin daily_avg.*2))
    weekday_avg weekend_avg daily_avg.

End Legacy.

(** ** Vocabulary of the statements *)

Definition is_max (m : Q) (l : list Q) : Prop :=
  m ∈ l ∧ ∀ x, x ∈ l → (x <= m)%Q.

Definition is_min (m : Q) (l : list Q) : Prop :=
  m ∈ l ∧ ∀ x, x ∈ l → (m <= x)%Q.

Definition is_mean (m : Q) (l : list Q) : Prop :=
  l ≠ [] ∧ (m == Series.qsum l / inject_Z (Z.of_nat (length l)))%Q.

(** A float that is a number equal to [q]. *)
Definition is_num (a : float) (q : Q) : Prop :=
  ∃ x, a = Some x ∧ (x == q)%Q.

(** [a > b] holds: both are numbers and the first is the larger. *)
Definition fgt (a b : float) : Prop :=
  ∃ x y, a = Some x ∧ b = Some y ∧ (y < x)%Q.

(** [abs(a - b) < c] holds. *)
Definition fclose (a b : float) (c : Q) : Prop :=
  ∃ x y, a = Some x ∧ b = Some y ∧ (Qabs (x - y) < c)%Q.

(** The rows of a frame that carry a given day name, minute key. *)
Definition pooled (day : string) (df : DataFrame) : list Q :=
  activity_level <$> filter (λ r, day_of_week r = day) (rows df).

Definition in_minute (k : minute_key) (df : DataFrame) : list Row :=
  filter (λ r, strftime_minute (timestamp r) = k) (rows df).

(** The window test of the design document. *)
Definition invalid_window (start_hour end_hour : Z) : Prop :=
  start_hour < 0 ∨ start_hour > 23 ∨ end_hour < 0 ∨ end_hour > 24
  ∨ end_hour <= start_hour ∨ end_hour - start_hour > 4.

#[global] Instance invalid_window_dec s e : Decision (invalid_window s e).
Proof. unfold invalid_window. apply _. Defined.

(** ** Sample data

    Day 4 after the epoch, 1970-01-05, is a Monday. *)

Definition morning_window : DataFrame :=
  mkFrame ["timestamp"; "activity_level"; "day_of_week"; "time_index"]
    [mkRow (Dt.at_time 4 8 7 31) 10 "Monday" ∅;
     mkRow (Dt.at_time 4 8 7 45) 20 "Monday" ∅;
     mkRow (Dt.at_time 4 8 9 2) 30 "Monday" ∅].

Definition one_sample : DataFrame :=
  mkFrame ["timestamp"; "activity_level"; "day_of_week"]
    [mkRow (Dt.at_time 4 8 0 0) 10 "Monday" ∅].

Definition two_in_a_minute : DataFrame :=
  mkFrame ["timestamp"; "activity_level"; "day_of_week"]
    [mkRow (Dt.at_time 4 8 7 31) 10 "Monday" ∅;
     mkRow (Dt.at_time 4 8 7 45) 20 "Monday" ∅].

(** A session in which [df] is the only frame and no file was loaded. *)
Definition holding (df : DataFrame) : Session :=
  mkSession {[ 0%nat := df ]} (mkModel None 0 [] false).

Definition fresh_session : Session :=
  mkSession ∅ (mkModel None 0 [] false).

(** The session after loading a file with the given rows, and its frame. *)
Definition loaded (csv : list (Z * Q)) : Session :=
  Model.load_data [] csv fresh_session.

Definition frame_of (σ : Session) : DataFrame :=
  default (mkFrame [] []) (Model.data_frame σ).

(** One Monday with a sample at 08:00, 13:00 and 19:00. *)
Definition bimodal_day : Session :=
  loaded [(Dt.at_time 4 8 0 0, 50%Q); (Dt.at_time 4 13 0 0, 30%Q);
          (Dt.at_time 4 19 0 0, 50%Q)].

Definition bimodal_analysis : Model.Day.t :=
  Model.Day.mk "bimodal" 8 (Some 50%Q) (Some 30%Q) (Some 50%Q).

(** Both applications as they start (day view, window 08-10) with a file
    loaded, after the user typed 10 and 8 into the two hour fields. *)
Definition inverted_entry : App :=
  mkApp bimodal_day "day" 8 10 60 (Some 10) (Some 8) None [].

Definition legacy_inverted_entry : Legacy.App :=
  Legacy.mkApp (Some (frame_of bimodal_day)) "high_res" 0 8 10
    (Some 10) (Some 8) None [].

(** A file with a single sample on Monday 1970-01-05, and one with a single
    sample on Tuesday 1970-01-06. *)
Definition monday_only : Session := loaded [(Dt.at_time 4 8 0 0, 10%Q)].
Definition tuesday_only : Session := loaded [(Dt.at_time 5 8 0 0, 10%Q)].

(** The older application in its high-resolution view, window 08-10, after
    the user typed 5 and 10. *)
Definition legacy_wide_entry : Legacy.App :=
  Legacy.mkApp (Some two_in_a_minute) "high_res" 0 8 10
    (Some 5) (Some 10) None [].

(** ** The day index of class DataModel *)

Module Navigation.

Definition set_current_day_index (i : Z) (m : DataModel) : DataModel :=
  mkModel (data m) i (days m) (has_second_resolution m).

Definition next_day (m : DataModel) : DataModel :=
  if bool_decide (days m = []) then m
  else set_current_day_index
         ((current_day_index m + 1) mod Z.of_nat (length (days m))) m.

Definition previous_day (m : DataModel) : DataModel :=
  if bool_decide (days m = []) then m
  else set_current_day_index
         ((current_day_index m - 1) mod Z.of_nat (length (days m))) m.

(** [list.index(x)]: the first position of [x]; [None] stands for
    [ValueError]. *)
Definition index_of (x : Z) (l : list Z) : option Z :=
  (λ hit, Z.of_nat hit.1) <$> list_find (λ d, d = x) l.

(** [find_day_index_by_name]: the position in [self.days] of the date of
    the first row, in frame order, that carries the day name. *)
Definition find_day_index_by_name (day_name : string) (σ : Session)
  : option Z :=
  match Model.data_frame σ with
  | None => None
  | Some df =>
      if bool_decide (day_name ∉ DAYS_OF_WEEK) then None
      else
        let day_data :=
          Frame.select (λ r, bool_decide (day_of_week r = day_name)) df in
        if bool_decide (Frame.len day_data = 0%nat) then None
        else
          r ← py_index (rows day_data) 0;
          index_of (Dt.date (timestamp r)) (days (self σ))
  end.

(** The same steps on the session that owns the model. *)
Definition on_model (f : DataModel → DataModel) (σ : Session) : Session :=
  mkSession (store σ) (f (self σ)).

End Navigation.

(** The cursor points at one of the dates. *)
Definition cursor_in_range (m : DataModel) : Prop :=
  0 <= current_day_index m < Z.of_nat (length (days m)).

(** What [load_data] leaves behind and navigation keeps: a stored frame
    whose rows carry the weekday of their own timestamp, and the list of its
    distinct dates in ascending order. *)
Definition consistent (σ : Session) : Prop :=
  ∃ df, Model.data_frame σ = Some df
        ∧ days (self σ)
          = unique_keys Z.leb ((λ r, Dt.date (timestamp r)) <$> rows df)
        ∧ ∀ r, r ∈ rows df → day_of_week r = day_name (timestamp r).

(** A file with samples on three days, Monday to Wednesday. *)
Definition three_days : Session :=
  loaded [(Dt.at_time 4 8 7 31, 10%Q); (Dt.at_time 4 8 7 45, 20%Q);
          (Dt.at_time 5 9 0 0, 30%Q); (Dt.at_time 6 20 15 0, 5%Q)].

Definition hourly_of (σ : Session) : list Model.Hourly.t :=
  default [] (Model.get_daily_data_grouped_by_hour σ).

Definition day_frame_of (σ : Session) : DataFrame :=
  default (mkFrame [] []) (Model.get_data_for_current_day σ).

Definition window_of (start_hour end_hour : Z) (σ : Session) : DataFrame :=
  default (mkFrame [] []) (Model.get_high_resolution_data start_hour end_hour σ).

(** The weekday of a calendar date, as [day_name] computes it. *)
Definition weekday_of_date (d : Z) : string :=
  default "Monday" (DAYS_OF_WEEK !! Z.to_nat ((d + 3) mod 7)).

(** ** More of class ChartView *)

Module Charts.

(** [plot_day_view], the candles: one per row of the hourly aggregate, at
    the hour, with [first], [last], [max] and [min] as open, close, high
    and low. *)
Definition plot_day_view (hourly_data : option (list Model.Hourly.t))
    (selected_date : Z) : drawing :=
  match hourly_data with
  | None => Placeholder "No data available for selected day"
  | Some [] => Placeholder "No data available for selected day"
  | Some h =>
      HourBars ((λ r, (Model.Hourly.timestamp r, Model.Hourly.first r,
                       Model.Hourly.last r, Model.Hourly.max r,
                       Model.Hourly.min r)) <$> h)
        selected_date
  end.

(** The tick positions of the high-resolution view, in minutes of the day:
    [[min_time + i for i in range(0, total_minutes + 1, tick_minutes)]]. *)
Definition tick_minutes (total_minutes : Z) : Z :=
  if total_minutes <=? 60 then 5
  else if total_minutes <=? 120 then 10
  else if total_minutes <=? 240 then 15
  else 30.

Definition py_range_step (stop step : Z) : list Z :=
  (λ i, i * step) <$> seqZ 0 ((stop + step - 1) / step).

Definition x_ticks (start_hour end_hour : Z) : list Z :=
  let min_time := start_hour * 60 in
  let max_time := end_hour * 60 in
  let total_minutes := max_time - min_time in
  (λ i, min_time + i) <$> py_range_step (total_minutes + 1) (tick_minutes total_minutes).

(** What [_plot_candle] draws at [x]: the high-low line and the body.  The
    height of the body is [abs(open_val - close_val)], here without the
    rounding of the subtraction. *)
Module Shape.
Record t := mk {
  x : Q;
  line_from : Q;
  line_to : Q;
  body_bottom : Q;
  body_height : Q;
  color : string
}.
End Shape.

Definition _plot_candle (x open_val close_val high_val low_val : Q) : Shape.t :=
  (* Determine color based on open vs close *)
  let color := if Qle_bool open_val close_val then "green" else "red" in
  Shape.mk x low_val high_val
    (if Float.Qltb close_val open_val then close_val else open_val)
    (Qabs (open_val - close_val)) color.

(** The loops of [plot_day_view] and [plot_high_resolution_view]: one call
    of [_plot_candle] per row.  [None] stands for a NaN among the values,
    whose geometry is not represented. *)
Definition day_view_shapes (hourly_data : list Model.Hourly.t)
  : option (list Shape.t) :=
  mapM (λ row,
          open_val ← Model.Hourly.first row;
          close_val ← Model.Hourly.last row;
          high_val ← Model.Hourly.max row;
          low_val ← Model.Hourly.min row;
          Some (_plot_candle (inject_Z (Model.Hourly.timestamp row))
                  open_val close_val high_val low_val))
       hourly_data.

Definition high_res_shapes (candle_data : list Model.Candle.t)
  : option (list Shape.t) :=
  mapM (λ row,
          high_val ← Model.Candle.max row;
          low_val ← Model.Candle.min row;
          Some (_plot_candle (Model.Candle.time_index row)
                  (Model.Candle.first row) (Model.Candle.last row)
                  high_val low_val))
       candle_data.

End Charts.

(** ** The time domain window, activity counts *)

Module TimeDomain.

Module Counts.
Record t := mk {
  total : nat;
  low : nat;
  moderate : nat;
  high : nat
}.
End Counts.

(** The four numbers [calculate_time_domain("counts", ...)] prints; [None]
    when it prints that there is no data for the current day. *)
Definition activity_counts (σ : Session) : option Counts.t :=
  match Model.get_data_for_current_day σ with
  | None => None
  | Some day_data =>
      if bool_decide (Frame.len day_data = 0%nat) then None
      else
        (* Count activity levels by intensity *)
        let low :=
          Frame.len (Frame.select (λ r, Float.Qltb (activity_level r) 30)
                       day_data) in
        let moderate :=
          Frame.len (Frame.select (λ r, Qle_bool 30 (activity_level r)
                                        && Float.Qltb (activity_level r) 60)
                       day_data) in
        let high :=
          Frame.len (Frame.select (λ r, Qle_bool 60 (activity_level r))
                       day_data) in
        Some (Counts.mk (Frame.len day_data) low moderate high)
  end.

End TimeDomain.

(** ** More of class KinetiCandlesApp *)

Module AppViews.
Import KinetiCandlesApp.

Definition set_model (σ : Session) (a : App) : App :=
  mkApp σ (current_view a) (selected_start_hour a) (selected_end_hour a)
    (candle_interval_seconds a) (start_hour_var a) (end_hour_var a)
    (chart a) (dialogs a).

Definition set_candle_interval_seconds (seconds : Z) (a : App) : App :=
  mkApp (model a) (current_view a) (selected_start_hour a) (selected_end_hour a)
    seconds (start_hour_var a) (end_hour_var a) (chart a) (dialogs a).

(** [update_day_view], without the text panel; the information dialog
    carries its title and a fixed text. *)
Definition update_day_view : M App unit :=
  (* Get current date *)
  current_date ← model_get_current_date;
  a ← get;
  match current_date with
  | None => return_
  | Some current_date =>
      (* Get hourly data *)
      let hourly_data := Model.get_daily_data_grouped_by_hour (model a) in
      if bool_decide (from_option length 0%nat hourly_data = 0%nat) then
        modify (set_chart None);;
        modify (messagebox (showinfo "No Data"
                  "No data available for the current date"));;
        return_
      else
        (* Update chart *)
        modify (set_chart (Some (Charts.plot_day_view hourly_data current_date)))
  end.

(** [update_view]; the handler's dialog carries its title. *)
Definition update_view : M App unit :=
  a ← get;
  if bool_decide (data (self (model a)) = None) then return_
  else
    try_except_Exception
      (if bool_decide (current_view a = "day") then call update_day_view
       else if bool_decide (current_view a = "week") then call update_week_view
       else if bool_decide (current_view a = "high_res")
            then call update_high_res_view
       else mret ())
      (modify (messagebox (showerror "Error Updating View" ""))).

(** [switch_view], [next_day], [previous_day] and [on_day_selected].  The
    view label is updated outside any [try]. *)
Definition switch_view (view_type : string) : M App unit :=
  a ← get;
  if bool_decide (data (self (model a)) = None) then
    modify (messagebox (showinfo "No Data" "Please load data first"));;
    return_
  else
    modify (set_current_view view_type);;
    call update_view_label;;
    call update_view.

Definition next_day : M App unit :=
  a ← get;
  if bool_decide (data (self (model a)) = None) then return_
  else
    modify (λ a, set_model (Navigation.on_model Navigation.next_day (model a)) a);;
    call update_view_label;;
    call update_view.

Definition previous_day : M App unit :=
  a ← get;
  if bool_decide (data (self (model a)) = None) then return_
  else
    modify (λ a, set_model
                   (Navigation.on_model Navigation.previous_day (model a)) a);;
    call update_view_label;;
    call update_view.

(** [selected_day] is the text of the day dropdown. *)
Definition on_day_selected (selected_day : string) : M App unit :=
  a ← get;
  if bool_decide (data (self (model a)) = None) || bool_decide (selected_day = "")
  then return_
  else
    (* Find the day index *)
    match Navigation.find_day_index_by_name selected_day (model a) with
    | None =>
        modify (messagebox (showinfo "No Data"
                  "No data available for the selected day"));;
        return_
    | Some day_index =>
        (* Update model and view *)
        modify (λ a, set_model
                       (Navigation.on_model
                          (Navigation.set_current_day_index day_index) (model a)) a);;
        modify (set_current_view "day");;  (* Switch to day view *)
        call update_view_label;;
        call update_view
    end.

(** [set_candle_interval], without the dropdown. *)
Definition set_candle_interval (seconds : Z) : M App unit :=
  (* Update the interval *)
  modify (set_candle_interval_seconds seconds);;
  (* Update the view if we're already in high-res mode *)
  a ← get;
  when (bool_decide (current_view a = "high_res")) (call update_high_res_view).

End AppViews.

(** A session with data that was loaded into an application. *)
Definition app_with (σ : Session) : App :=
  mkApp σ "day" 8 10 60 (Some 8) (Some 10) None [].

(** [a'] is [a] with the model [σ'] and the hourly candles of its current
    date on the chart. *)
Definition shows_day (σ' : Session) (a a' : App) : Prop :=
  ∃ d hourly,
    Model.get_current_date (self σ') = Some d
    ∧ Model.get_daily_data_grouped_by_hour σ' = Some hourly
    ∧ hourly ≠ []
    ∧ a' = KinetiCandlesApp.set_chart
             (Some (Charts.plot_day_view (Some hourly) d))
             (AppViews.set_model σ' a).

(** The shape [_plot_candle] draws at [x] for the four numbers of a row:
    the line runs from low to high, the body starts at the smaller of open
    and close, which lies on the line, and is green exactly when the close
    is not below the open.  Only comparisons are involved. *)
Definition drawn_from (x open_val close_val high_val low_val : Q)
    (s : Charts.Shape.t) : Prop :=
  Charts.Shape.x s = x
  ∧ Charts.Shape.line_from s = low_val ∧ Charts.Shape.line_to s = high_val
  ∧ (Charts.Shape.body_bottom s = open_val
     ∨ Charts.Shape.body_bottom s = close_val)
  ∧ (Charts.Shape.body_bottom s <= open_val)%Q
  ∧ (Charts.Shape.body_bottom s <= close_val)%Q
  ∧ (low_val <= Charts.Shape.body_bottom s <= high_val)%Q
  ∧ (low_val <= open_val <= high_val)%Q
  ∧ (low_val <= close_val <= high_val)%Q
  ∧ (0 <= Charts.Shape.body_height s)%Q
  ∧ (Charts.Shape.color s = "green" ↔ (open_val <= close_val)%Q)
  ∧ (Charts.Shape.color s = "red" ↔ (close_val < open_val)%Q).

(** The indexing of [candle.py]'s [update_view_label] raises IndexError:
    there is data, its list of days is not empty and the cursor is below
    [-len(days)]. *)
Definition legacy_index_error (a : Legacy.App) : bool :=
  match Legacy.data a with
  | None => false
  | Some df =>
      negb (bool_decide (Legacy.days_of df = []))
      && (Legacy.current_day a <? - Z.of_nat (length (Legacy.days_of df)))
  end.

(** * Properties *)

Ltac unfold_method :=
  cbv [mbind M_bind get modify int_of_var mret M_ret when raise return_ call
       try_except_ValueError try_except_Exception run].

(** The same, leaving the calls of other methods folded. *)
Ltac unfold_body :=
  cbv [mbind M_bind get modify int_of_var mret M_ret when raise return_
       try_except_ValueError try_except_Exception run].

(** ** [groupby] *)

Section groupby_facts.
Context {A K : Type} `{EqDecision K} (leb : K → K → bool).

Lemma elem_of_insert_key k x ks :
  x ∈ insert_key leb k ks ↔ x = k ∨ x ∈ ks.
Proof.
  induction ks as [|k' ks IH]; simpl.
  - rewrite list_elem_of_singleton. set_solver.
  - destruct (leb k k'); [set_solver|].
    rewrite !elem_of_cons, IH. tauto.
Qed.

Lemma NoDup_insert_key k ks :
  k ∉ ks → NoDup ks → NoDup (insert_key leb k ks).
Proof.
  induction ks as [|k' ks IH]; simpl; intros Hk Hnd.
  - apply NoDup_singleton.
  - destruct (leb k k').
    + by apply NoDup_cons.
    + apply NoDup_cons in Hnd as [Hk' Hnd].
      apply NoDup_cons. split.
      * rewrite elem_of_insert_key. set_solver.
      * apply IH; [set_solver|done].
Qed.

Lemma elem_of_unique_keys x ks : x ∈ unique_keys leb ks ↔ x ∈ ks.
Proof.
  induction ks as [|k ks IH]; simpl; [done|].
  destruct (decide (k ∈ unique_keys leb ks)) as [Hin|Hin].
  - rewrite elem_of_cons, IH. split; [tauto|].
    intros [->|?]; [by apply IH|done].
  - rewrite elem_of_insert_key, elem_of_cons, IH. tauto.
Qed.

Lemma NoDup_unique_keys ks : NoDup (unique_keys leb ks).
Proof.
  induction ks as [|k ks IH]; simpl; [constructor|].
  destruct (decide (k ∈ unique_keys leb ks)); [done|].
  by apply NoDup_insert_key.
Qed.

Lemma groupby_fst (key : A → K) rs :
  (groupby leb key rs).*1 = unique_keys leb (key <$> rs).
Proof.
  unfold groupby. rewrite <- list_fmap_compose.
  rewrite <- (list_fmap_id (unique_keys leb (key <$> rs))) at 2.
  by apply list_fmap_ext.
Qed.

(** The keys of the groups are exactly the keys that occur. *)
Lemma groupby_keys (key : A → K) rs k :
  k ∈ (groupby leb key rs).*1 ↔ ∃ r, r ∈ rs ∧ key r = k.
Proof.
  rewrite groupby_fst, elem_of_unique_keys, list_elem_of_fmap.
  naive_solver.
Qed.

Lemma groupby_NoDup (key : A → K) rs : NoDup (groupby leb key rs).*1.
Proof. rewrite groupby_fst. apply NoDup_unique_keys. Qed.

(** A group holds the rows with its key and nothing else. *)
Lemma groupby_group (key : A → K) rs k g :
  (k, g) ∈ groupby leb key rs →
  g = group key rs k ∧ ∃ r, r ∈ rs ∧ key r = k.
Proof.
  unfold groupby. rewrite list_elem_of_fmap.
  intros (k' & [= -> ->] & Hk). split; [done|].
  apply elem_of_unique_keys, list_elem_of_fmap in Hk. naive_solver.
Qed.

Lemma groupby_complete (key : A → K) rs r :
  r ∈ rs → (key r, group key rs (key r)) ∈ groupby leb key rs.
Proof.
  intros Hr. unfold groupby. apply list_elem_of_fmap.
  exists (key r). split; [done|].
  apply elem_of_unique_keys, list_elem_of_fmap. eauto.
Qed.

(** No group is empty. *)
Lemma groupby_nonempty (key : A → K) rs k g :
  (k, g) ∈ groupby leb key rs → g ≠ [].
Proof.
  intros [-> (r & Hr & Hk)]%groupby_group Hnil.
  assert (r ∈ group key rs k) as Hin.
  { unfold group. apply list_elem_of_filter. done. }
  rewrite Hnil in Hin. by apply not_elem_of_nil in Hin.
Qed.

End groupby_facts.

(** ** Reductions *)

Lemma Qltb_lt x y : Float.Qltb x y = true ↔ (x < y)%Q.
Proof.
  unfold Float.Qltb. rewrite negb_true_iff.
  split.
  - intros H. apply Qnot_le_lt. intros Hle.
    apply Qle_bool_iff in Hle. congruence.
  - intros H. destruct (Qle_bool y x) eqn:E; [|done].
    apply Qle_bool_iff in E. exfalso. by apply (Qlt_not_le x y).
Qed.

Lemma gt_fgt a b : Float.gt a b = true ↔ fgt a b.
Proof.
  unfold Float.gt, fgt. destruct a as [x|], b as [y|]; simpl.
  - rewrite Qltb_lt. split; [eauto 6|]. by intros (?&?&[= <-]&[= <-]&?).
  - split; [done|]. by intros (?&?&?&?&?).
  - split; [done|]. by intros (?&?&?&?&?).
  - split; [done|]. by intros (?&?&?&?&?).
Qed.

Lemma dropna_activity g : Series.dropna (Frame.activity g) = activity_level <$> g.
Proof.
  unfold Series.dropna, Frame.activity.
  induction g as [|r g IH]; [done|].
  change (activity_level r :: omap id ((λ r, Some (activity_level r)) <$> g)
          = activity_level r :: (activity_level <$> g)).
  by f_equal.
Qed.

Lemma qmax_cases x y :
  (Series.qmax x y = x ∧ (y <= x)%Q) ∨ (Series.qmax x y = y ∧ (x <= y)%Q).
Proof.
  unfold Series.qmax. destruct (Qle_bool x y) eqn:E.
  - right. split; [done|]. by apply Qle_bool_iff.
  - left. split; [done|]. apply Qlt_le_weak, Qnot_le_lt.
    intros H%Qle_bool_iff. congruence.
Qed.

Lemma qmin_cases x y :
  (Series.qmin x y = x ∧ (x <= y)%Q) ∨ (Series.qmin x y = y ∧ (y <= x)%Q).
Proof.
  unfold Series.qmin. destruct (Qle_bool y x) eqn:E.
  - right. split; [done|]. by apply Qle_bool_iff.
  - left. split; [done|]. apply Qlt_le_weak, Qnot_le_lt.
    intros H%Qle_bool_iff. congruence.
Qed.

Lemma foldl_qmax_is_max l x : is_max (foldl Series.qmax x l) (x :: l).
Proof.
  revert x. induction l as [|y l IH]; intros x; simpl.
  - split; [set_solver|]. intros z ->%list_elem_of_singleton. apply Qle_refl.
  - destruct (IH (Series.qmax x y)) as [Hin Hub].
    destruct (qmax_cases x y) as [[E Hle]|[E Hle]]; rewrite E in *.
    + split.
      * apply elem_of_cons in Hin as [->|?]; set_solver.
      * intros z [->|[->|Hz]%elem_of_cons]%elem_of_cons.
        -- apply Hub. set_solver.
        -- eapply Qle_trans; [exact Hle|]. apply Hub. set_solver.
        -- apply Hub. set_solver.
    + split.
      * apply elem_of_cons in Hin as [->|?]; set_solver.
      * intros z [->|[->|Hz]%elem_of_cons]%elem_of_cons.
        -- eapply Qle_trans; [exact Hle|]. apply Hub. set_solver.
        -- apply Hub. set_solver.
        -- apply Hub. set_solver.
Qed.

Lemma foldl_qmin_is_min l x : is_min (foldl Series.qmin x l) (x :: l).
Proof.
  revert x. induction l as [|y l IH]; intros x; simpl.
  - split; [set_solver|]. intros z ->%list_elem_of_singleton. apply Qle_refl.
  - destruct (IH (Series.qmin x y)) as [Hin Hlb].
    destruct (qmin_cases x y) as [[E Hle]|[E Hle]]; rewrite E in *.
    + split.
      * apply elem_of_cons in Hin as [->|?]; set_solver.
      * intros z [->|[->|Hz]%elem_of_cons]%elem_of_cons.
        -- apply Hlb. set_solver.
        -- eapply Qle_trans; [|exact Hle]. apply Hlb. set_solver.
        -- apply Hlb. set_solver.
    + split.
      * apply elem_of_cons in Hin as [->|?]; set_solver.
      * intros z [->|[->|Hz]%elem_of_cons]%elem_of_cons.
        -- eapply Qle_trans; [|exact Hle]. apply Hlb. set_solver.
        -- apply Hlb. set_solver.
        -- apply Hlb. set_solver.
Qed.

(** On the activity levels of some rows, [max], [min] and [mean] are NaN
    exactly when there is no row, and otherwise the true maximum, minimum
    and arithmetic mean. *)
Lemma max_activity g :
  match Series.max (Frame.activity g) with
  | None => g = []
  | Some m => is_max m (activity_level <$> g)
  end.
Proof.
  unfold Series.max. rewrite dropna_activity.
  destruct g as [|r g]; simpl; [done|]. apply foldl_qmax_is_max.
Qed.

Lemma min_activity g :
  match Series.min (Frame.activity g) with
  | None => g = []
  | Some m => is_min m (activity_level <$> g)
  end.
Proof.
  unfold Series.min. rewrite dropna_activity.
  destruct g as [|r g]; simpl; [done|]. apply foldl_qmin_is_min.
Qed.

Lemma mean_activity g :
  match Series.mean (Frame.activity g) with
  | None => g = []
  | Some m => is_mean m (activity_level <$> g)
  end.
Proof.
  unfold Series.mean. rewrite dropna_activity.
  destruct g as [|r g]; simpl; [done|].
  split; [done|]. apply Qred_correct.
Qed.

(** ** Positions in a list *)

Lemma py_index_0 {A} (l : list A) : py_index l 0 = head l.
Proof. unfold py_index. simpl. by destruct l. Qed.

Lemma py_index_minus_1 {A} (l : list A) : py_index l (-1) = last l.
Proof.
  unfold py_index. simpl.
  destruct l as [|x l]; [done|].
  destruct (- Z.of_nat (length (x :: l)) <=? -1) eqn:E.
  - replace (Z.to_nat (Z.of_nat (length (x :: l)) + -1)) with (length l)
      by (simpl length; lia).
    rewrite last_lookup. done.
  - apply Z.leb_gt in E. simpl length in E. lia.
Qed.

(** ** Interval buckets *)

Section interval_buckets.
Variable W : Z.

Lemma rows_with_intervals wd :
  rows (Model.with_intervals W wd) = Model.tagged W <$> rows wd.
Proof.
  unfold Model.with_intervals, Frame.assign. simpl.
  rewrite <- list_fmap_compose. by apply list_fmap_ext.
Qed.

Lemma interval_of_tagged r :
  Model.interval_of W (Model.tagged W r) = Model.interval_of W r.
Proof. done. Qed.

Lemma activity_tagged (g : list Row) :
  activity_level <$> (Model.tagged W <$> g) = activity_level <$> g.
Proof. rewrite <- list_fmap_compose. by apply list_fmap_ext. Qed.

(** A multiple of [W] is the bucket start of [e] exactly when [e] lies in
    the half-open interval of width [W] that starts there. *)
Lemma bucket_start_iff e k :
  0 < W → k mod W = 0 → (e / W * W = k ↔ k <= e < k + W).
Proof.
  intros HW Hk.
  apply Z.mod_divide in Hk as [q ->]; [|lia].
  split.
  - intros H. pose proof (Z.mul_div_le e W HW).
    pose proof (Z.mod_pos_bound e W HW).
    pose proof (Z.div_mod e W). nia.
  - intros [H1 H2]. f_equal. symmetry.
    apply (Z.div_unique e W q (e - q * W)); lia.
Qed.

Lemma bucket_start_aligned e : 0 < W → (e / W * W) mod W = 0.
Proof. intros HW. apply Z.mod_mul. lia. Qed.

Lemma interval_group_range wd k g :
  0 < W → (k, g) ∈ Model.interval_groups W wd →
  k mod W = 0
  ∧ g = filter (λ r, k <= Model.epoch_of r < k + W) (Model.tagged W <$> rows wd).
Proof.
  intros HW Hg. unfold Model.interval_groups in Hg.
  apply groupby_group in Hg as [-> (r & Hr & <-)].
  split; [by apply bucket_start_aligned|].
  unfold group. rewrite rows_with_intervals.
  apply list_filter_iff. intros r'.
  unfold Model.interval_of. apply bucket_start_iff; [done|].
  by apply bucket_start_aligned.
Qed.

Lemma interval_group_of_row wd r :
  r ∈ rows wd →
  ∃ g, (Model.epoch_of r / W * W, g) ∈ Model.interval_groups W wd
       ∧ Model.tagged W r ∈ g.
Proof.
  intros Hr.
  assert (Model.tagged W r ∈ rows (Model.with_intervals W wd)) as Ht.
  { rewrite rows_with_intervals. by apply list_elem_of_fmap_2. }
  exists (group (Model.interval_of W) (rows (Model.with_intervals W wd))
            (Model.interval_of W (Model.tagged W r))).
  split.
  - apply (groupby_complete Z.leb (Model.interval_of W)) in Ht. exact Ht.
  - unfold group. apply list_elem_of_filter. done.
Qed.

End interval_buckets.

Lemma of_seconds_inj k k' : Dt.of_seconds k = Dt.of_seconds k' → k = k'.
Proof. unfold Dt.of_seconds, Dt.NS_PER_SECOND. lia. Qed.

Lemma epoch_of_seconds s : Dt.epoch_seconds (Dt.of_seconds s) = s.
Proof.
  unfold Dt.epoch_seconds, Dt.of_seconds. apply Z.div_mul.
  unfold Dt.NS_PER_SECOND. lia.
Qed.

(** ** High-resolution candles *)

Section candles.
Variable W : Z.

Lemma candle_of_group_two k g :
  (1 < length g)%nat →
  ∃ c, Model.candle_of_group W (k, g) = Some [c]
       ∧ Model.Candle.timestamp c = Dt.of_seconds k
       ∧ Some (Model.Candle.first c) = activity_level <$> head g
       ∧ Some (Model.Candle.last c) = activity_level <$> last g
       ∧ Model.Candle.max c = Series.max (Frame.activity g)
       ∧ Model.Candle.min c = Series.min (Frame.activity g).
Proof.
  intros Hlen. unfold Model.candle_of_group, Model.iloc.
  rewrite bool_decide_eq_true_2 by done.
  rewrite py_index_0, py_index_minus_1.
  destruct g as [|x g]; [simpl in Hlen; lia|].
  destruct (last_is_Some (x :: g)) as [_ [y Hy]]; [done|].
  rewrite Hy. simpl. eexists. split; [reflexivity|]. by simpl.
Qed.

Lemma candle_of_group_few k g :
  (length g ≤ 1)%nat → Model.candle_of_group W (k, g) = Some [].
Proof.
  intros Hlen. unfold Model.candle_of_group.
  rewrite bool_decide_eq_false_2 by lia. done.
Qed.

Lemma candle_of_group_total kg : is_Some (Model.candle_of_group W kg).
Proof.
  destruct kg as [k g].
  destruct (decide (1 < length g)%nat) as [H|H].
  - destruct (candle_of_group_two k g H) as (c & -> & _). eauto.
  - rewrite candle_of_group_few by lia. eauto.
Qed.

(** The candles of a frame are those of its groups, taken in turn. *)
Lemma get_candle_data_groups wd :
  W ≠ 0 →
  ∃ css, mapM (Model.candle_of_group W) (Model.interval_groups W wd) = Some css
         ∧ Model.get_candle_data (Some wd) W = Some (mjoin css).
Proof.
  intros HW.
  destruct (mapM_is_Some_2 (Model.candle_of_group W) (Model.interval_groups W wd))
    as [css Hcss].
  { apply Forall_forall. intros kg _. apply candle_of_group_total. }
  exists css. split; [done|].
  unfold Model.get_candle_data, Frame.len. case_bool_decide as Hlen.
  - apply length_zero_iff_nil in Hlen.
    unfold Model.interval_groups in Hcss.
    rewrite rows_with_intervals, Hlen in Hcss. simpl in Hcss.
    by injection Hcss as <-.
  - rewrite bool_decide_eq_false_2 by done. by rewrite Hcss.
Qed.

Lemma interval_groups_functional wd k g g' :
  (k, g) ∈ Model.interval_groups W wd →
  (k, g') ∈ Model.interval_groups W wd → g = g'.
Proof.
  unfold Model.interval_groups.
  intros [-> _]%groupby_group [-> _]%groupby_group. done.
Qed.

Lemma candle_from_group wd (css : list (list Model.Candle.t)) c :
  mapM (Model.candle_of_group W) (Model.interval_groups W wd) = Some css →
  c ∈ mjoin css →
  ∃ k g, (k, g) ∈ Model.interval_groups W wd ∧ (1 < length g)%nat
         ∧ Model.candle_of_group W (k, g) = Some [c].
Proof.
  intros Hcss%mapM_Some_1 (l & Hc & Hl)%list_elem_of_join.
  apply list_elem_of_lookup in Hl as [i Hi].
  destruct (Forall2_lookup_r _ _ _ _ _ Hcss Hi) as ([k g] & Hkg & Hf).
  exists k, g. split; [by eapply list_elem_of_lookup_2|].
  destruct (decide (1 < length g)%nat) as [H|H].
  - split; [done|].
    destruct (candle_of_group_two k g H) as (c' & Hc' & _).
    rewrite Hc' in Hf. injection Hf as <-.
    apply list_elem_of_singleton in Hc as ->. done.
  - rewrite candle_of_group_few in Hf by lia. injection Hf as <-.
    by apply not_elem_of_nil in Hc.
Qed.

Lemma group_to_candle wd (css : list (list Model.Candle.t)) k g c :
  mapM (Model.candle_of_group W) (Model.interval_groups W wd) = Some css →
  (k, g) ∈ Model.interval_groups W wd →
  Model.candle_of_group W (k, g) = Some [c] →
  c ∈ mjoin css.
Proof.
  intros Hcss%mapM_Some_1 [i Hi]%list_elem_of_lookup Hc.
  destruct (Forall2_lookup_l _ _ _ _ _ Hcss Hi) as (l & Hl & Hf).
  rewrite Hc in Hf. injection Hf as <-.
  apply list_elem_of_join. exists [c]. split; [set_solver|].
  by eapply list_elem_of_lookup_2.
Qed.

End candles.

(** C6.  With a positive bucket width [W], every sample of the window is
    put in the bucket that starts at [floor(epoch / W) * W]; a bucket start
    is a multiple of [W] counted from the epoch and its bucket holds exactly
    the samples whose epoch second lies in [[start, start + W)].  The bucket
    of a sample is the same whatever window of the day was selected.  With
    [W = 60] a sample taken at 08:07:31 is in the bucket that starts at
    08:07:00 of the same day. *)
Theorem interval_bucketing_epoch_aligned (W : Z) (wd : DataFrame) :
  0 < W →
  (∀ r, r ∈ rows wd →
     ∃ g, (Model.epoch_of r / W * W, g) ∈ Model.interval_groups W wd
          ∧ Model.tagged W r ∈ g)
  ∧ (∀ k g, (k, g) ∈ Model.interval_groups W wd →
       k mod W = 0
       ∧ g = filter (λ r, k <= Model.epoch_of r < k + W)
               (Model.tagged W <$> rows wd))
  ∧ (∀ σ s e s' e' wd1 wd2 r1 r2,
       Model.get_high_resolution_data s e σ = Some wd1 →
       Model.get_high_resolution_data s' e' σ = Some wd2 →
       r1 ∈ rows wd1 → r2 ∈ rows wd2 → timestamp r1 = timestamp r2 →
       ∃ k g1 g2,
         k = Model.epoch_of r1 / W * W
         ∧ (k, g1) ∈ Model.interval_groups W wd1 ∧ Model.tagged W r1 ∈ g1
         ∧ (k, g2) ∈ Model.interval_groups W wd2 ∧ Model.tagged W r2 ∈ g2)
  ∧ (∀ d r, timestamp r = Dt.at_time d 8 7 31 →
       Dt.of_seconds (Model.interval_of 60 r) = Dt.at_time d 8 7 0).
Proof.
  intros HW. repeat split.
  - intros r Hr. by apply interval_group_of_row.
  - eapply interval_group_range; eauto.
  - eapply interval_group_range; eauto.
  - intros σ s e s' e' wd1 wd2 r1 r2 _ _ Hr1 Hr2 Hts.
    destruct (interval_group_of_row W wd1 r1 Hr1) as (g1 & Hg1 & Ht1).
    destruct (interval_group_of_row W wd2 r2 Hr2) as (g2 & Hg2 & Ht2).
    exists (Model.epoch_of r1 / W * W), g1, g2.
    repeat split; try done.
    unfold Model.epoch_of in *. by rewrite Hts.
  - intros d r Hts. unfold Model.interval_of, Model.epoch_of, Dt.at_time.
    rewrite Hts. unfold Dt.at_time. rewrite epoch_of_seconds. f_equal.
    replace (d * 86400 + 8 * 3600 + 7 * 60 + 31)
      with (31 + (d * 1440 + 487) * 60) by lia.
    rewrite Z.div_add by lia.
    change (31 `div` 60) with 0. lia.
Qed.

Lemma interval_bucketing_epoch_aligned_witness :
  0 < 60
  ∧ Dt.of_seconds
      (Model.interval_of 60 (mkRow (Dt.at_time 4 8 7 31) 10 "Monday" ∅))
    = Dt.at_time 4 8 7 0.
Proof.
  split; [lia|].
  apply (interval_bucketing_epoch_aligned 60 morning_window ltac:(lia)).
  reflexivity.
Defined.

(** C7.  [get_candle_data] raises nothing.  A bucket of the window yields a
    candle exactly when it holds two samples or more; a bucket is never
    empty, and one with a single sample yields nothing.  Every candle comes
    from such a bucket: it carries the bucket's start, its [first] and
    [last] are the first and the last sample of the bucket in row order, and
    its [max] and [min] are the largest and the smallest activity level in
    the bucket. *)
Theorem high_res_candle_iff_two_samples (W : Z) (wd : DataFrame) :
  W ≠ 0 →
  ∃ candles,
    Model.get_candle_data (Some wd) W = Some candles
    ∧ (∀ k g, (k, g) ∈ Model.interval_groups W wd →
         g ≠ []
         ∧ ((∃ c, c ∈ candles ∧ Model.Candle.timestamp c = Dt.of_seconds k)
            ↔ (2 ≤ length g)%nat))
    ∧ (∀ c, c ∈ candles →
         ∃ k g, (k, g) ∈ Model.interval_groups W wd
           ∧ (2 ≤ length g)%nat
           ∧ Model.Candle.timestamp c = Dt.of_seconds k
           ∧ Some (Model.Candle.first c) = activity_level <$> head g
           ∧ Some (Model.Candle.last c) = activity_level <$> last g
           ∧ (∃ m, Model.Candle.max c = Some m ∧ is_max m (activity_level <$> g))
           ∧ (∃ m, Model.Candle.min c = Some m ∧ is_min m (activity_level <$> g))).
Proof.
  intros HW.
  destruct (get_candle_data_groups W wd HW) as (css & Hcss & Hget).
  exists (mjoin css). split; [done|]. split.
  - intros k g Hg. split.
    { eapply groupby_nonempty. exact Hg. }
    split.
    + intros (c & Hc & Hts).
      destruct (candle_from_group W wd css c Hcss Hc) as (k' & g' & Hg' & Hlen & Hc').
      destruct (candle_of_group_two W k' g' Hlen) as (c' & Hc'' & Hts' & _).
      rewrite Hc'' in Hc'. injection Hc' as ->.
      rewrite Hts in Hts'. apply of_seconds_inj in Hts' as <-.
      rewrite (interval_groups_functional W wd k g g' Hg Hg'). lia.
    + intros Hlen.
      destruct (candle_of_group_two W k g) as (c & Hc & Hts & _); [lia|].
      exists c. split; [|done]. by eapply group_to_candle.
  - intros c Hc.
    destruct (candle_from_group W wd css c Hcss Hc) as (k & g & Hg & Hlen & Hc').
    destruct (candle_of_group_two W k g Hlen)
      as (c' & Hc'' & Hts & Hfirst & Hlast & Hmax & Hmin).
    rewrite Hc'' in Hc'. injection Hc' as ->.
    exists k, g. repeat split; try done; try lia.
    + pose proof (max_activity g) as H. rewrite <- Hmax in H.
      destruct (Model.Candle.max c) as [m|]; [by exists m|].
      subst g. simpl in Hlen. lia.
    + pose proof (min_activity g) as H. rewrite <- Hmin in H.
      destruct (Model.Candle.min c) as [m|]; [by exists m|].
      subst g. simpl in Hlen. lia.
Qed.

Lemma high_res_candle_iff_two_samples_witness :
  60 ≠ 0 ∧ is_Some (Model.get_candle_data (Some morning_window) 60).
Proof.
  split; [lia|].
  destruct (high_res_candle_iff_two_samples 60 morning_window ltac:(lia))
    as (candles & -> & _).
  by exists candles.
Defined.

(** ** Resolution detection *)

Lemma length_filter_fmap {A B} (f : A → B) (P : B → Prop)
    `{∀ x, Decision (P x)} (l : list A) :
  length (filter P (f <$> l)) = length (filter (λ x, P (f x)) l).
Proof.
  induction l as [|x l IH]; [done|].
  rewrite fmap_cons, !filter_cons.
  destruct (decide (P (f x))); simpl; by rewrite IH.
Qed.

(** Some group has more than one row exactly when some key is shared. *)
Lemma groupby_size_any {A K} `{EqDecision K} (leb : K → K → bool)
    (key : A → K) (rs : list A) :
  existsb (λ g, bool_decide (1 < g.2)%nat) (groupby_size leb key rs) = true
  ↔ ∃ k, (1 < length (filter (λ r, key r = k) rs))%nat.
Proof.
  rewrite <- Is_true_true, existb_True, Exists_exists.
  unfold groupby_size. split.
  - intros ([k n] & Hin & Hn). simpl in Hn. apply bool_decide_unpack in Hn.
    apply list_elem_of_fmap in Hin as ([k' g] & Heq & Hg).
    simpl in Heq. injection Heq as -> ->.
    apply groupby_group in Hg as [-> _]. by exists k'.
  - intros [k Hk].
    destruct (filter (λ r, key r = k) rs) as [|r g] eqn:E; [simpl in Hk; lia|].
    assert (r ∈ filter (λ r, key r = k) rs) as Hr by (rewrite E; set_solver).
    apply list_elem_of_filter in Hr as [Hkr Hr].
    exists (k, length (group key rs k)). split.
    + apply list_elem_of_fmap. exists (k, group key rs k). split; [done|].
      subst k. by apply groupby_complete.
    + simpl. apply bool_decide_pack. unfold group. rewrite E. exact Hk.
Qed.

Section detect.
Variables (draw : list nat) (l : loc) (σ : Session) (df : DataFrame).
Hypothesis Hdf : store σ !! l = Some df.

Let stamped : DataFrame :=
  Frame.assign "minute_key" (λ r, CMinute (strftime_minute (timestamp r))) df.

(** Up to 1000 rows the frame that is examined is the caller's frame
    itself, and the key column is written into it. *)
Lemma detect_small_store :
  (Frame.len df ≤ 1000)%nat →
  store (Model.detect_data_resolution draw l σ) !! l = Some stamped.
Proof.
  intros Hlen. unfold Model.detect_data_resolution. rewrite Hdf.
  destruct (decide (Nat.min 1000 (Frame.len df) < Frame.len df)%nat); [lia|].
  simpl. by rewrite lookup_alter_eq, Hdf.
Qed.

Lemma detect_small_verdict :
  (Frame.len df ≤ 1000)%nat →
  has_second_resolution (self (Model.detect_data_resolution draw l σ))
  = existsb (λ g, bool_decide (1 < g.2)%nat)
      (groupby_size minute_key_leb (λ r, strftime_minute (timestamp r))
         (rows stamped)).
Proof.
  intros Hlen. unfold Model.detect_data_resolution. rewrite Hdf.
  destruct (decide (Nat.min 1000 (Frame.len df) < Frame.len df)%nat); [lia|].
  simpl. by rewrite lookup_alter_eq, Hdf.
Qed.

(** Above 1000 rows the sample is a frame of its own and the caller's frame
    stays as it was. *)
Lemma detect_large_store :
  (1000 < Frame.len df)%nat →
  store (Model.detect_data_resolution draw l σ) !! l = Some df.
Proof.
  intros Hlen. unfold Model.detect_data_resolution. rewrite Hdf.
  destruct (decide (Nat.min 1000 (Frame.len df) < Frame.len df)%nat); [|lia].
  unfold alloc. simpl.
  assert (fresh (dom (store σ)) ≠ l) as Hne.
  { intros Heq. apply (is_fresh (dom (store σ))). rewrite Heq.
    apply elem_of_dom. by rewrite Hdf. }
  rewrite lookup_alter_ne, lookup_insert_ne by done. done.
Qed.

End detect.

(** C9.  On a series of at most 1000 samples the detector reports
    second-level resolution exactly when some minute key (date, hour and
    minute) is carried by more than one sample; on the empty series it
    reports minute-level resolution. *)
Theorem resolution_detection_small_series
    (draw : list nat) (l : loc) (σ : Session) (df : DataFrame) :
  store σ !! l = Some df →
  (Frame.len df ≤ 1000)%nat →
  (has_second_resolution (self (Model.detect_data_resolution draw l σ)) = true
   ↔ ∃ k, (1 < length (in_minute k df))%nat)
  ∧ (rows df = [] →
     has_second_resolution (self (Model.detect_data_resolution draw l σ)) = false).
Proof.
  intros Hdf Hlen.
  rewrite (detect_small_verdict draw l σ df Hdf Hlen).
  assert (∀ k, length (filter (λ r, strftime_minute (timestamp r) = k)
                         (rows (Frame.assign "minute_key"
                            (λ r, CMinute (strftime_minute (timestamp r))) df)))
               = length (in_minute k df)) as Hcount.
  { intros k. unfold Frame.assign, in_minute. simpl.
    by rewrite length_filter_fmap. }
  split.
  - rewrite groupby_size_any. split; intros [k Hk]; exists k.
    + by rewrite <- Hcount.
    + by rewrite Hcount.
  - intros Hnil. unfold Frame.assign. simpl. by rewrite Hnil.
Qed.

Lemma resolution_detection_small_series_witness :
  has_second_resolution
    (self (Model.detect_data_resolution [] 0%nat (holding two_in_a_minute)))
  = true
  ↔ ∃ k, (1 < length (in_minute k two_in_a_minute))%nat.
Proof.
  apply (resolution_detection_small_series [] 0%nat (holding two_in_a_minute)
           two_in_a_minute).
  - reflexivity.
  - unfold Frame.len. simpl. lia.
Defined.

(** C10.  The detector is given the caller's frame; for a series of at most
    1000 rows it adds the column [minute_key] to that very frame, so the
    frame is not the same after the call.  Here the series has one row, and
    the frame stored by [load_data] for a file with that one row carries the
    extra column as well. *)
Theorem detect_data_resolution_writes_into_caller_frame :
  store (holding one_sample) !! 0%nat = Some one_sample
  ∧ columns one_sample = ["timestamp"; "activity_level"; "day_of_week"]
  ∧ columns <$> store (Model.detect_data_resolution [] 0%nat (holding one_sample))
                  !! 0%nat
    = Some ["timestamp"; "activity_level"; "day_of_week"; "minute_key"]
  ∧ store (Model.detect_data_resolution [] 0%nat (holding one_sample)) !! 0%nat
    ≠ store (holding one_sample) !! 0%nat
  ∧ columns <$> Model.data_frame
                  (Model.load_data [] [(Dt.at_time 4 8 0 0, 10%Q)] fresh_session)
    = Some ["timestamp"; "activity_level"; "day_of_week"; "minute_key"].
Proof.
  split; [reflexivity|]. split; [reflexivity|].
  split; [by vm_compute|]. split; [|by vm_compute].
  intros H. apply (f_equal (fmap columns)) in H. vm_compute in H. discriminate.
Qed.

(** ** The weekly aggregate and the week chart *)

Section weekly.
Variables (σ : Session) (df : DataFrame).
Hypothesis Hdf : Model.data_frame σ = Some df.

Let grouped : list (string * Model.Weekly.t) :=
  (λ g, let s := Frame.activity g.2 in
        (g.1, Model.Weekly.mk (Series.mean s) (Series.max s) (Series.min s)
                (Float.of_Z (Z.of_nat (Series.count s)))))
  <$> groupby String.leb day_of_week (rows df).

Let row_of (day : string) : Model.Weekly.t :=
  default Model.Weekly.nan_row
    ((λ hit, hit.2.2) <$> list_find (λ p, p.1 = day) grouped).

Lemma get_weekly_data_rows :
  Model.get_weekly_data σ = Some ((λ d, (d, row_of d)) <$> DAYS_OF_WEEK).
Proof.
  unfold Model.data_frame in Hdf. unfold Model.get_weekly_data.
  destruct (data (self σ)) as [l|]; [|done]. simpl in Hdf.
  rewrite Hdf. done.
Qed.

(** The row of a day name aggregates the rows of the series that carry
    that name; without such rows all three reductions are NaN. *)
Lemma weekly_row_pools day :
  let s := Frame.activity (filter (λ r, day_of_week r = day) (rows df)) in
  Model.Weekly.mean (row_of day) = Series.mean s
  ∧ Model.Weekly.max (row_of day) = Series.max s
  ∧ Model.Weekly.min (row_of day) = Series.min s.
Proof using df.
  clear Hdf. unfold row_of.
  destruct (list_find (λ p, p.1 = day) grouped) as [[i [d w]]|] eqn:E; simpl.
  - apply list_find_Some in E as (Hi & Hd & _). simpl in Hd. subst d.
    apply list_elem_of_lookup_2 in Hi.
    unfold grouped in Hi. apply list_elem_of_fmap in Hi as ([k g] & Heq & Hg).
    simpl in Heq. injection Heq as -> ->.
    apply groupby_group in Hg as [-> _]. done.
  - apply list_find_None in E.
    assert (filter (λ r, day_of_week r = day) (rows df) = []) as ->; [|done].
    destruct (filter (λ r, day_of_week r = day) (rows df)) as [|r g] eqn:Hf;
      [done|exfalso].
    assert (r ∈ filter (λ r, day_of_week r = day) (rows df)) as Hr
      by (rewrite Hf; set_solver).
    apply list_elem_of_filter in Hr as [Hday Hr].
    apply (groupby_complete String.leb day_of_week) in Hr.
    rewrite Forall_forall in E.
    apply (list_elem_of_fmap_2
             (λ g, let s := Frame.activity g.2 in
                   (g.1, Model.Weekly.mk (Series.mean s) (Series.max s)
                           (Series.min s)
                           (Float.of_Z (Z.of_nat (Series.count s)))))) in Hr.
    apply E in Hr. simpl in Hr. done.
Qed.

End weekly.





(** ** Daily pattern *)

Lemma lt_fclose a b c :
  Float.lt (Float.abs (Float.sub a b)) (Some c) = true ↔ fclose a b c.
Proof.
  unfold Float.lt. rewrite gt_fgt. unfold fgt, fclose, Float.abs, Float.sub.
  destruct a as [x|], b as [y|]; simpl.
  - split.
    + intros (u & v & [= <-] & [= <-] & H). eauto.
    + intros (u & v & [= <-] & [= <-] & H). eauto.
  - split; [by intros (?&?&?&?&?)|by intros (?&?&?&?&?)].
  - split; [by intros (?&?&?&?&?)|by intros (?&?&?&?&?)].
  - split; [by intros (?&?&?&?&?)|by intros (?&?&?&?&?)].
Qed.

(** Turn [b = true ↔ P], with [b] already decided, into [P] or [¬ P]. *)
Ltac settle_rule H :=
  match type of H with
  | true = true ↔ ?P =>
      let H' := fresh in assert P as H' by (by apply H); clear H
  | false = true ↔ ?P =>
      let H' := fresh in
      assert (¬ P) as H' by (intros ?%H; discriminate); clear H
  end.

Lemma day_pattern_rules (m d e : float) :
  let r1 := fgt m d ∧ fgt m e in
  let r2 := fgt e m ∧ fgt e d in
  let r3 := fgt d m ∧ fgt d e in
  let r4 := fclose m e 5 ∧ fgt m d in
  (Model.day_pattern m d e = "morning_peak" ↔ r1)
  ∧ (Model.day_pattern m d e = "evening_peak" ↔ ¬ r1 ∧ r2)
  ∧ (Model.day_pattern m d e = "midday_peak" ↔ ¬ r1 ∧ ¬ r2 ∧ r3)
  ∧ (Model.day_pattern m d e = "bimodal" ↔ ¬ r1 ∧ ¬ r2 ∧ ¬ r3 ∧ r4)
  ∧ (Model.day_pattern m d e = "consistent" ↔ ¬ r1 ∧ ¬ r2 ∧ ¬ r3 ∧ ¬ r4).
Proof.
  intros r1 r2 r3 r4.
  assert (Float.gt m d && Float.gt m e = true ↔ r1) as H1
    by (rewrite andb_true_iff, !gt_fgt; done).
  assert (Float.gt e m && Float.gt e d = true ↔ r2) as H2
    by (rewrite andb_true_iff, !gt_fgt; done).
  assert (Float.gt d m && Float.gt d e = true ↔ r3) as H3
    by (rewrite andb_true_iff, !gt_fgt; done).
  assert (Float.lt (Float.abs (Float.sub m e)) (Float.of_Z 5) && Float.gt m d
          = true ↔ r4) as H4
    by (rewrite andb_true_iff, gt_fgt; unfold Float.of_Z;
        rewrite (lt_fclose m e (inject_Z 5)); done).
  unfold Model.day_pattern.
  destruct (Float.gt m d && Float.gt m e);
    destruct (Float.gt e m && Float.gt e d);
    destruct (Float.gt d m && Float.gt d e);
    destruct (Float.lt (Float.abs (Float.sub m e)) (Float.of_Z 5) && Float.gt m d);
    settle_rule H1; settle_rule H2; settle_rule H3; settle_rule H4;
    clearbody r1 r2 r3 r4;
    repeat match goal with |- _ ∧ _ => split end;
    (split;
     [ intros Heq; first [discriminate Heq | tauto]
     | intros Hr; first [reflexivity | exfalso; tauto] ]).
Qed.

Lemma analyze_day_patterns_type σ r :
  Model.analyze_day_patterns σ = Some r →
  Model.Day.pattern_type r
  = Model.day_pattern (Model.Day.morning_activity r)
      (Model.Day.midday_activity r) (Model.Day.evening_activity r).
Proof.
  unfold Model.analyze_day_patterns.
  destruct (Model.get_daily_data_grouped_by_hour σ) as [hourly|]; [|done].
  case_bool_decide; [done|]. by intros [= <-].
Qed.

Lemma day_pattern_50_30_50 (m d e : float) :
  is_num m 50 → is_num d 30 → is_num e 50 →
  Model.day_pattern m d e = "bimodal".
Proof.
  intros (x & -> & Hx) (y & -> & Hy) (z & -> & Hz).
  apply day_pattern_rules. unfold fgt, fclose. repeat split.
  - intros [_ (u & v & [= <-] & [= <-] & H)]. lra.
  - intros [(u & v & [= <-] & [= <-] & H) _]. lra.
  - intros [(u & v & [= <-] & [= <-] & H) _]. lra.
  - exists x, z. split; [done|]. split; [done|].
    apply Qabs_Qlt_condition. split; lra.
  - exists x, y. split; [done|]. split; [done|]. lra.
Qed.

Lemma analyze_day_patterns_exists σ hourly :
  Model.get_daily_data_grouped_by_hour σ = Some hourly →
  hourly ≠ []
  ∧ ∃ r, Model.analyze_day_patterns σ = Some r
         ∧ Model.Day.morning_activity r
           = Model.segment_activity (Model.between 6 11 hourly)
         ∧ Model.Day.midday_activity r
           = Model.segment_activity (Model.between 12 17 hourly)
         ∧ Model.Day.evening_activity r
           = Model.segment_activity (Model.between 18 23 hourly).
Proof.
  intros Hh.
  assert (hourly ≠ []) as Hne.
  { unfold Model.get_daily_data_grouped_by_hour in Hh.
    destruct (Model.get_data_for_current_day σ) as [day_data|]; [|done].
    simpl in Hh. case_bool_decide as Hlen; [done|]. injection Hh as <-.
    unfold Frame.len in Hlen.
    destruct (rows day_data) as [|r rs] eqn:E; [done|].
    intros Hnil. apply fmap_nil_inv in Hnil.
    assert (r ∈ r :: rs) as Hr by apply list_elem_of_here.
    apply (groupby_complete Z.leb (λ r, Dt.hour (timestamp r))) in Hr.
    rewrite Hnil in Hr. by apply not_elem_of_nil in Hr. }
  split; [done|].
  unfold Model.analyze_day_patterns. rewrite Hh.
  rewrite bool_decide_eq_false_2.
  - eexists. split; [reflexivity|]. done.
  - intros Hz. by apply length_zero_iff_nil in Hz.
Qed.

(** C4.  The daily pattern is decided by five rules tried in order, the
    first that applies giving the label, every comparison being strict:
    morning above midday and evening; else evening above morning and
    midday; else midday above morning and evening; else morning and evening
    less than 5 apart with morning above midday; else "consistent".
    Whenever the current day has an hourly aggregate the analysis exists,
    its three segment means are those of the hours 6-11, 12-17 and 18-23 of
    the aggregate, and its label is the one the rules give for them.  In
    particular a day whose segment means are 50, 30 and 50 is analysed and
    labelled "bimodal". *)
Theorem day_pattern_priority_order :
  (∀ m d e : float,
     let r1 := fgt m d ∧ fgt m e in
     let r2 := fgt e m ∧ fgt e d in
     let r3 := fgt d m ∧ fgt d e in
     let r4 := fclose m e 5 ∧ fgt m d in
     (Model.day_pattern m d e = "morning_peak" ↔ r1)
     ∧ (Model.day_pattern m d e = "evening_peak" ↔ ¬ r1 ∧ r2)
     ∧ (Model.day_pattern m d e = "midday_peak" ↔ ¬ r1 ∧ ¬ r2 ∧ r3)
     ∧ (Model.day_pattern m d e = "bimodal" ↔ ¬ r1 ∧ ¬ r2 ∧ ¬ r3 ∧ r4)
     ∧ (Model.day_pattern m d e = "consistent" ↔ ¬ r1 ∧ ¬ r2 ∧ ¬ r3 ∧ ¬ r4))
  ∧ (∀ σ hourly,
       Model.get_daily_data_grouped_by_hour σ = Some hourly →
       ∃ r, Model.analyze_day_patterns σ = Some r
            ∧ Model.Day.morning_activity r
              = Model.segment_activity (Model.between 6 11 hourly)
            ∧ Model.Day.midday_activity r
              = Model.segment_activity (Model.between 12 17 hourly)
            ∧ Model.Day.evening_activity r
              = Model.segment_activity (Model.between 18 23 hourly)
            ∧ Model.Day.pattern_type r
              = Model.day_pattern (Model.Day.morning_activity r)
                  (Model.Day.midday_activity r) (Model.Day.evening_activity r))
  ∧ (∀ σ hourly,
       Model.get_daily_data_grouped_by_hour σ = Some hourly →
       is_num (Model.segment_activity (Model.between 6 11 hourly)) 50 →
       is_num (Model.segment_activity (Model.between 12 17 hourly)) 30 →
       is_num (Model.segment_activity (Model.between 18 23 hourly)) 50 →
       ∃ r, Model.analyze_day_patterns σ = Some r
            ∧ Model.Day.pattern_type r = "bimodal")
  ∧ (∀ σ r, Model.analyze_day_patterns σ = Some r →
       Model.Day.pattern_type r
       = Model.day_pattern (Model.Day.morning_activity r)
           (Model.Day.midday_activity r) (Model.Day.evening_activity r))
  ∧ (∀ σ r, Model.analyze_day_patterns σ = Some r →
       is_num (Model.Day.morning_activity r) 50 →
       is_num (Model.Day.midday_activity r) 30 →
       is_num (Model.Day.evening_activity r) 50 →
       Model.Day.pattern_type r = "bimodal").
Proof.
  split; [apply day_pattern_rules|]. split; [|split; [|split]].
  - intros σ hourly Hh.
    destruct (analyze_day_patterns_exists σ hourly Hh)
      as (_ & r & Hr & Hm & Hd & He).
    exists r. split_and!; try done. by apply (analyze_day_patterns_type σ).
  - intros σ hourly Hh Hm Hd He.
    destruct (analyze_day_patterns_exists σ hourly Hh)
      as (_ & r & Hr & Hm' & Hd' & He').
    exists r. split; [done|].
    rewrite (analyze_day_patterns_type σ r Hr), Hm', Hd', He'.
    by apply day_pattern_50_30_50.
  - apply analyze_day_patterns_type.
  - intros σ r Hr Hm Hd He.
    rewrite (analyze_day_patterns_type σ r Hr). by apply day_pattern_50_30_50.
Qed.

Lemma day_pattern_priority_order_witness :
  ∃ r, Model.analyze_day_patterns bimodal_day = Some r
       ∧ Model.Day.pattern_type r = "bimodal".
Proof.
  apply (proj1 (proj2 (proj2 day_pattern_priority_order))
           bimodal_day (default [] (Model.get_daily_data_grouped_by_hour bimodal_day))).
  - by vm_compute.
  - exists 50%Q. split; [by vm_compute|reflexivity].
  - exists 30%Q. split; [by vm_compute|reflexivity].
  - exists 50%Q. split; [by vm_compute|reflexivity].
Defined.

(** ** The window update *)

Ltac bools :=
  repeat match goal with
    | H : (_ || _) = false |- _ => apply orb_false_iff in H as [? ?]
    | H : (_ || _) = true |- _ => apply orb_true_iff in H
    | H : (_ <? _) = false |- _ => apply Z.ltb_ge in H
    | H : (_ <? _) = true |- _ => apply Z.ltb_lt in H
    | H : (_ <=? _) = false |- _ => apply Z.leb_gt in H
    | H : (_ <=? _) = true |- _ => apply Z.leb_le in H
    end.

Ltac settle_accept Hv :=
  eexists; split; [reflexivity|];
  split; [reflexivity|]; split; [reflexivity|]; split; [exact Hv|];
  first [ left; reflexivity | right; eexists _, _; reflexivity ].

Lemma get_candle_data_total wd W : is_Some (Model.get_candle_data wd W).
Proof.
  destruct wd as [wd|]; [|by eexists].
  destruct (decide (W = 0)) as [->|HW].
  - unfold Model.get_candle_data. case_bool_decide; by eexists.
  - destruct (get_candle_data_groups W wd HW) as (css & _ & ->). by eexists.
Qed.

Section view_label.
Import KinetiCandlesApp.

(** With a cursor that is a valid index the label update changes nothing
    and raises nothing; below [-len(days)], with data loaded, it raises. *)
Lemma update_view_label_run (a : App) :
  Model.index_error (self (model a)) = false →
  call update_view_label a = (Normal (), a).
Proof.
  intros Hi. unfold update_view_label, model_get_current_date. unfold_method.
  case_bool_decide; [done|]. rewrite Hi. by case_bool_decide.
Qed.

Lemma update_view_label_raises (a : App) :
  data (self (model a)) ≠ None →
  Model.index_error (self (model a)) = true →
  call update_view_label a = (Raised IndexError, a).
Proof.
  intros Hd Hi. unfold update_view_label, model_get_current_date.
  unfold_method. rewrite bool_decide_eq_false_2 by done. by rewrite Hi.
Qed.

End view_label.

Section window_update.
Import KinetiCandlesApp.
Variables (a : App) (s e : Z).
Hypothesis Hs : start_hour_var a = Some s.
Hypothesis He : end_hour_var a = Some e.

(** A window that fails a test: the two hours are stored, then the error
    dialog is shown and nothing else happens. *)
Lemma update_high_res_view_rejects :
  invalid_window s e →
  ∃ msg, run update_high_res_view a
         = (None, messagebox (showerror "Invalid Time Window" msg)
                    (set_selected_end_hour e (set_selected_start_hour s a))).
Proof.
  intros Hinv. unfold update_high_res_view. unfold_method.
  rewrite Hs, He.
  set (a1 := set_selected_end_hour e (set_selected_start_hour s a)).
  change (selected_start_hour a1) with s. change (selected_end_hour a1) with e.
  destruct ((s <? 0) || (23 <? s)) eqn:E1; [by eexists|].
  destruct ((e <? 0) || (24 <? e)) eqn:E2; [by eexists|].
  destruct (e <=? s) eqn:E3; [by eexists|].
  destruct (4 <? e - s) eqn:E4; [by eexists|].
  exfalso. bools. unfold invalid_window in Hinv. lia.
Qed.

(** A window that passes every test: the two hours are stored as given, the
    view is the high-resolution view, and at most an information dialog is
    shown.  The IndexError of a cursor below [-len(days)] is not handled:
    it escapes, after the hours and the view were stored. *)
Lemma update_high_res_view_accepts :
  ¬ invalid_window s e →
  ∃ a', run update_high_res_view a
        = (if Model.index_error (self (model a)) then Some IndexError else None,
           a')
        ∧ selected_start_hour a' = s ∧ selected_end_hour a' = e
        ∧ current_view a' = "high_res"
        ∧ model a' = model a
        ∧ candle_interval_seconds a' = candle_interval_seconds a
        ∧ (dialogs a' = dialogs a
           ∨ ∃ title message, dialogs a' = dialogs a ++ [showinfo title message]).
Proof.
  intros Hval. unfold update_high_res_view, model_get_current_date.
  unfold_method.
  rewrite Hs, He.
  set (a1 := set_selected_end_hour e (set_selected_start_hour s a)).
  change (selected_start_hour a1) with s. change (selected_end_hour a1) with e.
  destruct ((s <? 0) || (23 <? s)) eqn:E1;
    [exfalso; bools; unfold invalid_window in Hval; lia|].
  destruct ((e <? 0) || (24 <? e)) eqn:E2;
    [exfalso; bools; unfold invalid_window in Hval; lia|].
  destruct (e <=? s) eqn:E3;
    [exfalso; bools; unfold invalid_window in Hval; lia|].
  destruct (4 <? e - s) eqn:E4;
    [exfalso; bools; unfold invalid_window in Hval; lia|].
  destruct (bool_decide (current_view a1 ≠ "high_res")) eqn:Hv;
    [set (a2 := set_current_view "high_res" a1);
     assert (current_view a2 = "high_res") as Hv' by reflexivity; clear Hv
    |set (a2 := a1); apply bool_decide_eq_false in Hv;
     destruct (decide (current_view a2 = "high_res")) as [Hv'|]; [|done]].
  all: cbv beta iota.
  all: change (model a2) with (model a).
  all: destruct (Model.index_error (self (model a))) eqn:Hi;
    [eexists; split; [reflexivity|]; split_and!; auto; done|].
  all: cbv beta iota.
  all: destruct (Model.get_current_date (self (model a))) as [current_date|];
    [|eexists; split; [reflexivity|]; split_and!; auto; done].
  all: case_bool_decide;
    [eexists; split; [reflexivity|]; split_and!; eauto; done|].
  all: destruct (get_candle_data_total
              (Model.get_high_resolution_data (selected_start_hour a2)
                 (selected_end_hour a2) (model a2))
              (candle_interval_seconds a2)) as [candle_data ->].
  all: case_bool_decide;
    [eexists; split; [reflexivity|]; split_and!; eauto; done|].
  all: cbv beta iota.
  all: match goal with
       | |- context [update_view_label ?x] =>
           pose proof (update_view_label_run x Hi) as Hlabel;
           unfold call in Hlabel;
           destruct (update_view_label x) as [[[]| |] ?]; simplify_eq
       end.
  all: eexists; (split; [reflexivity|]); split_and!; auto; done.
Qed.

End window_update.

(** *** The same method in [candle.py] *)

Section legacy_window_update.
Import Legacy.
Variables (a : Legacy.App) (s e : Z).
Hypothesis Hs : start_hour_var a = Some s.
Hypothesis He : end_hour_var a = Some e.

(** Redrawing touches the chart and the day cursor, and shows at most its
    own error dialog. *)
Lemma plot_kcandles_frame (a0 : Legacy.App) :
  ∃ a', call plot_kcandles a0 = (Normal (), a')
        ∧ selected_start_hour a' = selected_start_hour a0
        ∧ selected_end_hour a' = selected_end_hour a0
        ∧ current_view a' = current_view a0
        ∧ (dialogs a' = dialogs a0
           ∨ dialogs a' = dialogs a0 ++ [showerror "Error Plotting Data" ""]).
Proof.
  unfold plot_kcandles, plot_day_view, plot_week_view,
    plot_high_resolution_view, select_day.
  unfold_method.
  repeat case_match; simplify_eq; eexists; (split; [reflexivity|]);
    simpl; eauto 10.
Qed.

Lemma legacy_update_high_res_view_rejects :
  invalid_window s e →
  ∃ msg, run update_high_res_view a
         = (None, messagebox (showerror "Invalid Time Window" msg)
                    (set_selected_end_hour e (set_selected_start_hour s a))).
Proof using Hs He.
  intros Hinv. unfold update_high_res_view. unfold_method.
  rewrite Hs, He.
  set (a1 := set_selected_end_hour e (set_selected_start_hour s a)).
  change (selected_start_hour a1) with s. change (selected_end_hour a1) with e.
  destruct ((s <? 0) || (23 <? s)) eqn:E1; [by eexists|].
  destruct ((e <? 0) || (24 <? e)) eqn:E2; [by eexists|].
  destruct ((e <=? s) || (4 <? e - s)) eqn:E3; [by eexists|].
  exfalso. bools. unfold invalid_window in Hinv. lia.
Qed.

Lemma legacy_update_view_label_run (a0 : Legacy.App) :
  current_view a0 = "high_res" →
  call update_view_label a0
  = (if legacy_index_error a0 then Raised IndexError else Normal (), a0).
Proof.
  intros Hv. unfold update_view_label, legacy_index_error. unfold_method.
  destruct (data a0) as [df|]; [|done]. rewrite Hv. simpl.
  unfold py_index.
  destruct (bool_decide (days_of df = [])) eqn:Hd; simpl; [done|].
  apply bool_decide_eq_false in Hd.
  assert (0 < Z.of_nat (length (days_of df))) as Hlen
    by (destruct (days_of df); simpl in *; [done|lia]).
  destruct (current_day a0 <? Z.of_nat (length (days_of df))) eqn:E1; bools.
  - destruct (0 <=? current_day a0) eqn:E2; bools.
    + rewrite (proj2 (Z.ltb_ge _ _)) by lia.
      destruct (lookup_lt_is_Some_2 (days_of df) (Z.to_nat (current_day a0)))
        as [d ->]; [lia|done].
    + destruct (- Z.of_nat (length (days_of df)) <=? current_day a0) eqn:E3;
        bools.
      * rewrite (proj2 (Z.ltb_ge _ _)) by lia.
        destruct (lookup_lt_is_Some_2 (days_of df)
                    (Z.to_nat (Z.of_nat (length (days_of df)) + current_day a0)))
          as [d ->]; [lia|done].
      * by rewrite (proj2 (Z.ltb_lt _ _)) by lia.
  - by rewrite (proj2 (Z.ltb_ge _ _)) by lia.
Qed.

(** A window that passes: the hours are stored as given; in the
    high-resolution view the label and the chart are redrawn, and the
    IndexError of a cursor below [-len(days)] escapes from the label. *)
Lemma legacy_update_high_res_view_accepts :
  ¬ invalid_window s e →
  ∃ a', run update_high_res_view a
        = (if bool_decide (current_view a = "high_res") && legacy_index_error a
           then Some IndexError else None, a')
        ∧ selected_start_hour a' = s ∧ selected_end_hour a' = e
        ∧ current_view a' = current_view a
        ∧ (dialogs a' = dialogs a
           ∨ dialogs a' = dialogs a ++ [showerror "Error Plotting Data" ""]).
Proof using Hs He.
  intros Hval.
  destruct (plot_kcandles_frame
              (set_selected_end_hour e (set_selected_start_hour s a)))
    as (a' & Hplot & Hs' & He' & Hv' & Hd').
  unfold update_high_res_view. unfold_method.
  rewrite Hs, He.
  set (a1 := set_selected_end_hour e (set_selected_start_hour s a)) in *.
  change (selected_start_hour a1) with s. change (selected_end_hour a1) with e.
  destruct ((s <? 0) || (23 <? s)) eqn:E1;
    [exfalso; bools; unfold invalid_window in Hval; lia|].
  destruct ((e <? 0) || (24 <? e)) eqn:E2;
    [exfalso; bools; unfold invalid_window in Hval; lia|].
  destruct ((e <=? s) || (4 <? e - s)) eqn:E3;
    [exfalso; bools; unfold invalid_window in Hval; lia|].
  change (current_view a1) with (current_view a).
  destruct (bool_decide (current_view a = "high_res")) eqn:Hview.
  - apply bool_decide_eq_true in Hview.
    pose proof (legacy_update_view_label_run a1 Hview) as Hlabel.
    change (legacy_index_error a1) with (legacy_index_error a) in Hlabel.
    unfold call in Hlabel, Hplot. cbv beta iota. simpl andb.
    destruct (legacy_index_error a).
    + destruct (update_view_label a1) as [[[]| |] ?]; simplify_eq.
      exists a1. split_and!; auto.
    + destruct (update_view_label a1) as [[[]| |] ?]; simplify_eq.
      all: destruct (plot_kcandles a1) as [o a''] eqn:Hp.
      all: destruct o as [[]| |]; simplify_eq; by exists a'.
  - exists a1. repeat split; eauto.
Qed.

End legacy_window_update.

Lemma not_self_app {A} (l : list A) x : l ≠ l ++ [x].
Proof.
  intros H. apply (f_equal length) in H. rewrite length_app in H.
  simpl in H. lia.
Qed.

(** C5.  The window update shows the "Invalid Time Window" error exactly
    when [start_hour < 0], [start_hour > 23], [end_hour < 0],
    [end_hour > 24], [end_hour <= start_hour] or
    [end_hour - start_hour > 4]; a window that passes is stored as given,
    not adjusted.  A rejected window raises nothing.  For a window that
    passes, no exception escapes as long as the day cursor is a valid index
    (not below [-len(days)]); below that the IndexError of the indexing,
    which the handler for ValueError does not catch, escapes, and it is the
    only exception that can.  This holds for the method of
    [KinetiCandles_v3.py] and for the one of [candle.py], where the
    indexing happens in the high-resolution view only.  The windows (10, 8)
    and (5, 10) fail the test, (8, 10) passes it. *)
Theorem window_rejected_iff_invalid :
  (∀ a s e,
     start_hour_var a = Some s → end_hour_var a = Some e →
     let r := run KinetiCandlesApp.update_high_res_view a in
     ((∃ msg, dialogs r.2
              = dialogs a ++ [showerror "Invalid Time Window" msg])
      ↔ invalid_window s e)
     ∧ (¬ invalid_window s e →
        selected_start_hour r.2 = s ∧ selected_end_hour r.2 = e)
     ∧ (Model.index_error (self (model a)) = false → r.1 = None)
     ∧ (invalid_window s e → r.1 = None)
     ∧ (r.1 = Some IndexError
        ↔ ¬ invalid_window s e ∧ Model.index_error (self (model a)) = true)
     ∧ (r.1 = None ∨ r.1 = Some IndexError))
  ∧ (∀ a s e,
       Legacy.start_hour_var a = Some s → Legacy.end_hour_var a = Some e →
       let r := run Legacy.update_high_res_view a in
       ((∃ msg, Legacy.dialogs r.2
                = Legacy.dialogs a ++ [showerror "Invalid Time Window" msg])
        ↔ invalid_window s e)
       ∧ (¬ invalid_window s e →
          Legacy.selected_start_hour r.2 = s
          ∧ Legacy.selected_end_hour r.2 = e)
       ∧ (legacy_index_error a = false → r.1 = None)
       ∧ (invalid_window s e → r.1 = None)
       ∧ (r.1 = Some IndexError
          ↔ ¬ invalid_window s e ∧ Legacy.current_view a = "high_res"
            ∧ legacy_index_error a = true)
       ∧ (r.1 = None ∨ r.1 = Some IndexError))
  ∧ invalid_window 10 8 ∧ invalid_window 5 10 ∧ ¬ invalid_window 8 10.
Proof.
  split; [|split].
  - intros a s e Hs He r. subst r.
    destruct (decide (invalid_window s e)) as [Hinv|Hval].
    + destruct (update_high_res_view_rejects a s e Hs He Hinv) as [msg ->].
      simpl. split_and!; try done.
      * split; [done|]. by exists msg.
      * split; [done|]. by intros [? _].
      * by left.
    + destruct (update_high_res_view_accepts a s e Hs He Hval)
        as (a' & -> & Hs' & He' & _ & _ & _ & Hd).
      simpl. split_and!; try done.
      * split; [|done].
        intros [msg Hmsg]. exfalso. rewrite Hmsg in Hd.
        destruct Hd as [Hd|(t & m & Hd)].
        -- symmetry in Hd. by apply not_self_app in Hd.
        -- apply app_inv_head in Hd. discriminate.
      * by intros ->.
      * destruct (Model.index_error (self (model a))); split; try done;
          by intros [_ ?].
      * destruct (Model.index_error (self (model a))); [by right|by left].
  - intros a s e Hs He r. subst r.
    destruct (decide (invalid_window s e)) as [Hinv|Hval].
    + destruct (legacy_update_high_res_view_rejects a s e Hs He Hinv) as [msg ->].
      simpl. split_and!; try done.
      * split; [done|]. by exists msg.
      * split; [done|]. by intros [? _].
      * by left.
    + destruct (legacy_update_high_res_view_accepts a s e Hs He Hval)
        as (a' & -> & Hs' & He' & _ & Hd).
      simpl. split_and!; try done.
      * split; [|done].
        intros [msg Hmsg]. exfalso. rewrite Hmsg in Hd.
        destruct Hd as [Hd|Hd].
        -- symmetry in Hd. by apply not_self_app in Hd.
        -- apply app_inv_head in Hd. discriminate.
      * intros ->. by rewrite andb_false_r.
      * case_bool_decide as Hview; destruct (legacy_index_error a); simpl;
          split; try done; try (by intros (_ & ? & ?)).
      * destruct (bool_decide _ && legacy_index_error a); [by right|by left].
  - unfold invalid_window. lia.
Qed.

Lemma window_rejected_iff_invalid_witness :
  (∃ msg, dialogs (run KinetiCandlesApp.update_high_res_view inverted_entry).2
          = dialogs inverted_entry ++ [showerror "Invalid Time Window" msg])
  ↔ invalid_window 10 8.
Proof.
  apply (proj1 window_rejected_iff_invalid inverted_entry 10 8);
    reflexivity.
Defined.

(** C3.  A rejected window is not left without trace: the method stores
    the two hours before it tests them, so after the error dialog
    [selected_start_hour] and [selected_end_hour] hold the rejected values.
    Here the stored window was 08-10 and the fields read 10 and 8; the view
    mode and the chart are as before, the stored window is 10-08.  The
    method of [candle.py] does the same. *)
Theorem rejected_window_is_stored :
  invalid_window 10 8
  ∧ (selected_start_hour inverted_entry, selected_end_hour inverted_entry)
    = (8, 10)
  ∧ (let r := run KinetiCandlesApp.update_high_res_view inverted_entry in
     r.1 = None
     ∧ dialogs r.2 = [showerror "Invalid Time Window"
                        "End hour must be greater than start hour"]
     ∧ current_view r.2 = current_view inverted_entry
     ∧ chart r.2 = chart inverted_entry
     ∧ (selected_start_hour r.2, selected_end_hour r.2) = (10, 8))
  ∧ (Legacy.selected_start_hour legacy_inverted_entry,
     Legacy.selected_end_hour legacy_inverted_entry) = (8, 10)
  ∧ (let r := run Legacy.update_high_res_view legacy_inverted_entry in
     Legacy.dialogs r.2 = [showerror "Invalid Time Window"
                             "Time window must be between 1 and 4 hours"]
     ∧ (Legacy.selected_start_hour r.2, Legacy.selected_end_hour r.2) = (10, 8)).
Proof.
  split; [unfold invalid_window; lia|].
  split; [reflexivity|]. split; [by vm_compute|].
  split; [reflexivity|]. by vm_compute.
Qed.

(** ** Weekly analysis *)

(** The weekday average is taken over all five filled cells, whatever days
    the series has. *)
Lemma weekday_avg_of_rows σ (r0 r1 r2 r3 r4 r5 r6 : Model.Weekly.t) :
  Model.get_weekly_data σ
  = Some [("Monday", r0); ("Tuesday", r1); ("Wednesday", r2); ("Thursday", r3);
          ("Friday", r4); ("Saturday", r5); ("Sunday", r6)] →
  Model.Week.weekday_avg <$> Model.analyze_week_patterns σ
  = Some (Series.mean
            (Float.fillna 0 ∘ Model.Weekly.mean <$> [r0; r1; r2; r3; r4]))
  ∧ Model.Week.weekend_avg <$> Model.analyze_week_patterns σ
    = Some (Series.mean (Float.fillna 0 ∘ Model.Weekly.mean <$> [r5; r6])).
Proof.
  intros H. unfold Model.analyze_week_patterns. rewrite H.
  split; by vm_compute.
Qed.

Lemma argbest_lookup better (s : list float) i y :
  Series.argbest better s = Some (i, y) → s !! i = Some (Some y).
Proof.
  revert i y. induction s as [|a s IH]; intros i y; simpl; [done|].
  destruct (Series.argbest better s) as [[j z]|]; simpl.
  - specialize (IH j z eq_refl).
    destruct a as [x|].
    + destruct (better z x); intros [= <- <-]; done.
    + intros [= <- <-]. done.
  - destruct a as [x|]; [|done]. by intros [= <- <-].
Qed.

Lemma argbest_is_Some better (s : list float) :
  (∃ x, Some x ∈ s) → is_Some (Series.argbest better s).
Proof.
  induction s as [|a s IH]; intros [x Hx]; [by apply not_elem_of_nil in Hx|].
  simpl. destruct a as [y|].
  - destruct (Series.argbest better s) as [[j z]|]; simpl; [|eauto].
    destruct (better z y); eauto.
  - apply elem_of_cons in Hx as [?|Hx]; [done|].
    destruct IH as [[j z] ->]; eauto.
Qed.

(** After the fill no cell is NaN, so the analysis always names a most and
    a least active day. *)
Lemma analyze_week_patterns_names_days σ r :
  Model.analyze_week_patterns σ = Some r →
  is_Some (Model.Week.most_active_day r)
  ∧ is_Some (Model.Week.least_active_day r).
Proof.
  unfold Model.analyze_week_patterns.
  destruct (Model.get_weekly_data σ) as [w|]; [|done].
  case_bool_decide as Hw; [done|]. intros [= <-]. simpl.
  set (daily_avg := (λ p, (p.1, Float.fillna 0 (Model.Weekly.mean p.2))) <$> w).
  assert (daily_avg ≠ []) as Hne by (subst daily_avg; destruct w; done).
  assert (Series.isna_all daily_avg.*2 = false) as Hna.
  { subst daily_avg. destruct w as [|[d x] w]; [done|]. simpl.
    by destruct (Model.Weekly.mean x). }
  assert (∃ x, Some x ∈ daily_avg.*2) as Hex.
  { subst daily_avg. destruct w as [|[d x] w]; [done|]. simpl.
    destruct (Model.Weekly.mean x) as [q|]; eexists; apply list_elem_of_here. }
  rewrite bool_decide_eq_true_2, Hna by done. simpl.
  assert (∀ better, is_Some (Model.label_at daily_avg
                               (fst <$> Series.argbest better daily_avg.*2)))
    as Hlabel.
  { intros better.
    destruct (argbest_is_Some better _ Hex) as [[i y] Hi].
    rewrite Hi. simpl. apply argbest_lookup in Hi.
    rewrite list_lookup_fmap in Hi.
    destruct (daily_avg !! i) as [[d v]|]; [by eexists|done]. }
  split; apply Hlabel.
Qed.

(** C1.  A weekday without samples is not left out of the weekday mean: the
    weekly frame is reindexed to all seven day names and its NaN cells are
    filled with 0 before the mean is taken, so the mean is always a sum over
    five cells divided by 5.  For a series whose only sample is a Monday
    sample of 10 the weekday mean is 2, not 10.  The analysis of
    [candle.py], which does not fill, gives 10 on the same series. *)
Theorem absent_weekday_is_averaged_as_zero :
  pooled "Monday" (frame_of monday_only) = [10%Q]
  ∧ Forall (λ day, pooled day (frame_of monday_only) = [])
      ["Tuesday"; "Wednesday"; "Thursday"; "Friday"; "Saturday"; "Sunday"]
  ∧ Model.Week.weekday_avg <$> Model.analyze_week_patterns monday_only
    = Some (Some 2%Q)
  ∧ Model.Week.weekend_avg <$> Model.analyze_week_patterns monday_only
    = Some (Some 0%Q)
  ∧ Model.Week.weekday_avg (Legacy.analyze_week_patterns (frame_of monday_only))
    = Some 10%Q.
Proof.
  split; [by vm_compute|]. split; [|by vm_compute].
  repeat constructor.
Qed.

(** C2.  The least active day is not chosen among the days that have
    data: a day name without samples enters the comparison with the value
    0.  For a series whose only sample is a Tuesday sample of 10 the least
    active day is Monday, a day without data, and the most active day is
    Tuesday.  The analysis of [candle.py] names Tuesday for both. *)
Theorem absent_day_is_named_least_active :
  pooled "Tuesday" (frame_of tuesday_only) = [10%Q]
  ∧ pooled "Monday" (frame_of tuesday_only) = []
  ∧ Model.Week.least_active_day <$> Model.analyze_week_patterns tuesday_only
    = Some (Some "Monday")
  ∧ Model.Week.most_active_day <$> Model.analyze_week_patterns tuesday_only
    = Some (Some "Tuesday")
  ∧ Model.Week.least_active_day
      (Legacy.analyze_week_patterns (frame_of tuesday_only))
    = Some "Tuesday".
Proof. repeat split; by vm_compute. Qed.

(** The week chart of [candle.py] is built differently: open and close are
    the first and the last sample of the day name, and a day name without
    samples has no candle.  On two Monday samples, 10 then 20, it opens at
    10 and closes at 20 where the chart of [KinetiCandles_v3.py] opens and
    closes at the mean, 15. *)
Example legacy_week_candle_opens_at_first_sample :
  Legacy.week_candles two_in_a_minute
  = [WeekCandle.mk 0 (Some 10%Q) (Some 20%Q) (Some 20%Q) (Some 10%Q) "green"]
  ∧ (λ c, (WeekCandle.open_val c, WeekCandle.close_val c))
      <$> ChartView.week_candles
            (default [] (Model.get_weekly_data
                           (mkSession {[ 0%nat := two_in_a_minute ]}
                              (mkModel (Some 0%nat) 0 [4] true)))) !! 0%nat
    = Some (Some 15%Q, Some 15%Q).
Proof. split; by vm_compute. Qed.

(** In [candle.py] the stored window is what the next redraw uses.  After
    the five-hour window 05-10 has been rejected, the next call of
    [plot_kcandles] (day navigation, view switch) draws the minute candles
    of 05:00-10:00. *)
Example legacy_rejected_window_is_drawn :
  invalid_window 5 10
  ∧ (let r := run Legacy.update_high_res_view legacy_wide_entry in
     Legacy.dialogs r.2
     = [showerror "Invalid Time Window"
          "Time window must be between 1 and 4 hours"]
     ∧ Legacy.chart (call Legacy.plot_kcandles r.2).2
       = Some (MinuteBars [(487, 10%Q, 20%Q, Some 20%Q, Some 10%Q)] 4 5 10)).
Proof. split; [unfold invalid_window; lia|]. by vm_compute. Qed.

(** The minute candles of [candle.py] follow the same two-sample rule. *)
Lemma legacy_minute_candle_iff_two_samples (minute : Z) (g : list Row) :
  is_Some (Legacy.minute_candle (minute, g))
  ∧ ((∃ c, Legacy.minute_candle (minute, g) = Some [c]) ↔ (2 ≤ length g)%nat)
  ∧ ((length g < 2)%nat → Legacy.minute_candle (minute, g) = Some []).
Proof.
  unfold Legacy.minute_candle, Model.iloc.
  rewrite py_index_0, py_index_minus_1.
  case_bool_decide as Hlen.
  - destruct g as [|x g]; [simpl in Hlen; lia|].
    destruct (last_is_Some (x :: g)) as [_ [y Hy]]; [done|].
    rewrite Hy. simpl. split; [eauto|]. split; [|intros ?; simpl in *; lia].
    split; [intros _; simpl in *; lia|]. eauto.
  - split; [eauto|]. split; [|done].
    split; [by intros [c ?]|intros ?; lia].
Qed.

(** * Further properties of the code *)

(** ** Ascending keys *)

Lemma insert_key_sorted k ks :
  k ∉ ks → StronglySorted Z.lt ks →
  StronglySorted Z.lt (insert_key Z.leb k ks).
Proof.
  induction ks as [|k' ks IH]; simpl; intros Hk Hs.
  - repeat constructor.
  - apply StronglySorted_inv in Hs as [Hs Hall].
    destruct (Z.leb k k') eqn:E.
    + apply Z.leb_le in E.
      assert (k < k') by (assert (k ≠ k') by set_solver; lia).
      constructor; [by constructor|].
      constructor; [done|].
      eapply Forall_impl; [exact Hall|]. simpl. lia.
    + apply Z.leb_gt in E. constructor.
      * apply IH; [set_solver|done].
      * apply Forall_forall. intros x Hx.
        apply elem_of_insert_key in Hx as [->|Hx]; [lia|].
        rewrite Forall_forall in Hall. by apply Hall.
Qed.

Lemma unique_keys_sorted ks : StronglySorted Z.lt (unique_keys Z.leb ks).
Proof.
  induction ks as [|k ks IH]; simpl; [constructor|].
  destruct (decide (k ∈ unique_keys Z.leb ks)); [done|].
  by apply insert_key_sorted.
Qed.

Lemma sorted_lookup_lt (l : list Z) i j a b :
  StronglySorted Z.lt l → (i < j)%nat →
  l !! i = Some a → l !! j = Some b → a < b.
Proof.
  intros Hs. revert i j. induction Hs as [|x l Hs IH Hall]; intros i j Hij Hi Hj.
  - done.
  - destruct j as [|j]; [lia|]. simpl in Hj.
    destruct i as [|i]; simpl in Hi.
    + injection Hi as <-. rewrite Forall_forall in Hall.
      apply Hall. by eapply list_elem_of_lookup_2.
    + apply (IH i j); [lia|done..].
Qed.

Lemma sorted_lookup_le (l : list Z) i j a b :
  StronglySorted Z.lt l → (i ≤ j)%nat →
  l !! i = Some a → l !! j = Some b → a <= b.
Proof.
  intros Hs Hij Hi Hj. destruct (decide (i = j)) as [->|Hne].
  - rewrite Hi in Hj. injection Hj as <-. lia.
  - assert (a < b); [|lia]. eapply (sorted_lookup_lt l i j); eauto. lia.
Qed.

(** ** Day navigation *)

Lemma get_current_date_in_range m :
  cursor_in_range m →
  Model.get_current_date m = days m !! Z.to_nat (current_day_index m)
  ∧ is_Some (Model.get_current_date m).
Proof.
  unfold cursor_in_range, Model.get_current_date, py_index. intros [H0 Hn].
  assert (days m ≠ []) by (intros E; rewrite E in *; simpl in *; lia).
  rewrite bool_decide_eq_false_2 by done. simpl.
  destruct (Z.leb_spec (Z.of_nat (length (days m))) (current_day_index m)); [lia|].
  destruct (Z.leb_spec 0 (current_day_index m)); [|lia].
  split; [done|]. apply lookup_lt_is_Some. lia.
Qed.

Lemma next_day_step m :
  days m ≠ [] →
  Navigation.next_day m
  = Navigation.set_current_day_index
      ((current_day_index m + 1) mod Z.of_nat (length (days m))) m.
Proof.
  intros Hne. unfold Navigation.next_day.
  by rewrite bool_decide_eq_false_2.
Qed.

Lemma previous_day_step m :
  days m ≠ [] →
  Navigation.previous_day m
  = Navigation.set_current_day_index
      ((current_day_index m - 1) mod Z.of_nat (length (days m))) m.
Proof.
  intros Hne. unfold Navigation.previous_day.
  by rewrite bool_decide_eq_false_2.
Qed.

Lemma step_in_range m :
  days m ≠ [] →
  cursor_in_range (Navigation.next_day m)
  ∧ cursor_in_range (Navigation.previous_day m).
Proof.
  intros Hne.
  assert (0 < Z.of_nat (length (days m))) as Hlen
    by (destruct (days m); simpl in *; [done|lia]).
  unfold Navigation.next_day, Navigation.previous_day, cursor_in_range.
  rewrite !bool_decide_eq_false_2 by done. simpl.
  split; by apply Z.mod_pos_bound.
Qed.

(** X1.  As soon as there is a date, one step forward or backward leaves the
    cursor on a date, wherever it was before; without dates both steps do
    nothing. *)
Theorem navigation_lands_on_a_date (m : DataModel) :
  (days m ≠ [] →
   cursor_in_range (Navigation.next_day m)
   ∧ cursor_in_range (Navigation.previous_day m)
   ∧ is_Some (Model.get_current_date (Navigation.next_day m))
   ∧ is_Some (Model.get_current_date (Navigation.previous_day m)))
  ∧ (days m = [] →
     Navigation.next_day m = m ∧ Navigation.previous_day m = m
     ∧ Model.get_current_date m = None).
Proof.
  split.
  - intros Hne. destruct (step_in_range m Hne) as [Hn Hp].
    repeat split; try apply Hn; try apply Hp;
      by apply get_current_date_in_range.
  - intros Hnil. unfold Navigation.next_day, Navigation.previous_day,
      Model.get_current_date.
    rewrite !bool_decide_eq_true_2 by done. done.
Qed.

Lemma navigation_lands_on_a_date_witness :
  cursor_in_range (Navigation.next_day (self three_days)).
Proof.
  apply (proj1 (navigation_lands_on_a_date (self three_days))).
  by vm_compute.
Defined.

(** X2.  With the cursor on a date, a step forward followed by a step backward
    returns to where it was, and so does a step backward followed by a step
    forward. *)
Theorem next_previous_round_trip (m : DataModel) :
  cursor_in_range m →
  Navigation.previous_day (Navigation.next_day m) = m
  ∧ Navigation.next_day (Navigation.previous_day m) = m.
Proof.
  unfold cursor_in_range. intros Hr.
  assert (days m ≠ []) as Hne by (intros E; rewrite E in *; simpl in *; lia).
  rewrite (next_day_step m Hne), (previous_day_step m Hne).
  rewrite next_day_step, previous_day_step by done.
  unfold Navigation.set_current_day_index. simpl.
  rewrite Zminus_mod_idemp_l, Zplus_mod_idemp_l.
  replace (current_day_index m + 1 - 1) with (current_day_index m) by lia.
  replace (current_day_index m - 1 + 1) with (current_day_index m) by lia.
  rewrite Z.mod_small by lia. by destruct m.
Qed.

Lemma next_previous_round_trip_witness :
  Navigation.previous_day (Navigation.next_day (self three_days))
  = self three_days.
Proof.
  apply (next_previous_round_trip (self three_days)).
  unfold cursor_in_range. by vm_compute.
Defined.

(** ** Loading *)

Lemma detect_other_frames draw l σ l' :
  l' ≠ l → is_Some (store σ !! l') →
  store (Model.detect_data_resolution draw l σ) !! l' = store σ !! l'.
Proof.
  intros Hne Hl'. unfold Model.detect_data_resolution.
  destruct (store σ !! l) as [df|] eqn:Hdf; [|done].
  destruct (decide (Nat.min 1000 (Frame.len df) < Frame.len df)%nat).
  - unfold alloc. simpl.
    assert (fresh (dom (store σ)) ≠ l') as Hfresh.
    { intros Heq. apply (is_fresh (dom (store σ))). rewrite Heq.
      by apply elem_of_dom. }
    by rewrite lookup_alter_ne, lookup_insert_ne.
  - simpl. by rewrite lookup_alter_ne.
Qed.

Lemma detect_keeps_model draw l σ :
  data (self (Model.detect_data_resolution draw l σ)) = data (self σ)
  ∧ days (self (Model.detect_data_resolution draw l σ)) = days (self σ)
  ∧ current_day_index (self (Model.detect_data_resolution draw l σ))
    = current_day_index (self σ).
Proof.
  unfold Model.detect_data_resolution.
  destruct (store σ !! l) as [df|]; [|done].
  by destruct (decide (Nat.min 1000 (Frame.len df) < Frame.len df)%nat).
Qed.

(** The frame the detector leaves under the name it was given: the frame
    itself or the frame with the key column, with the same rows up to that
    column. *)
Lemma detect_rows draw l σ df :
  store σ !! l = Some df →
  ∃ df', store (Model.detect_data_resolution draw l σ) !! l = Some df'
         ∧ (λ r, (timestamp r, activity_level r, day_of_week r)) <$> rows df'
           = (λ r, (timestamp r, activity_level r, day_of_week r)) <$> rows df.
Proof.
  intros Hdf. destruct (decide (Frame.len df ≤ 1000)%nat) as [Hs|Hl].
  - eexists. split; [by apply detect_small_store|].
    unfold Frame.assign. simpl. rewrite <- list_fmap_compose.
    by apply list_fmap_ext.
  - exists df. split; [|done]. apply detect_large_store; [done|lia].
Qed.

Section load.
Variables (draw : list nat) (csv : list (Z * Q)) (σ : Session).

Let σ' := Model.load_data draw csv σ.

Lemma load_data_frame :
  ∃ l df,
    (l ∉ dom (store σ))
    ∧ data (self σ') = Some l
    ∧ store σ' !! l = Some df
    ∧ (λ r, (timestamp r, activity_level r, day_of_week r)) <$> rows df
      = (λ p, (p.1, p.2, day_name p.1)) <$> csv
    ∧ days (self σ')
      = unique_keys Z.leb ((λ r, Dt.date (timestamp r)) <$> rows df)
    ∧ current_day_index (self σ') = 0.
Proof.
  unfold σ', Model.load_data, alloc.
  set (l := fresh (dom (store σ))).
  set (df0 := mkFrame _ _).
  destruct (detect_rows draw l (Model.set_store (<[l:=df0]> (store σ)) σ) df0)
    as (df' & Hl & Hrows).
  { simpl. apply lookup_insert_eq. }
  exists l, df'. simpl. rewrite Hl. simpl.
  split; [apply is_fresh|]. split; [done|]. split; [done|].
  split; [|done].
  rewrite Hrows. unfold df0. simpl. rewrite <- list_fmap_compose.
  by apply list_fmap_ext.
Qed.

Lemma load_data_other_frames l' :
  l' ∈ dom (store σ) → store σ' !! l' = store σ !! l'.
Proof.
  intros Hl'. unfold σ', Model.load_data, alloc. simpl.
  assert (l' ≠ fresh (dom (store σ))) as Hne.
  { intros ->. by apply (is_fresh (dom (store σ))). }
  rewrite detect_other_frames; simpl.
  - by rewrite lookup_insert_ne.
  - done.
  - rewrite lookup_insert_ne by done. by apply elem_of_dom.
Qed.

End load.

(** X3.  [load_data] keeps every row of the file, in file order, each with the
    weekday of its own timestamp, in a frame that was not in the store
    before; it resets the cursor to the first date and does not touch any
    frame that was already there (the previous data is replaced, not
    merged). *)
Theorem load_data_replaces_wholesale
    (draw : list nat) (csv : list (Z * Q)) (σ : Session) :
  ∃ l df,
    (l ∉ dom (store σ))
    ∧ data (self (Model.load_data draw csv σ)) = Some l
    ∧ Model.data_frame (Model.load_data draw csv σ) = Some df
    ∧ (λ r, (timestamp r, activity_level r, day_of_week r)) <$> rows df
      = (λ p, (p.1, p.2, day_name p.1)) <$> csv
    ∧ current_day_index (self (Model.load_data draw csv σ)) = 0
    ∧ ∀ l', l' ∈ dom (store σ) →
        store (Model.load_data draw csv σ) !! l' = store σ !! l'.
Proof.
  destruct (load_data_frame draw csv σ) as (l & df & Hl & Hd & Hs & Hr & _ & Hi).
  exists l, df. unfold Model.data_frame. rewrite Hd. simpl.
  repeat split; try done. apply load_data_other_frames.
Qed.

Lemma rows_day_of_week (rs : list Row) (csv : list (Z * Q)) :
  (λ r, (timestamp r, activity_level r, day_of_week r)) <$> rs
  = (λ p, (p.1, p.2, day_name p.1)) <$> csv →
  (∀ r, r ∈ rs → day_of_week r = day_name (timestamp r))
  ∧ (λ r, Dt.date (timestamp r)) <$> rs = (λ p, Dt.date p.1) <$> csv.
Proof.
  revert csv. induction rs as [|r rs IH]; intros [|p csv] H; try done.
  { split; [|done]. intros r Hr. by apply not_elem_of_nil in Hr. }
  rewrite !fmap_cons in H. injection H as Hts Hal Hdow Hrest.
  destruct (IH csv Hrest) as [IH1 IH2]. split.
  - intros r' [->|Hr']%elem_of_cons; [by rewrite Hdow, Hts|by apply IH1].
  - rewrite !fmap_cons. by rewrite Hts, IH2.
Qed.

Lemma load_data_consistent (draw : list nat) (csv : list (Z * Q)) (σ : Session) :
  consistent (Model.load_data draw csv σ).
Proof.
  destruct (load_data_frame draw csv σ) as (l & df & Hl & Hd & Hs & Hr & Hdays & Hi).
  destruct (rows_day_of_week _ _ Hr) as [Hdow Hdates].
  exists df. unfold Model.data_frame. rewrite Hd. simpl. done.
Qed.

(** X4.  After [load_data] the day index lists the calendar dates of the file,
    each once, in ascending order; with at least one row the current date
    is the earliest date of the file. *)
Theorem load_data_indexes_dates
    (draw : list nat) (csv : list (Z * Q)) (σ : Session) :
  consistent (Model.load_data draw csv σ)
  ∧ StronglySorted Z.lt (days (self (Model.load_data draw csv σ)))
  ∧ (∀ d, d ∈ days (self (Model.load_data draw csv σ))
          ↔ ∃ p, p ∈ csv ∧ Dt.date p.1 = d)
  ∧ (csv ≠ [] →
     ∃ d, Model.get_current_date (self (Model.load_data draw csv σ)) = Some d
          ∧ ∀ p, p ∈ csv → d <= Dt.date p.1).
Proof.
  destruct (load_data_frame draw csv σ) as (l & df & Hl & Hd & Hs & Hr & Hdays & Hi).
  destruct (rows_day_of_week _ _ Hr) as [Hdow Hdates].
  assert (∀ d, d ∈ days (self (Model.load_data draw csv σ))
               ↔ ∃ p, p ∈ csv ∧ Dt.date p.1 = d) as Hmem.
  { intros d. rewrite Hdays, elem_of_unique_keys, Hdates, list_elem_of_fmap.
    naive_solver. }
  assert (StronglySorted Z.lt (days (self (Model.load_data draw csv σ))))
    as Hsorted by (rewrite Hdays; apply unique_keys_sorted).
  split; [|split; [done|split; [done|]]].
  - exists df. unfold Model.data_frame. rewrite Hd. simpl. done.
  - intros Hne.
    assert (cursor_in_range (self (Model.load_data draw csv σ))) as Hc.
    { unfold cursor_in_range. rewrite Hi.
      destruct csv as [|p csv']; [done|].
      destruct (days (self (Model.load_data draw (p :: csv') σ))) as [|d ds] eqn:E.
      - exfalso. apply (not_elem_of_nil (Dt.date p.1)). apply Hmem.
        exists p. split; [apply list_elem_of_here|done].
      - simpl. lia. }
    destruct (get_current_date_in_range _ Hc) as [Hget [d Hd']].
    exists d. split; [done|]. intros p Hp.
    rewrite Hget, Hi in Hd'. simpl in Hd'.
    assert (Dt.date p.1 ∈ days (self (Model.load_data draw csv σ))) as Hin
      by (apply Hmem; eauto).
    apply list_elem_of_lookup in Hin as [j Hj].
    eapply (sorted_lookup_le _ 0%nat j); eauto. lia.
Qed.

Lemma load_data_indexes_dates_witness :
  ∃ d, Model.get_current_date (self three_days) = Some d
       ∧ ∀ p, p ∈ [(Dt.at_time 4 8 7 31, 10%Q); (Dt.at_time 4 8 7 45, 20%Q);
                   (Dt.at_time 5 9 0 0, 30%Q); (Dt.at_time 6 20 15 0, 5%Q)] →
              d <= Dt.date p.1.
Proof.
  apply (proj2 (proj2 (proj2 (load_data_indexes_dates [] _ fresh_session)))).
  done.
Defined.

Lemma iter_next_day m k :
  cursor_in_range m →
  Nat.iter k Navigation.next_day m
  = Navigation.set_current_day_index
      ((current_day_index m + Z.of_nat k) mod Z.of_nat (length (days m))) m.
Proof.
  unfold cursor_in_range. intros Hr.
  assert (days m ≠ []) as Hne by (intros E; rewrite E in *; simpl in *; lia).
  induction k as [|k IH].
  - simpl. rewrite Z.add_0_r, Z.mod_small by lia. by destruct m.
  - rewrite Nat.iter_succ, IH, next_day_step by done.
    unfold Navigation.set_current_day_index. simpl.
    rewrite Zplus_mod_idemp_l. do 2 f_equal. lia.
Qed.

(** X5.  Stepping forward once per date of the index brings the cursor back to
    where it started: the dates are visited in a cycle. *)
Theorem next_day_full_cycle (m : DataModel) :
  cursor_in_range m →
  Nat.iter (length (days m)) Navigation.next_day m = m
  ∧ ∀ k, (0 < k < length (days m))%nat →
         current_day_index (Nat.iter k Navigation.next_day m)
         ≠ current_day_index m.
Proof.
  intros Hr. pose proof Hr as [H0 Hn]. split.
  - rewrite iter_next_day by done.
    rewrite <- (Z.mul_1_l (Z.of_nat (length (days m)))) at 1.
    rewrite Z.mod_add, Z.mod_small by lia. by destruct m.
  - intros k Hk. rewrite iter_next_day by done. simpl.
    destruct (Z.lt_ge_cases (current_day_index m + Z.of_nat k)
                (Z.of_nat (length (days m)))) as [Hlt|Hge].
    + rewrite Z.mod_small by lia. lia.
    + replace (current_day_index m + Z.of_nat k)
        with (current_day_index m + Z.of_nat k - Z.of_nat (length (days m))
              + 1 * Z.of_nat (length (days m))) by lia.
      rewrite Z.mod_add, Z.mod_small by lia. lia.
Qed.

Lemma next_day_full_cycle_witness :
  Nat.iter (length (days (self three_days))) Navigation.next_day (self three_days)
  = self three_days.
Proof.
  apply (next_day_full_cycle (self three_days)).
  unfold cursor_in_range. by vm_compute.
Defined.

Lemma consistent_days σ df :
  consistent σ → Model.data_frame σ = Some df →
  StronglySorted Z.lt (days (self σ))
  ∧ ∀ d, d ∈ days (self σ) ↔ ∃ r, r ∈ rows df ∧ Dt.date (timestamp r) = d.
Proof.
  intros (df' & Hdf' & Hdays & _) Hdf. rewrite Hdf in Hdf'.
  injection Hdf' as <-. rewrite Hdays. split; [apply unique_keys_sorted|].
  intros d. rewrite elem_of_unique_keys, list_elem_of_fmap. naive_solver.
Qed.

(** X6.  In a loaded session a step forward shows the next later date of the
    series, with no date of the series in between; from the latest date it
    wraps to the earliest. *)
Theorem next_day_shows_following_date (σ : Session) (df : DataFrame) (d d' : Z) :
  consistent σ → Model.data_frame σ = Some df →
  cursor_in_range (self σ) →
  Model.get_current_date (self σ) = Some d →
  Model.get_current_date (Navigation.next_day (self σ)) = Some d' →
  (d < d' ∧ ∀ r, r ∈ rows df →
                 Dt.date (timestamp r) <= d ∨ d' <= Dt.date (timestamp r))
  ∨ (∀ r, r ∈ rows df → d' <= Dt.date (timestamp r) <= d).
Proof.
  intros Hcons Hdf Hr Hd Hd'.
  destruct (consistent_days σ df Hcons Hdf) as [Hsorted Hmem].
  set (m := self σ) in *.
  pose proof Hr as [H0 Hn].
  assert (days m ≠ []) as Hne by (intros E; rewrite E in *; simpl in *; lia).
  destruct (get_current_date_in_range m Hr) as [Hget _].
  rewrite Hget in Hd.
  assert (cursor_in_range (Navigation.next_day m)) as Hr'
    by (by apply step_in_range).
  destruct (get_current_date_in_range _ Hr') as [Hget' _].
  rewrite Hget' in Hd'. rewrite next_day_step in Hd' by done. simpl in Hd'.
  assert (∀ r, r ∈ rows df → ∃ j, days m !! j = Some (Dt.date (timestamp r)))
    as Hpos.
  { intros r Hrows. apply list_elem_of_lookup, Hmem. eauto. }
  destruct (decide (current_day_index m + 1 < Z.of_nat (length (days m))))
    as [Hin|Hlast].
  - rewrite Z.mod_small in Hd' by lia. left. split.
    + eapply (sorted_lookup_lt (days m)); [done| |exact Hd|exact Hd']. lia.
    + intros r [j Hj]%Hpos.
      destruct (decide (j ≤ Z.to_nat (current_day_index m))%nat).
      * left.
        by apply (sorted_lookup_le (days m) j (Z.to_nat (current_day_index m))
                    _ _ Hsorted).
      * right.
        apply (sorted_lookup_le (days m) (Z.to_nat (current_day_index m + 1)) j
                 _ _ Hsorted); [lia|done..].
  - right.
    assert (current_day_index m + 1 = 1 * Z.of_nat (length (days m))) as Heq by lia.
    rewrite Heq, Z.mod_mul in Hd' by lia. simpl in Hd'.
    intros r [j Hj]%Hpos. split.
    + apply (sorted_lookup_le (days m) 0%nat j _ _ Hsorted); [lia|done..].
    + apply (sorted_lookup_le (days m) j (Z.to_nat (current_day_index m))
               _ _ Hsorted); [|done..].
      apply lookup_lt_Some in Hj. lia.
Qed.

Lemma next_day_shows_following_date_witness :
  (4 < 5 ∧ ∀ r, r ∈ rows (frame_of three_days) →
                Dt.date (timestamp r) <= 4 ∨ 5 <= Dt.date (timestamp r))
  ∨ (∀ r, r ∈ rows (frame_of three_days) → 5 <= Dt.date (timestamp r) <= 4).
Proof.
  apply (next_day_shows_following_date three_days).
  - apply (load_data_consistent [] _ fresh_session).
  - by vm_compute.
  - unfold cursor_in_range. by vm_compute.
  - by vm_compute.
  - by vm_compute.
Defined.

(** ** More on the reductions *)

Lemma first_activity g :
  Series.first (Frame.activity g) = activity_level <$> head g.
Proof. unfold Series.first. rewrite dropna_activity. by destruct g. Qed.

Lemma last_activity g :
  Series.last (Frame.activity g) = activity_level <$> last g.
Proof.
  unfold Series.last. rewrite dropna_activity.
  induction g as [|r g IH]; [done|].
  destruct g as [|r' g]; [done|]. exact IH.
Qed.

Lemma qsum_lower (a : Q) l :
  (∀ x, x ∈ l → (a <= x)%Q) →
  (a * inject_Z (Z.of_nat (length l)) <= Series.qsum l)%Q.
Proof.
  induction l as [|y l IH]; intros H.
  - change (inject_Z (Z.of_nat (length (@nil Q)))) with 0%Q.
    change (Series.qsum []) with 0%Q. lra.
  - simpl length. rewrite Nat2Z.inj_succ, <- Z.add_1_r, inject_Z_plus.
    simpl Series.qsum.
    assert (a <= y)%Q by (apply H; set_solver).
    assert (a * inject_Z (Z.of_nat (length l)) <= Series.qsum l)%Q
      by (apply IH; intros; apply H; set_solver).
    change (inject_Z 1) with 1%Q. unfold Series.qsum in *. lra.
Qed.

Lemma qsum_upper (a : Q) l :
  (∀ x, x ∈ l → (x <= a)%Q) →
  (Series.qsum l <= a * inject_Z (Z.of_nat (length l)))%Q.
Proof.
  induction l as [|y l IH]; intros H.
  - change (inject_Z (Z.of_nat (length (@nil Q)))) with 0%Q.
    change (Series.qsum []) with 0%Q. lra.
  - simpl length. rewrite Nat2Z.inj_succ, <- Z.add_1_r, inject_Z_plus.
    simpl Series.qsum.
    assert (y <= a)%Q by (apply H; set_solver).
    assert (Series.qsum l <= a * inject_Z (Z.of_nat (length l)))%Q
      by (apply IH; intros; apply H; set_solver).
    change (inject_Z 1) with 1%Q. unfold Series.qsum in *. lra.
Qed.

(** The mean of a list lies between its smallest and its largest value. *)
Lemma mean_between m lo hi l :
  is_mean m l → is_min lo l → is_max hi l → (lo <= m <= hi)%Q.
Proof.
  intros [Hne Hm] [_ Hlo] [_ Hhi].
  assert (0 < inject_Z (Z.of_nat (length l)))%Q as Hpos.
  { destruct l; [done|]. simpl length. rewrite Nat2Z.inj_succ.
    change 0%Q with (inject_Z 0). rewrite <- Zlt_Qlt. lia. }
  rewrite Hm. split.
  - apply Qle_shift_div_l; [done|]. by apply qsum_lower.
  - apply Qle_shift_div_r; [done|]. by apply qsum_upper.
Qed.

(** What [argbest] finds with "strictly larger": the first position of the
    largest value among the cells that are not NaN. *)
Lemma argbest_max (s : list float) i y :
  Series.argbest (λ y x, Float.Qltb x y) s = Some (i, y) →
  s !! i = Some (Some y)
  ∧ (∀ j x, s !! j = Some (Some x) → (x <= y)%Q)
  ∧ (∀ j x, (j < i)%nat → s !! j = Some (Some x) → (x < y)%Q).
Proof.
  revert i y. induction s as [|a s IH]; intros i y; simpl; [done|].
  destruct (Series.argbest _ s) as [[k z]|] eqn:E; simpl.
  - destruct (IH k z eq_refl) as (Hk & Hall & Hbefore).
    destruct a as [x|].
    + destruct (Float.Qltb x z) eqn:Hlt.
      * apply Qltb_lt in Hlt. intros [= <- <-]. split; [done|]. split.
        -- intros [|j] w; simpl; [intros [= <-]; lra|apply Hall].
        -- intros [|j] w Hj; simpl; [intros [= <-]; done|].
           apply Hbefore. lia.
      * assert (z <= x)%Q as Hle.
        { apply Qnot_lt_le. intros H%Qltb_lt. congruence. }
        intros [= <- <-]. split; [done|]. split.
        -- intros [|j] w; simpl; [intros [= <-]; lra|].
           intros Hw%Hall. lra.
        -- intros j w Hj. lia.
    + intros [= <- <-]. split; [done|]. split.
      * intros [|j] w; simpl; [done|apply Hall].
      * intros [|j] w Hj; simpl; [done|]. apply Hbefore. lia.
  - assert (∀ j x, s !! j = Some (Some x) → False) as Hnone.
    { intros j x Hj.
      destruct (argbest_is_Some (λ y x, Float.Qltb x y) s) as [? Hs].
      - exists x. by eapply list_elem_of_lookup_2.
      - rewrite E in Hs. done. }
    destruct a as [x|]; [|done]. intros [= <- <-]. split; [done|]. split.
    + intros [|j] w; simpl; [intros [= <-]; lra|]. intros Hj. by destruct (Hnone j w).
    + intros j w Hj. lia.
Qed.

(** ** The hourly aggregate *)

Lemma sorted_bounded_length (l : list Z) a b :
  StronglySorted Z.lt l → (∀ x, x ∈ l → a <= x < b) → a <= b →
  Z.of_nat (length l) <= b - a.
Proof.
  intros Hs. revert a. induction Hs as [|x l Hs IH Hall]; intros a Hin Hab.
  - simpl. lia.
  - assert (a <= x < b) by (apply Hin; set_solver).
    assert (Z.of_nat (length l) <= b - (x + 1)); [|simpl length; lia].
    apply IH; [|lia]. intros y Hy. rewrite Forall_forall in Hall.
    specialize (Hall y Hy). specialize (Hin y). 
    assert (a <= y < b) by (apply Hin; set_solver). lia.
Qed.

Lemma hour_range ts : 0 <= Dt.hour ts < 24.
Proof. unfold Dt.hour. apply Z.mod_pos_bound. lia. Qed.

Lemma hourly_groups σ hourly :
  Model.get_daily_data_grouped_by_hour σ = Some hourly →
  ∃ day_data,
    Model.get_data_for_current_day σ = Some day_data
    ∧ rows day_data ≠ []
    ∧ hourly
      = (λ g, let s := Frame.activity g.2 in
              Model.Hourly.mk g.1 (Series.first s) (Series.last s)
                (Series.max s) (Series.min s) (Series.mean s))
        <$> groupby Z.leb (λ r, Dt.hour (timestamp r)) (rows day_data).
Proof.
  unfold Model.get_daily_data_grouped_by_hour.
  destruct (Model.get_data_for_current_day σ) as [day_data|]; [|done]. simpl.
  case_bool_decide as Hlen; [done|]. intros [= <-].
  exists day_data. split; [done|]. split; [|done].
  intros Hnil. apply Hlen. unfold Frame.len. by rewrite Hnil.
Qed.

(** The summary of the rows of one group: all five values are numbers,
    first, last and mean lie between min and max. *)
Lemma group_summary (g : list Row) :
  g ≠ [] →
  ∃ f l hi lo m,
    Series.first (Frame.activity g) = Some f
    ∧ Series.last (Frame.activity g) = Some l
    ∧ Series.max (Frame.activity g) = Some hi
    ∧ Series.min (Frame.activity g) = Some lo
    ∧ Series.mean (Frame.activity g) = Some m
    ∧ is_max hi (activity_level <$> g) ∧ is_min lo (activity_level <$> g)
    ∧ is_mean m (activity_level <$> g)
    ∧ (lo <= f <= hi)%Q ∧ (lo <= l <= hi)%Q ∧ (lo <= m <= hi)%Q.
Proof.
  intros Hne.
  pose proof (max_activity g) as Hmax. pose proof (min_activity g) as Hmin.
  pose proof (mean_activity g) as Hmean.
  rewrite first_activity, last_activity.
  destruct (Series.max _) as [hi|]; [|done].
  destruct (Series.min _) as [lo|]; [|done].
  destruct (Series.mean _) as [m|]; [|done].
  destruct (head g) as [rf|] eqn:Hf; [|by destruct g].
  destruct (last_is_Some g) as [_ [rl Hl]]; [done|]. rewrite Hl.
  exists (activity_level rf), (activity_level rl), hi, lo, m. simpl.
  assert (activity_level rf ∈ activity_level <$> g) as Hfin.
  { apply list_elem_of_fmap_2. by apply head_Some_elem_of. }
  assert (activity_level rl ∈ activity_level <$> g) as Hlin.
  { apply list_elem_of_fmap_2. by apply last_Some_elem_of. }
  destruct Hmin as [Hmin1 Hmin2]. destruct Hmax as [Hmax1 Hmax2].
  split_and!; try done; try (by apply Hmin2); try (by apply Hmax2);
    by eapply (mean_between m lo hi).
Qed.

(** X7.  The hourly aggregate of the current day has one row for each hour
    in which the day has samples and no other row, in ascending hour order:
    at least one row and at most 24.  In the row of an hour, first and last
    are the first and the last sample of that hour in the order of the
    series, max and min are the largest and the smallest of its samples, the
    mean is a number, and first and last lie between min and max. *)
Theorem hourly_aggregate_is_well_formed (σ : Session) (hourly : list Model.Hourly.t) :
  Model.get_daily_data_grouped_by_hour σ = Some hourly →
  ∃ day_data,
    Model.get_data_for_current_day σ = Some day_data
    ∧ hourly ≠ []
    ∧ (length hourly ≤ 24)%nat
    ∧ StronglySorted Z.lt (Model.Hourly.timestamp <$> hourly)
    ∧ (∀ k, k ∈ Model.Hourly.timestamp <$> hourly
            ↔ ∃ r, r ∈ rows day_data ∧ Dt.hour (timestamp r) = k)
    ∧ ∀ h, h ∈ hourly →
        let samples :=
          filter (λ r, Dt.hour (timestamp r) = Model.Hourly.timestamp h)
            (rows day_data) in
        0 <= Model.Hourly.timestamp h < 24
        ∧ samples ≠ []
        ∧ Model.Hourly.first h = activity_level <$> head samples
        ∧ Model.Hourly.last h = activity_level <$> last samples
        ∧ ∃ f l hi lo m,
            Model.Hourly.first h = Some f ∧ Model.Hourly.last h = Some l
            ∧ Model.Hourly.max h = Some hi ∧ Model.Hourly.min h = Some lo
            ∧ Model.Hourly.mean h = Some m
            ∧ is_max hi (activity_level <$> samples)
            ∧ is_min lo (activity_level <$> samples)
            ∧ (lo <= f <= hi)%Q ∧ (lo <= l <= hi)%Q.
Proof.
  intros (day_data & Hday & Hne & ->)%hourly_groups.
  exists day_data. split; [done|].
  set (key := λ r, Dt.hour (timestamp r)).
  assert (Model.Hourly.timestamp
            <$> ((λ g, let s := Frame.activity g.2 in
                   Model.Hourly.mk g.1 (Series.first s) (Series.last s)
                     (Series.max s) (Series.min s) (Series.mean s))
                 <$> groupby Z.leb key (rows day_data))
          = unique_keys Z.leb (key <$> rows day_data)) as Hhours.
  { rewrite <- list_fmap_compose, <- (groupby_fst Z.leb key).
    by apply list_fmap_ext. }
  assert (StronglySorted Z.lt (unique_keys Z.leb (key <$> rows day_data)))
    as Hsorted by apply unique_keys_sorted.
  assert (∀ x, x ∈ unique_keys Z.leb (key <$> rows day_data) → 0 <= x < 24)
    as Hrange.
  { intros x Hx. apply elem_of_unique_keys, list_elem_of_fmap in Hx
      as (r & -> & _). apply hour_range. }
  split; [|split; [|split; [|split]]].
  - destruct (rows day_data) as [|r rs] eqn:E; [done|].
    assert (r ∈ r :: rs) as Hr by set_solver.
    apply (groupby_complete Z.leb key) in Hr.
    intros Hnil. apply fmap_nil_inv in Hnil. rewrite Hnil in Hr.
    by apply not_elem_of_nil in Hr.
  - rewrite <- (length_fmap Model.Hourly.timestamp), Hhours.
    pose proof (sorted_bounded_length _ 0 24 Hsorted Hrange). lia.
  - by rewrite Hhours.
  - intros k. rewrite Hhours, elem_of_unique_keys, list_elem_of_fmap.
    split; intros (r & ? & ?); by exists r.
  - intros h ([k g] & -> & Hg)%list_elem_of_fmap. cbv zeta.
    cbn [Model.Hourly.timestamp Model.Hourly.first Model.Hourly.last
         Model.Hourly.max Model.Hourly.min Model.Hourly.mean fst snd].
    pose proof (groupby_nonempty _ _ _ _ _ Hg) as Hgne.
    pose proof Hg as Hg'.
    apply groupby_group in Hg as [Hgeq (r & _ & <-)].
    unfold group, key in Hgeq. cbv beta in Hgeq. unfold key.
    rewrite <- Hgeq.
    split; [apply hour_range|]. split; [done|].
    split; [apply first_activity|]. split; [apply last_activity|].
    destruct (group_summary g Hgne)
      as (f & l & hi & lo & m & -> & -> & -> & -> & -> & ? & ? & _ & ? & ? & _).
    by exists f, l, hi, lo, m.
Qed.

Lemma hourly_aggregate_is_well_formed_witness :
  ∃ day_data,
    Model.get_data_for_current_day bimodal_day = Some day_data
    ∧ hourly_of bimodal_day ≠ []
    ∧ (length (hourly_of bimodal_day) ≤ 24)%nat
    ∧ StronglySorted Z.lt (Model.Hourly.timestamp <$> hourly_of bimodal_day)
    ∧ (∀ k, k ∈ Model.Hourly.timestamp <$> hourly_of bimodal_day
            ↔ ∃ r, r ∈ rows day_data ∧ Dt.hour (timestamp r) = k).
Proof.
  destruct (hourly_aggregate_is_well_formed bimodal_day (hourly_of bimodal_day))
    as (day_data & H1 & H2 & H3 & H4 & H5 & _); [by vm_compute|].
  exists day_data. split; [exact H1|]. split; [exact H2|]. split; [exact H3|].
  split; [exact H4|exact H5].
Defined.

Lemma indexed_day_samples (σ : Session) :
  consistent σ → cursor_in_range (self σ) →
  ∃ d day_data hourly a,
    Model.get_current_date (self σ) = Some d
    ∧ Model.get_data_for_current_day σ = Some day_data
    ∧ rows day_data ≠ []
    ∧ (∀ r, r ∈ rows day_data → Dt.date (timestamp r) = d)
    ∧ Model.get_daily_data_grouped_by_hour σ = Some hourly
    ∧ Model.analyze_day_patterns σ = Some a
    ∧ hourly ≠ [].
Proof.
  intros Hcons Hr. pose proof Hcons as (df & Hdf & Hdays & Hdow).
  destruct (consistent_days σ df Hcons Hdf) as [_ Hmem].
  destruct (get_current_date_in_range _ Hr) as [Hget [d Hd]].
  assert (d ∈ days (self σ)) as Hin.
  { rewrite Hget in Hd. by eapply list_elem_of_lookup_2. }
  apply Hmem in Hin as (r & Hrin & Hrd).
  set (day_data := Frame.select (λ r, Dt.date (timestamp r) =? d) df).
  assert (Model.get_data_for_current_day σ = Some day_data) as Hday.
  { unfold Model.get_data_for_current_day. rewrite Hd. simpl. by rewrite Hdf. }
  assert (r ∈ rows day_data) as Hrday.
  { unfold day_data, Frame.select. simpl.
    apply list_elem_of_In, List.filter_In. split; [by apply list_elem_of_In|].
    by apply Z.eqb_eq. }
  assert (rows day_data ≠ []) as Hne by (intros E; rewrite E in Hrday; set_solver).
  assert (Frame.len day_data ≠ 0%nat) as Hlen.
  { unfold Frame.len. destruct (rows day_data); [done|simpl; lia]. }
  eexists d, day_data, _, _. split; [done|]. split; [done|]. split; [done|].
  split.
  { intros r' Hr'. unfold day_data, Frame.select in Hr'. simpl in Hr'.
    apply list_elem_of_In, List.filter_In in Hr' as [_ Hr']. by apply Z.eqb_eq. }
  assert (Model.get_daily_data_grouped_by_hour σ
          = Some ((λ g, let s := Frame.activity g.2 in
                     Model.Hourly.mk g.1 (Series.first s) (Series.last s)
                       (Series.max s) (Series.min s) (Series.mean s))
                  <$> groupby Z.leb (λ r, Dt.hour (timestamp r)) (rows day_data)))
    as Hhourly.
  { unfold Model.get_daily_data_grouped_by_hour. rewrite Hday. simpl.
    by rewrite bool_decide_eq_false_2. }
  split; [exact Hhourly|].
  assert (groupby Z.leb (λ r, Dt.hour (timestamp r)) (rows day_data) ≠ [])
    as Hgroups.
  { intros Hz.
    apply (groupby_complete Z.leb (λ r, Dt.hour (timestamp r))) in Hrday.
    rewrite Hz in Hrday. by apply not_elem_of_nil in Hrday. }
  split.
  - unfold Model.analyze_day_patterns. rewrite Hhourly.
    rewrite bool_decide_eq_false_2; [done|].
    rewrite length_fmap. intros Hz. by apply length_zero_iff_nil in Hz.
  - intros Hz. by apply fmap_nil_inv in Hz.
Qed.

(** X8.  In a loaded session every date of the index has samples: with the
    cursor on a date the day's rows, the hourly aggregate and the day
    analysis all exist. *)
Theorem every_indexed_day_has_samples (σ : Session) :
  consistent σ → cursor_in_range (self σ) →
  ∃ d day_data hourly a,
    Model.get_current_date (self σ) = Some d
    ∧ Model.get_data_for_current_day σ = Some day_data
    ∧ rows day_data ≠ []
    ∧ (∀ r, r ∈ rows day_data → Dt.date (timestamp r) = d)
    ∧ Model.get_daily_data_grouped_by_hour σ = Some hourly
    ∧ Model.analyze_day_patterns σ = Some a.
Proof.
  intros Hcons Hr.
  destruct (indexed_day_samples σ Hcons Hr)
    as (d & day_data & hourly & a & ? & ? & ? & ? & ? & ? & _).
  by exists d, day_data, hourly, a.
Qed.

Lemma every_indexed_day_has_samples_witness :
  is_Some (Model.analyze_day_patterns three_days).
Proof.
  destruct (every_indexed_day_has_samples three_days)
    as (d & dd & h & a & _ & _ & _ & _ & _ & ->).
  - apply (load_data_consistent [] _ fresh_session).
  - unfold cursor_in_range. by vm_compute.
  - by eexists.
Defined.

(** ** The peak hour *)

Lemma groupby_lookup_order {A} (key : A → Z) rs i j k g k' g' :
  groupby Z.leb key rs !! i = Some (k, g) →
  groupby Z.leb key rs !! j = Some (k', g') →
  (i ≤ j)%nat → k <= k'.
Proof.
  intros Hi Hj Hij.
  apply (sorted_lookup_le ((groupby Z.leb key rs).*1) i j).
  - rewrite groupby_fst. apply unique_keys_sorted.
  - done.
  - by rewrite list_lookup_fmap, Hi.
  - by rewrite list_lookup_fmap, Hj.
Qed.

(** X9.  The peak hour of the day analysis is the hour of a largest sample of
    the day; when several hours reach that value it is the earliest of
    them. *)
Theorem peak_hour_is_hour_of_largest_sample
    (σ : Session) (a : Model.Day.t) (day_data : DataFrame) :
  Model.analyze_day_patterns σ = Some a →
  Model.get_data_for_current_day σ = Some day_data →
  ∃ r, r ∈ rows day_data
       ∧ Dt.hour (timestamp r) = Model.Day.peak_hour a
       ∧ (∀ r', r' ∈ rows day_data → (activity_level r' <= activity_level r)%Q)
       ∧ (∀ r', r' ∈ rows day_data →
                (activity_level r' == activity_level r)%Q →
                Model.Day.peak_hour a <= Dt.hour (timestamp r')).
Proof.
  intros Ha Hday. unfold Model.analyze_day_patterns in Ha.
  destruct (Model.get_daily_data_grouped_by_hour σ) as [hourly|] eqn:Hh; [|done].
  apply hourly_groups in Hh as (dd & Hdd & Hne & ->).
  rewrite Hday in Hdd. injection Hdd as <-.
  case_bool_decide as Hlen; [done|]. injection Ha as <-. simpl.
  assert (∃ r, r ∈ rows day_data) as Hsome.
  { clear Hlen. destruct (rows day_data) as [|r rs]; [done|].
    exists r. apply list_elem_of_here. }
  set (key := λ r, Dt.hour (timestamp r)).
  set (groups := groupby Z.leb key (rows day_data)) in *.
  rewrite <- list_fmap_compose.
  set (maxs := (Model.Hourly.max ∘ _) <$> groups).
  assert (maxs = (λ g, Series.max (Frame.activity g.2)) <$> groups) as Hmaxs
    by (by apply list_fmap_ext).
  assert (∀ j kg, groups !! j = Some kg →
            ∃ y, maxs !! j = Some (Some y)
                 ∧ is_max y (activity_level <$> kg.2)) as Hgroup.
  { intros j [k g] Hj. rewrite Hmaxs, list_lookup_fmap, Hj. simpl.
    pose proof (max_activity g) as Hmax.
    destruct (Series.max (Frame.activity g)) as [y|]; [by exists y|].
    apply list_elem_of_lookup_2 in Hj. by apply groupby_nonempty in Hj. }
  destruct (Series.argbest (λ y x, Float.Qltb x y) maxs) as [[i y]|] eqn:Hbest.
  2:{ exfalso. destruct Hsome as [r Hr].
      apply (groupby_complete Z.leb key) in Hr.
      apply list_elem_of_lookup in Hr as [j Hj].
      destruct (Hgroup j _ Hj) as (y & Hy & _).
      destruct (argbest_is_Some (λ y x, Float.Qltb x y) maxs) as [? Hs].
      - exists y. by eapply list_elem_of_lookup_2.
      - fold groups in Hbest. rewrite Hbest in Hs. done. }
  apply argbest_max in Hbest as (Hi & Hall & Hbefore).
  unfold Series.idxmax. 
  assert (Series.argbest (λ y x, Float.Qltb x y) maxs = Some (i, y)) as Hbest'.
  { destruct (Series.argbest (λ y x, Float.Qltb x y) maxs) as [[i' y']|] eqn:E.
    - apply argbest_max in E as (Hi' & Hall' & Hbefore').
      destruct (Nat.lt_trichotomy i i') as [Hlt|[->|Hlt]].
      + pose proof (Hbefore' i y Hlt Hi). pose proof (Hall i' y' Hi'). lra.
      + rewrite Hi in Hi'. by injection Hi' as ->.
      + pose proof (Hbefore i' y' Hlt Hi'). pose proof (Hall' i y Hi). lra.
    - destruct (argbest_is_Some (λ y x, Float.Qltb x y) maxs) as [? Hs].
      + exists y. by eapply list_elem_of_lookup_2.
      + rewrite E in Hs. done. }
  rewrite Hbest'. simpl.
  destruct (groups !! i) as [[k g]|] eqn:Hgi.
  2:{ rewrite Hmaxs, list_lookup_fmap, Hgi in Hi. done. }
  rewrite list_lookup_fmap, Hgi. simpl.
  destruct (Hgroup i _ Hgi) as (y' & Hy' & [Hyin Hyub]). simpl in *.
  rewrite Hi in Hy'. injection Hy' as <-.
  apply list_elem_of_fmap in Hyin as (r & Hry & Hrg).
  pose proof (list_elem_of_lookup_2 _ _ _ Hgi) as Hkg.
  apply groupby_group in Hkg as [Hg _].
  assert (r ∈ rows day_data ∧ key r = k) as [Hrin Hrk].
  { rewrite Hg in Hrg. unfold group in Hrg.
    apply list_elem_of_filter in Hrg as [? ?]. done. }
  assert (∀ r', r' ∈ rows day_data →
            ∃ j g' y', groups !! j = Some (key r', g')
                       ∧ maxs !! j = Some (Some y')
                       ∧ (activity_level r' <= y')%Q) as Hrow.
  { intros r' Hr'.
    pose proof (groupby_complete Z.leb key _ _ Hr') as Hc.
    apply list_elem_of_lookup in Hc as [j Hj].
    destruct (Hgroup j _ Hj) as (y' & Hy' & [_ Hub]). simpl in Hub.
    exists j, (group key (rows day_data) (key r')), y'.
    split; [done|]. split; [done|].
    apply Hub. apply list_elem_of_fmap_2.
    unfold group. by apply list_elem_of_filter. }
  exists r. split; [done|]. split; [done|]. split.
  - intros r' (j & g' & y' & _ & Hy' & Hle)%Hrow.
    pose proof (Hall j y' Hy'). rewrite <- Hry. lra.
  - intros r' Hr' Heq. destruct (Hrow r' Hr') as (j & g' & y' & Hj & Hy' & Hle).
    destruct (decide (i ≤ j)%nat) as [Hij|Hji].
    + by apply (groupby_lookup_order key (rows day_data) i j k g (key r') g').
    + pose proof (Hbefore j y' ltac:(lia) Hy'). rewrite <- Hry in Heq. lra.
Qed.

Lemma peak_hour_is_hour_of_largest_sample_witness :
  ∃ r, r ∈ rows (day_frame_of bimodal_day)
       ∧ Dt.hour (timestamp r) = Model.Day.peak_hour bimodal_analysis
       ∧ (∀ r', r' ∈ rows (day_frame_of bimodal_day) →
                (activity_level r' <= activity_level r)%Q)
       ∧ (∀ r', r' ∈ rows (day_frame_of bimodal_day) →
                (activity_level r' == activity_level r)%Q →
                Model.Day.peak_hour bimodal_analysis <= Dt.hour (timestamp r')).
Proof.
  apply (peak_hour_is_hour_of_largest_sample bimodal_day); by vm_compute.
Defined.

(** ** The high-resolution window *)

Lemma elem_of_select mask df r :
  r ∈ rows (Frame.select mask df) ↔ r ∈ rows df ∧ mask r = true.
Proof.
  unfold Frame.select. simpl. rewrite !list_elem_of_In. apply List.filter_In.
Qed.

Lemma time_index_of_bounds ts :
  (inject_Z (60 * Dt.hour ts) <= Model.time_index_of ts)%Q
  ∧ (Model.time_index_of ts < inject_Z (60 * (Dt.hour ts + 1)))%Q.
Proof.
  unfold Model.time_index_of.
  assert (0 <= Dt.minute ts < 60) as Hm
    by (unfold Dt.minute; apply Z.mod_pos_bound; lia).
  assert (0 <= Dt.second ts < 60) as Hs
    by (unfold Dt.second; apply Z.mod_pos_bound; lia).
  assert (0 <= inject_Z (Dt.second ts))%Q as Hs0
    by (change 0%Q with (inject_Z 0); rewrite <- Zle_Qle; lia).
  assert (inject_Z (Dt.second ts) < 60)%Q as Hs1
    by (change 60%Q with (inject_Z 60); rewrite <- Zlt_Qlt; lia).
  assert (inject_Z (60 * Dt.hour ts) <= inject_Z (Dt.hour ts * 60 + Dt.minute ts))%Q
    as Hlo by (rewrite <- Zle_Qle; lia).
  assert (inject_Z (Dt.hour ts * 60 + Dt.minute ts) + 1
          <= inject_Z (60 * (Dt.hour ts + 1)))%Q as Hhi.
  { change 1%Q with (inject_Z 1). rewrite <- inject_Z_plus, <- Zle_Qle. lia. }
  assert (0 <= inject_Z (Dt.second ts) / 60)%Q as Hd0
    by (apply Qle_shift_div_l; lra).
  assert (inject_Z (Dt.second ts) / 60 < 1)%Q as Hd1
    by (apply Qlt_shift_div_r; lra).
  split; lra.
Qed.

Lemma window_rows_in_bounds
    (σ : Session) (start_hour end_hour : Z) (wd : DataFrame) :
  Model.get_high_resolution_data start_hour end_hour σ = Some wd →
  ∃ d, Model.get_current_date (self σ) = Some d
       ∧ ∀ r, r ∈ rows wd →
           Dt.date (timestamp r) = d
           ∧ start_hour <= Dt.hour (timestamp r) < end_hour.
Proof.
  unfold Model.get_high_resolution_data, Model.get_data_for_current_day.
  destruct (Model.get_current_date (self σ)) as [d|]; [|done]. simpl.
  destruct (Model.data_frame σ) as [df|]; [|done]. simpl.
  case_bool_decide as Hlen1; [done|]. case_bool_decide as Hlen2; [done|].
  intros [= <-]. exists d. split; [done|]. intros r' Hr'.
  unfold Frame.assign in Hr'. simpl in Hr'.
  apply list_elem_of_fmap in Hr' as (r & -> & Hr). simpl.
  apply list_elem_of_In, List.filter_In in Hr as [Hr Hh].
  apply List.filter_In in Hr as [_ Hd%Z.eqb_eq].
  apply andb_true_iff in Hh as [?%Z.leb_le ?%Z.ltb_lt]. done.
Qed.

(** X10.  A window returned by [get_high_resolution_data] is not empty; all its
    rows are rows of the current date whose hour lies in
    [start_hour, end_hour), and the [time_index] written into each row lies
    between [60 * start_hour] and [60 * end_hour].  In particular a window
    is returned only for [start_hour < end_hour]. *)
Theorem high_res_window_is_within_bounds
    (σ : Session) (start_hour end_hour : Z) (wd : DataFrame) :
  Model.get_high_resolution_data start_hour end_hour σ = Some wd →
  rows wd ≠ [] ∧ start_hour < end_hour
  ∧ "time_index" ∈ columns wd
  ∧ ∃ d, Model.get_current_date (self σ) = Some d
      ∧ ∀ r, r ∈ rows wd →
          Dt.date (timestamp r) = d
          ∧ start_hour <= Dt.hour (timestamp r) < end_hour
          ∧ ∃ ti, extra r !! "time_index" = Some (CFloat (Some ti))
                  ∧ (inject_Z (60 * start_hour) <= ti)%Q
                  ∧ (ti < inject_Z (60 * end_hour))%Q.
Proof.
  unfold Model.get_high_resolution_data, Model.get_data_for_current_day.
  destruct (Model.get_current_date (self σ)) as [d|]; [|done]. simpl.
  destruct (Model.data_frame σ) as [df|]; [|done]. simpl.
  case_bool_decide as Hlen1; [done|]. case_bool_decide as Hlen2; [done|].
  intros [= <-].
  set (day_data := Frame.select (λ r, Dt.date (timestamp r) =? d) df) in *.
  set (window := Frame.select _ day_data) in *.
  assert (∀ r, r ∈ rows window →
            Dt.date (timestamp r) = d
            ∧ start_hour <= Dt.hour (timestamp r) < end_hour) as Hwin.
  { intros r [[_ Hd%Z.eqb_eq]%elem_of_select Hh]%elem_of_select.
    apply andb_true_iff in Hh as [?%Z.leb_le ?%Z.ltb_lt]. done. }
  assert (rows window ≠ []) as Hne.
  { intros E. apply Hlen2. unfold Frame.len. by rewrite E. }
  split; [|split; [|split]].
  - unfold Frame.assign. simpl. intros E. by apply fmap_nil_inv in E.
  - destruct (rows window) as [|r rs] eqn:E; [done|].
    destruct (Hwin r) as [_ ?]; [try rewrite E; apply list_elem_of_here|lia].
  - unfold Frame.assign. simpl. case_decide; [done|set_solver].
  - exists d. split; [done|]. intros r' Hr'.
    unfold Frame.assign in Hr'. simpl in Hr'.
    apply list_elem_of_fmap in Hr' as (r & -> & Hr).
    destruct (Hwin r Hr) as [Hd Hh]. simpl.
    split; [done|]. split; [done|].
    exists (Model.time_index_of (timestamp r)).
    split; [apply lookup_insert_eq|].
    destruct (time_index_of_bounds (timestamp r)) as [Hlo Hhi].
    assert (inject_Z (60 * start_hour) <= inject_Z (60 * Dt.hour (timestamp r)))%Q
      by (rewrite <- Zle_Qle; lia).
    assert (inject_Z (60 * (Dt.hour (timestamp r) + 1)) <= inject_Z (60 * end_hour))%Q
      by (rewrite <- Zle_Qle; lia).
    split; lra.
Qed.

Lemma high_res_window_is_within_bounds_witness :
  rows (window_of 8 10 three_days) ≠ [] ∧ 8 < 10.
Proof.
  destruct (high_res_window_is_within_bounds three_days 8 10
              (window_of 8 10 three_days)) as (H1 & H2 & _); [by vm_compute|done].
Defined.

(** X11.  For a day that has rows, no window is returned exactly when no row of
    the day has its hour in [start_hour, end_hour); so an inverted or empty
    hour range never gives a window. *)
Theorem high_res_window_none_iff
    (σ : Session) (start_hour end_hour : Z) (day_data : DataFrame) :
  Model.get_data_for_current_day σ = Some day_data →
  (Model.get_high_resolution_data start_hour end_hour σ = None
   ↔ ∀ r, r ∈ rows day_data →
          ¬ (start_hour <= Dt.hour (timestamp r) < end_hour))
  ∧ (end_hour <= start_hour →
     Model.get_high_resolution_data start_hour end_hour σ = None).
Proof.
  intros Hday.
  assert (Model.get_high_resolution_data start_hour end_hour σ = None
          ↔ ∀ r, r ∈ rows day_data →
                 ¬ (start_hour <= Dt.hour (timestamp r) < end_hour)) as Hiff.
  { unfold Model.get_high_resolution_data. rewrite Hday. simpl.
    set (window := Frame.select _ day_data).
    assert (∀ r, r ∈ rows window
                 ↔ r ∈ rows day_data
                   ∧ start_hour <= Dt.hour (timestamp r) < end_hour) as Hwin.
    { intros r. unfold window. rewrite elem_of_select, andb_true_iff,
        Z.leb_le, Z.ltb_lt. tauto. }
    case_bool_decide as Hlen1.
    { split; [|done]. intros _ r Hr. exfalso.
      unfold Frame.len in Hlen1. apply length_zero_iff_nil in Hlen1.
      rewrite Hlen1 in Hr. by apply not_elem_of_nil in Hr. }
    case_bool_decide as Hlen2.
    - split; [|done]. intros _ r Hr Hh.
      unfold Frame.len in Hlen2. apply length_zero_iff_nil in Hlen2.
      assert (r ∈ rows window) as Hin by (by apply Hwin).
      rewrite Hlen2 in Hin. by apply not_elem_of_nil in Hin.
    - split; [done|]. intros Hnone. exfalso. apply Hlen2.
      unfold Frame.len. destruct (rows window) as [|r rs] eqn:E; [done|].
      assert (r ∈ r :: rs) as Hin by apply list_elem_of_here.
      apply Hwin in Hin as [Hin Hh]. by destruct (Hnone r Hin). }
  split; [done|]. intros Hinv. apply Hiff. intros r _. lia.
Qed.

Lemma high_res_window_none_iff_witness :
  Model.get_high_resolution_data 10 8 three_days = None.
Proof.
  apply (proj2 (high_res_window_none_iff three_days 10 8
                  (day_frame_of three_days) ltac:(by vm_compute))).
  lia.
Defined.

(** ** Groups partition the rows *)

Lemma sum_indicator {K} `{EqDecision K} (x : K) (ks : list K) :
  NoDup ks → x ∈ ks →
  sum_list ((λ k, if decide (x = k) then 1 else 0)%nat <$> ks) = 1%nat.
Proof.
  intros Hnd. induction Hnd as [|k ks Hk Hnd IH]; intros Hx.
  { inversion Hx. }
  rewrite fmap_cons. simpl. destruct (decide (x = k)) as [->|Hne].
  - f_equal. clear IH Hx Hnd. induction ks as [|k' ks IH]; [done|].
    rewrite fmap_cons. simpl.
    destruct (decide (k = k')) as [->|];
      [exfalso; apply Hk; apply list_elem_of_here|].
    apply IH. intros Hin. apply Hk. by apply list_elem_of_further.
  - apply IH. set_solver.
Qed.

Lemma sum_filter_lengths {A K} `{EqDecision K} (key : A → K) (ks : list K) rs :
  NoDup ks → (∀ r, r ∈ rs → key r ∈ ks) →
  sum_list ((λ k, length (filter (λ r, key r = k) rs)) <$> ks) = length rs.
Proof.
  intros Hnd. induction rs as [|r rs IH]; intros Hin.
  - clear. induction ks as [|k ks IHk]; [done|].
    rewrite fmap_cons. simpl. exact IHk.
  - assert (sum_list ((λ k, length (filter (λ r, key r = k) (r :: rs))) <$> ks)
            = (sum_list ((λ k, if decide (key r = k) then 1 else 0) <$> ks)
               + sum_list ((λ k, length (filter (λ r, key r = k) rs)) <$> ks))%nat)
      as ->.
    { clear. induction ks as [|k ks IHk]; [done|].
      rewrite !fmap_cons. simpl sum_list. rewrite IHk, filter_cons.
      destruct (decide (key r = k)); simpl; lia. }
    rewrite sum_indicator, IH; [done| |done|].
    + intros r' Hr'. apply Hin. set_solver.
    + apply Hin. set_solver.
Qed.

(** Every row is in exactly one group: the sizes of the groups add up to
    the number of rows. *)
Lemma groupby_partition {A K} `{EqDecision K} (leb : K → K → bool)
    (key : A → K) (rs : list A) :
  sum_list ((λ g, length g.2) <$> groupby leb key rs) = length rs.
Proof.
  unfold groupby. rewrite <- list_fmap_compose.
  rewrite <- (sum_filter_lengths key (unique_keys leb (key <$> rs)) rs).
  - f_equal.
  - apply NoDup_unique_keys.
  - intros r Hr. apply elem_of_unique_keys. by apply list_elem_of_fmap_2.
Qed.

(** ** Order, bounds and number of the candles *)

Lemma candle_of_group_cases W k g l :
  Model.candle_of_group W (k, g) = Some l →
  (l = [] ∧ (length g ≤ 1)%nat)
  ∨ (∃ c, l = [c] ∧ (2 ≤ length g)%nat
          ∧ Model.Candle.timestamp c = Dt.of_seconds k
          ∧ Model.Candle.interval_seconds c = W
          ∧ Model.Candle.time_index c = Model.time_index_of (Dt.of_seconds k)
          ∧ Some (Model.Candle.first c) = activity_level <$> head g
          ∧ Some (Model.Candle.last c) = activity_level <$> last g
          ∧ Model.Candle.max c = Series.max (Frame.activity g)
          ∧ Model.Candle.min c = Series.min (Frame.activity g)).
Proof.
  intros Hl. destruct (decide (1 < length g)%nat) as [Hlen|Hlen].
  - right. unfold Model.candle_of_group, Model.iloc in Hl.
    rewrite bool_decide_eq_true_2 in Hl by done.
    rewrite py_index_0, py_index_minus_1 in Hl.
    destruct (head g) as [rf|] eqn:Hf; [|done].
    destruct (last g) as [rl|] eqn:Hla; [|done].
    simpl in Hl. injection Hl as <-. eexists. split; [done|]. simpl.
    split_and!; try done; lia.
  - left. rewrite candle_of_group_few in Hl by lia. injection Hl as <-.
    split; [done|lia].
Qed.

Lemma candles_sorted_and_counted W (groups : list (Z * list Row))
    (css : list (list Model.Candle.t)) :
  Forall2 (λ x y, Model.candle_of_group W x = Some y) groups css →
  StronglySorted Z.lt groups.*1 →
  StronglySorted Z.lt (Model.Candle.timestamp <$> mjoin css)
  ∧ (2 * length (mjoin css) ≤ sum_list ((λ g, length g.2) <$> groups))%nat
  ∧ ∀ c, c ∈ mjoin css → ∃ k, k ∈ groups.*1
                              ∧ Model.Candle.timestamp c = Dt.of_seconds k.
Proof.
  induction 1 as [|[k g] l groups css Hl HF IH]; intros Hs.
  - simpl. split; [constructor|]. split; [lia|]. intros c Hc. inversion Hc.
  - rewrite fmap_cons in Hs. apply StronglySorted_inv in Hs as [Hs Hall].
    destruct (IH Hs) as (IH1 & IH2 & IH3).
    rewrite !fmap_cons. simpl.
    apply candle_of_group_cases in Hl as [[-> Hlen]|(c & -> & Hlen & Hts & _)].
    + simpl. split; [done|]. split; [lia|].
      intros c (k' & Hk' & Hc)%IH3. exists k'. split; [set_solver|done].
    + simpl. split; [|split].
      * constructor; [done|]. apply Forall_forall.
        intros t (c' & -> & Hc')%list_elem_of_fmap.
        destruct (IH3 c' Hc') as (k' & Hk' & ->).
        rewrite Forall_forall in Hall. specialize (Hall k' Hk').
        rewrite Hts. unfold Dt.of_seconds, Dt.NS_PER_SECOND.
        change (10 ^ 9) with 1000000000. simpl in Hall. lia.
      * lia.
      * intros c' [->|Hc']%elem_of_cons.
        -- exists k. split; [set_solver|done].
        -- destruct (IH3 c' Hc') as (k' & Hk' & ?). exists k'.
           split; [set_solver|done].
Qed.

(** X12.  The candles of a window come in strictly ascending order of bucket
    start, each bucket start being a multiple of the interval; in every
    candle min and max are numbers with first and last between them; and
    there are at most half as many candles as rows in the window. *)
Theorem candles_are_ordered_and_bounded
    (W : Z) (wd : DataFrame) (candles : list Model.Candle.t) :
  0 < W →
  Model.get_candle_data (Some wd) W = Some candles →
  StronglySorted Z.lt (Model.Candle.timestamp <$> candles)
  ∧ (2 * length candles ≤ length (rows wd))%nat
  ∧ ∀ c, c ∈ candles →
      Model.Candle.interval_seconds c = W
      ∧ (∃ k, Model.Candle.timestamp c = Dt.of_seconds k ∧ k mod W = 0)
      ∧ ∃ hi lo, Model.Candle.max c = Some hi ∧ Model.Candle.min c = Some lo
                 ∧ (lo <= Model.Candle.first c <= hi)%Q
                 ∧ (lo <= Model.Candle.last c <= hi)%Q.
Proof.
  intros HW Hget.
  destruct (get_candle_data_groups W wd ltac:(lia)) as (css & Hcss & Hget').
  rewrite Hget in Hget'. injection Hget' as ->.
  pose proof (mapM_Some_1 _ _ _ Hcss) as HF.
  destruct (candles_sorted_and_counted W _ _ HF) as (Hsorted & Hcount & _).
  { unfold Model.interval_groups. rewrite groupby_fst.
    apply unique_keys_sorted. }
  split; [done|]. split.
  - unfold Model.interval_groups in Hcount.
    rewrite groupby_partition, rows_with_intervals, length_fmap in Hcount. done.
  - intros c Hc.
    destruct (candle_from_group W wd css c Hcss Hc) as (k & g & Hg & Hlen & Hcg).
    apply candle_of_group_cases in Hcg
      as [[? _]|(c' & [= <-] & _ & Hts & HWc & _ & Hf & Hl & Hmax & Hmin)];
      [done|].
    split; [done|]. split.
    { exists k. split; [done|]. by eapply interval_group_range. }
    assert (g ≠ []) as Hne by (intros ->; simpl in Hlen; lia).
    destruct (group_summary g Hne)
      as (f & l & hi & lo & m & Hf' & Hl' & Hmax' & Hmin' & _ & _ & _ & _ & ? & ? & _).
    rewrite first_activity, <- Hf in Hf'. injection Hf' as ->.
    rewrite last_activity, <- Hl in Hl'. injection Hl' as ->.
    exists hi, lo. rewrite Hmax, Hmin. done.
Qed.

Lemma candles_are_ordered_and_bounded_witness :
  (2 * length (default [] (Model.get_candle_data (Some morning_window) 60))
   ≤ length (rows morning_window))%nat.
Proof.
  apply (candles_are_ordered_and_bounded 60 morning_window); [lia|by vm_compute].
Defined.

(** ** Candles and the window *)

Lemma bucket_same_hour W e0 :
  0 < W → 3600 mod W = 0 → (e0 / W * W) / 3600 = e0 / 3600.
Proof.
  intros HW Hdiv. apply Z.mod_divide in Hdiv as [c Hc]; [|lia].
  assert (0 < c) as Hcpos by nia.
  pose proof (Z.mul_div_le e0 3600 ltac:(lia)) as Hlo.
  pose proof (Z.mul_succ_div_gt e0 3600 ltac:(lia)) as Hhi.
  pose proof (Z.mul_div_le e0 W HW) as Hk.
  set (h := e0 / 3600) in *.
  assert (c * h <= e0 / W) as Hq.
  { apply Z.div_le_lower_bound; [done|].
    replace (W * (c * h)) with (3600 * h) by (rewrite Hc; ring). lia. }
  assert (3600 * h <= e0 / W * W) as Hge.
  { replace (3600 * h) with (c * h * W) by (rewrite Hc; ring).
    apply Z.mul_le_mono_nonneg_r; lia. }
  symmetry. apply Z.div_unique with (r := e0 / W * W - 3600 * h); lia.
Qed.

Lemma bucket_same_hour_and_date W ts :
  0 < W → 3600 mod W = 0 →
  let k := Dt.epoch_seconds ts / W * W in
  Dt.hour (Dt.of_seconds k) = Dt.hour ts
  ∧ Dt.date (Dt.of_seconds k) = Dt.date ts.
Proof.
  intros HW Hdiv k. unfold Dt.hour, Dt.date. rewrite epoch_of_seconds.
  pose proof (bucket_same_hour W (Dt.epoch_seconds ts) HW Hdiv) as Hh.
  fold k in Hh. rewrite Hh. split; [done|].
  change 86400 with (3600 * 24).
  rewrite <- !Z.div_div by lia. by rewrite Hh.
Qed.

(** X13.  With an interval that divides the hour (15, 30, 60 and 300 seconds do)
    every candle of a selected window lies inside the window: its bucket
    starts on the current date at an hour in [start_hour, end_hour), and
    its [time_index] lies between [60 * start_hour] and [60 * end_hour]. *)
Theorem candles_fall_inside_window
    (σ : Session) (start_hour end_hour W : Z) (wd : DataFrame)
    (candles : list Model.Candle.t) :
  0 < W → 3600 mod W = 0 →
  Model.get_high_resolution_data start_hour end_hour σ = Some wd →
  Model.get_candle_data (Some wd) W = Some candles →
  ∃ d, Model.get_current_date (self σ) = Some d
       ∧ ∀ c, c ∈ candles →
           Dt.date (Model.Candle.timestamp c) = d
           ∧ start_hour <= Dt.hour (Model.Candle.timestamp c) < end_hour
           ∧ (inject_Z (60 * start_hour) <= Model.Candle.time_index c)%Q
           ∧ (Model.Candle.time_index c < inject_Z (60 * end_hour))%Q.
Proof.
  intros HW Hdiv Hwd Hget.
  destruct (window_rows_in_bounds σ start_hour end_hour wd Hwd)
    as (d & Hd & Hrows).
  exists d. split; [done|]. intros c Hc.
  destruct (get_candle_data_groups W wd ltac:(lia)) as (css & Hcss & Hget').
  rewrite Hget in Hget'. injection Hget' as ->.
  destruct (candle_from_group W wd css c Hcss Hc) as (k & g & Hg & Hlen & Hcg).
  apply candle_of_group_cases in Hcg
    as [[? _]|(c' & [= <-] & _ & Hts & _ & Hti & _)]; [done|].
  destruct g as [|r' g']; [simpl in Hlen; lia|].
  pose proof Hg as Hg'. unfold Model.interval_groups in Hg'.
  apply groupby_group in Hg' as [Hgeq _].
  assert (r' ∈ group (Model.interval_of W)
                 (rows (Model.with_intervals W wd)) k) as Hr'
    by (rewrite <- Hgeq; apply list_elem_of_here).
  unfold group in Hr'. apply list_elem_of_filter in Hr' as [Hk Hr'].
  rewrite rows_with_intervals in Hr'.
  apply list_elem_of_fmap in Hr' as (r & -> & Hr).
  destruct (Hrows r Hr) as [Hdate Hhour].
  unfold Model.interval_of, Model.epoch_of in Hk. simpl in Hk.
  destruct (bucket_same_hour_and_date W (timestamp r) HW Hdiv) as [Hh Hdt].
  rewrite Hk in Hh, Hdt.
  rewrite Hts, Hti, Hh, Hdt. split; [done|]. split; [done|].
  destruct (time_index_of_bounds (Dt.of_seconds k)) as [Hlo Hhi].
  rewrite Hh in Hlo, Hhi.
  assert (inject_Z (60 * start_hour) <= inject_Z (60 * Dt.hour (timestamp r)))%Q
    by (rewrite <- Zle_Qle; lia).
  assert (inject_Z (60 * (Dt.hour (timestamp r) + 1)) <= inject_Z (60 * end_hour))%Q
    by (rewrite <- Zle_Qle; lia).
  split; lra.
Qed.

Lemma candles_fall_inside_window_witness :
  ∃ d, Model.get_current_date (self three_days) = Some d
       ∧ ∀ c, c ∈ default [] (Model.get_candle_data
                                (Some (window_of 8 10 three_days)) 60) →
           Dt.date (Model.Candle.timestamp c) = d
           ∧ 8 <= Dt.hour (Model.Candle.timestamp c) < 10
           ∧ (inject_Z (60 * 8) <= Model.Candle.time_index c)%Q
           ∧ (Model.Candle.time_index c < inject_Z (60 * 10))%Q.
Proof.
  apply (candles_fall_inside_window three_days 8 10 60
           (window_of 8 10 three_days)); [lia|done|by vm_compute..].
Defined.

(** ** Finding a day by its name *)

Lemma day_name_in_week ts :
  day_name ts = weekday_of_date (Dt.date ts) ∧ day_name ts ∈ DAYS_OF_WEEK.
Proof.
  split; [done|]. unfold day_name.
  pose proof (Z.mod_pos_bound (Dt.date ts + 3) 7 ltac:(lia)) as Hb.
  destruct (DAYS_OF_WEEK !! Z.to_nat ((Dt.date ts + 3) mod 7)) as [d|] eqn:E.
  - simpl. by eapply list_elem_of_lookup_2.
  - apply lookup_ge_None in E. simpl in E. lia.
Qed.

Lemma index_of_Some x l i :
  Navigation.index_of x l = Some i →
  0 <= i < Z.of_nat (length l) ∧ l !! Z.to_nat i = Some x.
Proof.
  unfold Navigation.index_of.
  destruct (list_find (λ d, d = x) l) as [[j y]|] eqn:E; [|done].
  simpl. intros [= <-]. apply list_find_Some in E as (Hj & -> & _).
  rewrite Nat2Z.id. split; [|done]. apply lookup_lt_Some in Hj. lia.
Qed.

Lemma index_of_elem x l : x ∈ l → is_Some (Navigation.index_of x l).
Proof.
  intros Hx. unfold Navigation.index_of.
  destruct (list_find_elem_of (λ d, d = x) l x Hx eq_refl) as [hit ->].
  by eexists.
Qed.

Lemma select_decide (P : Row → Prop) `{∀ r, Decision (P r)} df :
  rows (Frame.select (λ r, bool_decide (P r)) df) = filter P (rows df).
Proof.
  unfold Frame.select. simpl. induction (rows df) as [|r rs IH]; [done|].
  simpl. rewrite filter_cons, IH.
  destruct (decide (P r));
    [rewrite bool_decide_eq_true_2|rewrite bool_decide_eq_false_2]; done.
Qed.

Lemma find_day_index_by_name_Some (σ : Session) (name : string) (i : Z) :
  consistent σ →
  Navigation.find_day_index_by_name name σ = Some i →
  ∃ d, days (self σ) !! Z.to_nat i = Some d
       ∧ 0 <= i < Z.of_nat (length (days (self σ)))
       ∧ weekday_of_date d = name.
Proof.
  intros (df & Hdf & _ & Hdow). unfold Navigation.find_day_index_by_name.
  rewrite Hdf. case_bool_decide; [done|]. case_bool_decide; [done|].
  rewrite py_index_0.
  destruct (head _) as [r|] eqn:Hhead; [|done]. simpl.
  intros [Hrange Hlook]%index_of_Some.
  apply head_Some_elem_of, elem_of_select in Hhead as [Hr Hn].
  apply bool_decide_eq_true in Hn.
  exists (Dt.date (timestamp r)). split; [done|]. split; [done|].
  rewrite <- Hn, (Hdow r Hr). symmetry. apply day_name_in_week.
Qed.

(** X14.  In a loaded session [find_day_index_by_name] answers with a position of
    the day index whose date falls on the weekday asked for, namely the
    date of the first row of the series that carries the name; it answers
    nothing exactly when the name is not a day name or no row carries it. *)
Theorem find_day_index_by_name_finds_that_weekday
    (σ : Session) (df : DataFrame) (name : string) :
  consistent σ → Model.data_frame σ = Some df →
  (∀ i, Navigation.find_day_index_by_name name σ = Some i →
        ∃ d r rest,
          days (self σ) !! Z.to_nat i = Some d
          ∧ 0 <= i < Z.of_nat (length (days (self σ)))
          ∧ weekday_of_date d = name
          ∧ Model.get_current_date
              (Navigation.set_current_day_index i (self σ)) = Some d
          ∧ filter (λ r, day_of_week r = name) (rows df) = r :: rest
          ∧ Dt.date (timestamp r) = d)
  ∧ (Navigation.find_day_index_by_name name σ = None
     ↔ name ∉ DAYS_OF_WEEK ∨ ∀ r, r ∈ rows df → day_of_week r ≠ name).
Proof.
  intros Hcons Hdf. pose proof Hcons as (df' & Hdf' & Hdays & Hdow).
  rewrite Hdf in Hdf'. injection Hdf' as <-.
  destruct (consistent_days σ df Hcons Hdf) as [_ Hmem].
  unfold Navigation.find_day_index_by_name. rewrite Hdf.
  assert (rows (Frame.select (λ r, bool_decide (day_of_week r = name)) df)
          = filter (λ r, day_of_week r = name) (rows df)) as Hsel.
  { apply select_decide. }
  unfold Frame.len. rewrite Hsel, py_index_0.
  case_bool_decide as Hname.
  { split; [done|]. split; [by left|done]. }
  destruct (filter (λ r, day_of_week r = name) (rows df)) as [|r rest] eqn:Hf.
  - simpl. split; [done|]. split; [|done]. intros _. right.
    intros r Hr Hn.
    assert (r ∈ filter (λ r, day_of_week r = name) (rows df)) as Hin
      by (by apply list_elem_of_filter).
    rewrite Hf in Hin. inversion Hin.
  - simpl.
    assert (r ∈ rows df ∧ day_of_week r = name) as [Hr Hrn].
    { assert (r ∈ filter (λ r, day_of_week r = name) (rows df)) as Hin
        by (rewrite Hf; apply list_elem_of_here).
      apply list_elem_of_filter in Hin as [? ?]. done. }
    assert (Dt.date (timestamp r) ∈ days (self σ)) as Hdin
      by (apply Hmem; eauto).
    split.
    + intros i Hi. apply index_of_Some in Hi as [Hrange Hlook].
      exists (Dt.date (timestamp r)), r, rest.
      split; [done|]. split; [done|]. split.
      { rewrite <- Hrn, (Hdow r Hr). symmetry. apply day_name_in_week. }
      split; [|done].
      assert (cursor_in_range (Navigation.set_current_day_index i (self σ)))
        as Hc by done.
      destruct (get_current_date_in_range _ Hc) as [-> _]. done.
    + split.
      * intros Hnone. destruct (index_of_elem _ _ Hdin) as [i Hi].
        rewrite Hi in Hnone. done.
      * intros [Hno|Hno]; [done|]. by destruct (Hno r Hr).
Qed.

Lemma find_day_index_by_name_finds_that_weekday_witness :
  Navigation.find_day_index_by_name "Thursday" three_days = None
  ↔ "Thursday" ∉ DAYS_OF_WEEK
    ∨ ∀ r, r ∈ rows (frame_of three_days) → day_of_week r ≠ "Thursday".
Proof.
  apply (find_day_index_by_name_finds_that_weekday
           three_days (frame_of three_days) "Thursday").
  - apply (load_data_consistent [] _ fresh_session).
  - by vm_compute.
Defined.

(** ** Redrawing after navigation *)

Section redraw.
Import KinetiCandlesApp.

Lemma update_high_res_view_frame (a : App) :
  ∃ o a', update_high_res_view a = (o, a')
          ∧ (∀ e, o = Raised e →
                  e = IndexError ∧ Model.index_error (self (model a)) = true)
          ∧ model a' = model a
          ∧ candle_interval_seconds a' = candle_interval_seconds a
          ∧ (current_view a' = current_view a ∨ current_view a' = "high_res").
Proof.
  unfold update_high_res_view, model_get_current_date. unfold_method.
  destruct (start_hour_var a) as [s|]; cbv beta iota;
    [|eexists _, _; split; [reflexivity|]; split_and!; auto; done].
  destruct (end_hour_var a) as [e|]; cbv beta iota;
    [|eexists _, _; split; [reflexivity|]; split_and!; auto; done].
  set (a1 := set_selected_end_hour e (set_selected_start_hour s a)).
  change (selected_start_hour a1) with s. change (selected_end_hour a1) with e.
  destruct ((s <? 0) || (23 <? s));
    [eexists _, _; split; [reflexivity|]; split_and!; auto; done|].
  destruct ((e <? 0) || (24 <? e));
    [eexists _, _; split; [reflexivity|]; split_and!; auto; done|].
  destruct (e <=? s);
    [eexists _, _; split; [reflexivity|]; split_and!; auto; done|].
  destruct (4 <? e - s);
    [eexists _, _; split; [reflexivity|]; split_and!; auto; done|].
  destruct (bool_decide (current_view a1 ≠ "high_res"));
    [set (a2 := set_current_view "high_res" a1)|set (a2 := a1)].
  all: cbv beta iota.
  all: change (model a2) with (model a).
  all: destruct (Model.index_error (self (model a))) eqn:Hi;
    [eexists _, _; split; [reflexivity|]; split_and!; auto;
     by intros ? [= <-]|].
  all: cbv beta iota.
  all: destruct (Model.get_current_date (self (model a))) as [current_date|];
    [|eexists _, _; split; [reflexivity|]; split_and!; auto; done].
  all: case_bool_decide;
    [eexists _, _; split; [reflexivity|]; split_and!; auto; done|].
  all: destruct (get_candle_data_total
              (Model.get_high_resolution_data (selected_start_hour a2)
                 (selected_end_hour a2) (model a2))
              (candle_interval_seconds a2)) as [candle_data ->].
  all: case_bool_decide;
    [eexists _, _; split; [reflexivity|]; split_and!; auto; done|].
  all: cbv beta iota.
  all: match goal with
       | |- context [update_view_label ?x] =>
           pose proof (update_view_label_run x Hi) as Hlabel;
           unfold call in Hlabel;
           destruct (update_view_label x) as [[[]| |] ?]; simplify_eq
       end.
  all: eexists _, _; (split; [reflexivity|]); split_and!; auto; done.
Qed.

End redraw.

Section redraw_more.
Import KinetiCandlesApp.

Lemma update_day_view_frame (a : App) :
  ∃ o a', AppViews.update_day_view a = (o, a')
          ∧ (∀ e, o = Raised e →
                  e = IndexError ∧ Model.index_error (self (model a)) = true)
          ∧ model a' = model a
          ∧ candle_interval_seconds a' = candle_interval_seconds a
          ∧ current_view a' = current_view a.
Proof.
  unfold AppViews.update_day_view, model_get_current_date. unfold_method.
  destruct (Model.index_error (self (model a))) eqn:Hi;
    [eexists _, _; split; [reflexivity|]; split_and!; auto;
     by intros ? [= <-]|].
  cbv beta iota.
  destruct (Model.get_current_date (self (model a))) as [d|];
    [|eexists _, _; split; [reflexivity|]; split_and!; auto; done].
  case_bool_decide;
    eexists _, _; (split; [reflexivity|]); split_and!; auto; done.
Qed.

Lemma cursor_in_range_no_index_error m :
  cursor_in_range m → Model.index_error m = false.
Proof.
  intros [H0 Hn]. unfold Model.index_error.
  apply andb_false_iff. right. apply Z.ltb_ge. lia.
Qed.

Lemma update_day_view_draws (a : App) d hourly :
  Model.index_error (self (model a)) = false →
  Model.get_current_date (self (model a)) = Some d →
  Model.get_daily_data_grouped_by_hour (model a) = Some hourly →
  hourly ≠ [] →
  AppViews.update_day_view a
  = (Normal (), set_chart (Some (Charts.plot_day_view (Some hourly) d)) a).
Proof.
  intros Hi Hd Hh Hne.
  unfold AppViews.update_day_view, model_get_current_date. unfold_method.
  rewrite Hi, Hd, Hh. simpl. rewrite bool_decide_eq_false_2; [done|].
  by destruct hourly.
Qed.

(** [update_view] handles every exception of the three redraws with a
    dialog. *)
Lemma update_view_frame (a : App) :
  ∃ a', run AppViews.update_view a = (None, a')
        ∧ model a' = model a
        ∧ candle_interval_seconds a' = candle_interval_seconds a
        ∧ (current_view a' = current_view a).
Proof.
  unfold AppViews.update_view. unfold_method.
  case_bool_decide; [by eexists|].
  case_bool_decide as Hday.
  { destruct (update_day_view_frame a) as (o & a' & -> & Ho & ? & ? & ?).
    destruct o; by eexists. }
  case_bool_decide as Hweek; [by eexists|].
  case_bool_decide as Hhr; [|by eexists].
  destruct (update_high_res_view_frame a) as (o & a' & -> & Ho & ? & ? & Hv).
  assert (current_view a' = current_view a) by (destruct Hv; congruence).
  destruct o; by eexists.
Qed.

Lemma update_view_day (a : App) d hourly :
  data (self (model a)) ≠ None → current_view a = "day" →
  Model.index_error (self (model a)) = false →
  Model.get_current_date (self (model a)) = Some d →
  Model.get_daily_data_grouped_by_hour (model a) = Some hourly →
  hourly ≠ [] →
  AppViews.update_view a
  = (Normal (), set_chart (Some (Charts.plot_day_view (Some hourly) d)) a).
Proof.
  intros Hdata Hv Hi Hd Hh Hne. unfold AppViews.update_view. unfold_method.
  rewrite bool_decide_eq_false_2 by done.
  rewrite bool_decide_eq_true_2 by done.
  by rewrite (update_day_view_draws a d hourly).
Qed.

End redraw_more.

Lemma consistent_data σ : consistent σ → data (self σ) ≠ None.
Proof.
  intros (df & Hdf & _). unfold Model.data_frame in Hdf.
  by destruct (data (self σ)).
Qed.

Lemma consistent_set_cursor σ i :
  consistent σ →
  consistent (Navigation.on_model (Navigation.set_current_day_index i) σ).
Proof. intros (df & Hdf & Hdays & Hdow). by exists df. Qed.

Lemma indexed_day_redraw (a : App) (i : Z) :
  consistent (model a) →
  0 <= i < Z.of_nat (length (days (self (model a)))) →
  current_view a = "day" →
  let σ' := Navigation.on_model (Navigation.set_current_day_index i) (model a) in
  ∃ a', call AppViews.update_view (AppViews.set_model σ' a) = (Normal (), a')
        ∧ call KinetiCandlesApp.update_view_label (AppViews.set_model σ' a)
          = (Normal (), AppViews.set_model σ' a)
        ∧ shows_day σ' a a'
        ∧ Model.get_current_date (self σ')
          = days (self (model a)) !! Z.to_nat i.
Proof.
  intros Hcons Hi Hview σ'.
  assert (consistent σ') as Hcons' by (by apply consistent_set_cursor).
  assert (cursor_in_range (self σ')) as Hr by done.
  pose proof (cursor_in_range_no_index_error _ Hr) as Hie.
  destruct (indexed_day_samples σ' Hcons' Hr)
    as (d & day_data & hourly & an & Hd & _ & _ & _ & Hh & _ & Hne).
  destruct (get_current_date_in_range _ Hr) as [Hget _].
  eexists. split; [|split; [|split; [by exists d, hourly|exact Hget]]].
  - unfold call. rewrite (update_view_day _ d hourly); try done.
    by apply (consistent_data σ').
  - by apply update_view_label_run.
Qed.

(** X15.  In the day view, with a loaded series that has at least one row, the
    buttons for the next and the previous day move the cursor of the model
    by one position (cyclically) and draw the hourly candles of the date
    there: the chart is never cleared, no dialog is shown and no exception
    escapes. *)
Theorem day_navigation_redraws_hourly_chart (a : App) :
  consistent (model a) → days (self (model a)) ≠ [] → current_view a = "day" →
  ∃ a1 a2,
    run AppViews.next_day a = (None, a1)
    ∧ shows_day (Navigation.on_model Navigation.next_day (model a)) a a1
    ∧ run AppViews.previous_day a = (None, a2)
    ∧ shows_day (Navigation.on_model Navigation.previous_day (model a)) a a2.
Proof.
  intros Hcons Hne Hview.
  pose proof (consistent_data _ Hcons) as Hdata.
  assert (0 < Z.of_nat (length (days (self (model a))))) as Hlen
    by (destruct (days (self (model a))); simpl in *; [done|lia]).
  destruct (indexed_day_redraw a
              ((current_day_index (self (model a)) + 1)
                 mod Z.of_nat (length (days (self (model a)))))
              Hcons ltac:(by apply Z.mod_pos_bound) Hview)
    as (a1 & Hrun1 & Hlabel1 & Hshow1 & _).
  destruct (indexed_day_redraw a
              ((current_day_index (self (model a)) - 1)
                 mod Z.of_nat (length (days (self (model a)))))
              Hcons ltac:(by apply Z.mod_pos_bound) Hview)
    as (a2 & Hrun2 & Hlabel2 & Hshow2 & _).
  exists a1, a2.
  unfold Navigation.on_model at 1 2.
  rewrite next_day_step, previous_day_step by done.
  split_and!; try done.
  - unfold AppViews.next_day. unfold_body.
    rewrite bool_decide_eq_false_2 by done.
    unfold Navigation.on_model at 1. rewrite next_day_step by done.
    fold (Navigation.on_model
            (Navigation.set_current_day_index
               ((current_day_index (self (model a)) + 1)
                  mod Z.of_nat (length (days (self (model a)))))) (model a)).
    by rewrite Hlabel1, Hrun1.
  - unfold AppViews.previous_day. unfold_body.
    rewrite bool_decide_eq_false_2 by done.
    unfold Navigation.on_model at 1. rewrite previous_day_step by done.
    fold (Navigation.on_model
            (Navigation.set_current_day_index
               ((current_day_index (self (model a)) - 1)
                  mod Z.of_nat (length (days (self (model a)))))) (model a)).
    by rewrite Hlabel2, Hrun2.
Qed.

(** X16.  Choosing a day name in the dropdown of a loaded session either reports
    that no row carries the name and changes nothing else, or moves the
    cursor to the date of the first such row, switches to the day view and
    draws the hourly candles of that date, which falls on the weekday
    chosen. *)
Theorem day_dropdown_shows_that_weekday (a : App) (selected_day : string) :
  consistent (model a) → selected_day ≠ "" →
  match Navigation.find_day_index_by_name selected_day (model a) with
  | None =>
      run (AppViews.on_day_selected selected_day) a
      = (None, KinetiCandlesApp.messagebox
                 (showinfo "No Data" "No data available for the selected day") a)
  | Some day_index =>
      ∃ a' d,
        run (AppViews.on_day_selected selected_day) a = (None, a')
        ∧ shows_day
            (Navigation.on_model
               (Navigation.set_current_day_index day_index) (model a))
            (KinetiCandlesApp.set_current_view "day" a) a'
        ∧ Model.get_current_date (self (model a')) = Some d
        ∧ weekday_of_date d = selected_day
  end.
Proof.
  intros Hcons Hname.
  pose proof (consistent_data _ Hcons) as Hdata.
  destruct (Navigation.find_day_index_by_name selected_day (model a))
    as [day_index|] eqn:Hfind.
  - destruct (find_day_index_by_name_Some _ _ _ Hcons Hfind)
      as (d & Hlook & Hrange & Hwd).
    destruct (indexed_day_redraw (KinetiCandlesApp.set_current_view "day" a)
                day_index Hcons Hrange eq_refl)
      as (a' & Hrun & Hlabel & Hshow & Hdate).
    exists a', d. split; [|split; [exact Hshow|]].
    + unfold AppViews.on_day_selected. unfold_body.
      rewrite bool_decide_eq_false_2 by done.
      rewrite bool_decide_eq_false_2 by done. cbn [orb].
      rewrite Hfind.
      change (KinetiCandlesApp.set_current_view "day"
                (AppViews.set_model
                   (Navigation.on_model
                      (Navigation.set_current_day_index day_index) (model a))
                   a))
        with (AppViews.set_model
                (Navigation.on_model
                   (Navigation.set_current_day_index day_index)
                   (model (KinetiCandlesApp.set_current_view "day" a)))
                (KinetiCandlesApp.set_current_view "day" a)).
      cbv zeta in Hlabel, Hrun.
      by rewrite Hlabel, Hrun.
    + destruct Hshow as (d' & hourly & Hd' & _ & _ & ->).
      assert (d' = d) as ->.
      { apply (inj Some). rewrite <- Hd', <- Hlook. exact Hdate. }
      split; [exact Hd'|done].
  - unfold AppViews.on_day_selected. unfold_body.
    rewrite bool_decide_eq_false_2 by done.
    rewrite bool_decide_eq_false_2 by done. cbn [orb].
    by rewrite Hfind.
Qed.

Lemma day_navigation_redraws_hourly_chart_witness :
  ∃ a1 a2,
    run AppViews.next_day (app_with three_days) = (None, a1)
    ∧ shows_day (Navigation.on_model Navigation.next_day three_days)
        (app_with three_days) a1
    ∧ run AppViews.previous_day (app_with three_days) = (None, a2)
    ∧ shows_day (Navigation.on_model Navigation.previous_day three_days)
        (app_with three_days) a2.
Proof.
  apply (day_navigation_redraws_hourly_chart (app_with three_days)).
  - apply (load_data_consistent [] _ fresh_session).
  - by vm_compute.
  - reflexivity.
Defined.

Lemma day_dropdown_shows_that_weekday_witness :
  match Navigation.find_day_index_by_name "Tuesday" three_days with
  | None =>
      run (AppViews.on_day_selected "Tuesday") (app_with three_days)
      = (None, KinetiCandlesApp.messagebox
                 (showinfo "No Data" "No data available for the selected day")
                 (app_with three_days))
  | Some day_index =>
      ∃ a' d,
        run (AppViews.on_day_selected "Tuesday") (app_with three_days)
        = (None, a')
        ∧ shows_day
            (Navigation.on_model
               (Navigation.set_current_day_index day_index) three_days)
            (KinetiCandlesApp.set_current_view "day" (app_with three_days)) a'
        ∧ Model.get_current_date (self (model a')) = Some d
        ∧ weekday_of_date d = "Tuesday"
  end.
Proof.
  apply (day_dropdown_shows_that_weekday (app_with three_days) "Tuesday").
  - apply (load_data_consistent [] _ fresh_session).
  - done.
Defined.

Lemma call_of_run {S} (c : M S unit) (s s' : S) :
  run c s = (None, s') → call c s = (Normal (), s').
Proof.
  unfold run, call. destruct (c s) as [[[]| |] ?]; intros H; by simplify_eq.
Qed.

(** X17.  [switch_view] without data only shows a dialog.  With data it
    records the view asked for, whatever its name and whether or not the
    redraw goes through, and leaves the model alone.  As long as the day
    cursor is a valid index no exception escapes, and for a name that is
    none of the three views nothing is redrawn; with a cursor below
    [-len(days)] the label update, which runs outside any handler, lets its
    IndexError escape once the view is recorded.  (Stated for a candle
    interval that is not zero.) *)
Theorem switch_view_records_the_view (a : App) (view_type : string) :
  candle_interval_seconds a ≠ 0 →
  (data (self (model a)) = None →
   run (AppViews.switch_view view_type) a
   = (None, KinetiCandlesApp.messagebox
              (showinfo "No Data" "Please load data first") a))
  ∧ (data (self (model a)) ≠ None →
     Model.index_error (self (model a)) = false →
     ∃ a', run (AppViews.switch_view view_type) a = (None, a')
           ∧ current_view a' = view_type
           ∧ model a' = model a
           ∧ (view_type ∉ ["day"; "week"; "high_res"] →
              a' = KinetiCandlesApp.set_current_view view_type a))
  ∧ (data (self (model a)) ≠ None →
     Model.index_error (self (model a)) = true →
     run (AppViews.switch_view view_type) a
     = (Some IndexError, KinetiCandlesApp.set_current_view view_type a)).
Proof.
  intros _. split; [|split].
  - intros Hnone. unfold AppViews.switch_view. unfold_method.
    by rewrite bool_decide_eq_true_2.
  - intros Hdata Hi.
    destruct (update_view_frame (KinetiCandlesApp.set_current_view view_type a))
      as (a' & Hrun & Hm & _ & Hv).
    pose proof (update_view_label_run
                  (KinetiCandlesApp.set_current_view view_type a) Hi) as Hlabel.
    exists a'. split_and!; try done.
    + unfold AppViews.switch_view. unfold_body.
      rewrite bool_decide_eq_false_2 by done.
      by rewrite Hlabel, (call_of_run _ _ _ Hrun).
    + intros Hunknown.
      assert (run AppViews.update_view
                (KinetiCandlesApp.set_current_view view_type a)
              = (None, KinetiCandlesApp.set_current_view view_type a)) as Hrun'.
      { unfold AppViews.update_view. unfold_method.
        rewrite bool_decide_eq_false_2 by done.
        rewrite !bool_decide_eq_false_2; [done|..];
          simpl; intros ->; apply Hunknown; set_solver. }
      rewrite Hrun in Hrun'. by injection Hrun'.
  - intros Hdata Hi.
    pose proof (update_view_label_raises
                  (KinetiCandlesApp.set_current_view view_type a) Hdata Hi)
      as Hlabel.
    unfold AppViews.switch_view. unfold_body.
    rewrite bool_decide_eq_false_2 by done.
    by rewrite Hlabel.
Qed.

Lemma switch_view_records_the_view_witness :
  ∃ a', run (AppViews.switch_view "weekly") (app_with three_days) = (None, a')
        ∧ current_view a' = "weekly"
        ∧ model a' = three_days
        ∧ ("weekly" ∉ ["day"; "week"; "high_res"] →
           a' = KinetiCandlesApp.set_current_view "weekly" (app_with three_days)).
Proof.
  apply (switch_view_records_the_view (app_with three_days) "weekly").
  - done.
  - by vm_compute.
  - by vm_compute.
Defined.

(** X18.  [set_candle_interval] stores the interval and leaves the model
    alone.  Outside the high-resolution view it does nothing else.  Inside
    it redraws through [update_high_res_view], and the only exception that
    can escape is the IndexError of a day cursor below [-len(days)]: with a
    cursor that is a valid index none does.  (Stated for an interval that
    is not zero.) *)
Theorem set_candle_interval_stores_the_interval (a : App) (seconds : Z) :
  seconds ≠ 0 →
  ∃ o a', run (AppViews.set_candle_interval seconds) a = (o, a')
          ∧ candle_interval_seconds a' = seconds
          ∧ model a' = model a
          ∧ (o = None ∨ o = Some IndexError)
          ∧ (Model.index_error (self (model a)) = false → o = None)
          ∧ (current_view a ≠ "high_res" →
             o = None ∧ a' = AppViews.set_candle_interval_seconds seconds a).
Proof.
  intros _. unfold AppViews.set_candle_interval. unfold_method.
  change (current_view (AppViews.set_candle_interval_seconds seconds a))
    with (current_view a).
  case_bool_decide as Hv.
  - destruct (update_high_res_view_frame
                (AppViews.set_candle_interval_seconds seconds a))
      as (o & a' & -> & Ho & Hm & Hi & _).
    change (model (AppViews.set_candle_interval_seconds seconds a))
      with (model a) in Ho, Hm.
    change (candle_interval_seconds
              (AppViews.set_candle_interval_seconds seconds a))
      with seconds in Hi.
    destruct o as [[]| |e].
    + exists None, a'. split; [reflexivity|]. split; [exact Hi|].
      split; [exact Hm|]. split; [by left|]. split; [reflexivity|].
      intros Hn. by destruct Hn.
    + exists None, a'. split; [reflexivity|]. split; [exact Hi|].
      split; [exact Hm|]. split; [by left|]. split; [reflexivity|].
      intros Hn. by destruct Hn.
    + destruct (Ho e eq_refl) as [-> Hie].
      exists (Some IndexError), a'. split; [reflexivity|]. split; [exact Hi|].
      split; [exact Hm|]. split; [by right|]. split.
      * intros Hf. rewrite Hf in Hie. discriminate.
      * intros Hn. by destruct Hn.
  - exists None, (AppViews.set_candle_interval_seconds seconds a).
    split; [reflexivity|]. split; [reflexivity|]. split; [reflexivity|].
    split; [by left|]. split; [reflexivity|]. intros _. split; reflexivity.
Qed.

Lemma set_candle_interval_stores_the_interval_witness :
  ∃ o a', run (AppViews.set_candle_interval 15)
              (KinetiCandlesApp.set_current_view "high_res" (app_with three_days))
          = (o, a')
          ∧ candle_interval_seconds a' = 15
          ∧ model a' = three_days
          ∧ (o = None ∨ o = Some IndexError).
Proof.
  destruct (set_candle_interval_stores_the_interval
              (KinetiCandlesApp.set_current_view "high_res" (app_with three_days))
              15 ltac:(done))
    as (o & a' & H1 & H2 & H3 & H4 & _).
  exists o, a'. split; [exact H1|]. split; [exact H2|].
  split; [exact H3|exact H4].
Defined.

(** ** What is drawn for a candle *)

Lemma plot_candle_drawn_from (x o c hi lo : Q) :
  (lo <= o <= hi)%Q → (lo <= c <= hi)%Q →
  drawn_from x o c hi lo (Charts._plot_candle x o c hi lo).
Proof.
  intros [? ?] [? ?]. unfold drawn_from, Charts._plot_candle.
  cbn [Charts.Shape.x Charts.Shape.body_height Charts.Shape.line_from
       Charts.Shape.body_bottom Charts.Shape.line_to Charts.Shape.color].
  assert (Qle_bool o c = true ↔ (o <= c)%Q) as Hle by apply Qle_bool_iff.
  assert (Float.Qltb c o = true ↔ (c < o)%Q) as Hlt by apply Qltb_lt.
  destruct (Float.Qltb c o) eqn:E.
  - assert (c < o)%Q as Hco by (by apply Hlt).
    assert (Qle_bool o c = false) as ->.
    { destruct (Qle_bool o c); [|done]. assert (o <= c)%Q by (by apply Hle).
      lra. }
    split_and!; try done; try lra; try (by right); try apply Qabs_nonneg;
      split; intros; first [done | lra].
  - assert (¬ (c < o)%Q) as Hco
      by (intros Hc; apply Hlt in Hc; congruence).
    assert (Qle_bool o c = true) as -> by (apply Hle; lra).
    split_and!; try done; try lra; try (by left); try apply Qabs_nonneg;
      split; intros; first [done | lra].
Qed.

Lemma mapM_Forall2 {A B} (f : A → option B) (R : A → B → Prop) (l : list A) :
  (∀ a, a ∈ l → ∃ b, f a = Some b ∧ R a b) →
  ∃ bs, mapM f l = Some bs ∧ Forall2 R l bs.
Proof.
  induction l as [|a l IH]; intros H.
  - exists []. split; [done|constructor].
  - destruct (H a) as (b & Hb & HR); [set_solver|].
    destruct IH as (bs & Hm & Hall); [intros; apply H; set_solver|].
    exists (b :: bs). split; [|by constructor].
    simpl. by rewrite Hb, Hm.
Qed.

Lemma hourly_row_summary σ hourly h :
  Model.get_daily_data_grouped_by_hour σ = Some hourly → h ∈ hourly →
  ∃ f l hi lo m,
    Model.Hourly.first h = Some f ∧ Model.Hourly.last h = Some l
    ∧ Model.Hourly.max h = Some hi ∧ Model.Hourly.min h = Some lo
    ∧ Model.Hourly.mean h = Some m
    ∧ (lo <= f <= hi)%Q ∧ (lo <= l <= hi)%Q.
Proof.
  intros (day_data & Hday & Hne & ->)%hourly_groups
         ([k g] & -> & Hg)%list_elem_of_fmap. simpl.
  pose proof (groupby_nonempty _ _ _ _ _ Hg) as Hgne.
  destruct (group_summary g Hgne)
    as (f & l & hi & lo & m & -> & -> & -> & -> & -> & _ & _ & _ & ? & ? & _).
  by exists f, l, hi, lo, m.
Qed.

Lemma candle_summary W wd candles c :
  W ≠ 0 →
  Model.get_candle_data (Some wd) W = Some candles → c ∈ candles →
  ∃ hi lo, Model.Candle.max c = Some hi ∧ Model.Candle.min c = Some lo
           ∧ (lo <= Model.Candle.first c <= hi)%Q
           ∧ (lo <= Model.Candle.last c <= hi)%Q.
Proof.
  intros HW Hget Hc.
  destruct (get_candle_data_groups W wd HW) as (css & Hcss & Hget').
  rewrite Hget in Hget'. injection Hget' as ->.
  destruct (candle_from_group W wd css c Hcss Hc) as (k & g & Hg & Hlen & Hcg).
  apply candle_of_group_cases in Hcg
    as [[? _]|(c' & [= <-] & _ & Hts & HWc & _ & Hf & Hl & Hmax & Hmin)];
    [done|].
  assert (g ≠ []) as Hne by (intros ->; simpl in Hlen; lia).
  destruct (group_summary g Hne)
    as (f & l & hi & lo & m & Hf' & Hl' & Hmax' & Hmin' & _ & _ & _ & _ & ? & ? & _).
  rewrite first_activity, <- Hf in Hf'. injection Hf' as ->.
  rewrite last_activity, <- Hl in Hl'. injection Hl' as ->.
  exists hi, lo. rewrite Hmax, Hmin. done.
Qed.

(** X19.  Every candle of the day view and of the high-resolution view is
    drawn from four numbers, none of them NaN, one shape per row and in the
    order of the rows: at the hour (the [time_index]) of the row, with the
    line running from the row's min to its max, the body starting at the
    smaller of first and last, which lies on the line as first and last
    both do, and green exactly when last is not below first.  Only
    comparisons of the values enter. *)
Theorem candle_bodies_sit_on_their_lines :
  (∀ σ hourly,
     Model.get_daily_data_grouped_by_hour σ = Some hourly →
     ∃ shapes,
       Charts.day_view_shapes hourly = Some shapes
       ∧ Forall2
           (λ row s, ∃ o c hi lo,
              Model.Hourly.first row = Some o ∧ Model.Hourly.last row = Some c
              ∧ Model.Hourly.max row = Some hi ∧ Model.Hourly.min row = Some lo
              ∧ drawn_from (inject_Z (Model.Hourly.timestamp row)) o c hi lo s)
           hourly shapes)
  ∧ (∀ W wd candles,
       W ≠ 0 →
       Model.get_candle_data (Some wd) W = Some candles →
       ∃ shapes,
         Charts.high_res_shapes candles = Some shapes
         ∧ Forall2
             (λ row s, ∃ hi lo,
                Model.Candle.max row = Some hi ∧ Model.Candle.min row = Some lo
                ∧ drawn_from (Model.Candle.time_index row)
                    (Model.Candle.first row) (Model.Candle.last row) hi lo s)
             candles shapes).
Proof.
  split.
  - intros σ hourly Hh. apply mapM_Forall2. intros h Hin.
    destruct (hourly_row_summary σ hourly h Hh Hin)
      as (f & l & hi & lo & m & Hf & Hl & Hhi & Hlo & _ & ? & ?).
    rewrite Hf, Hl, Hhi, Hlo. eexists. split; [reflexivity|].
    exists f, l, hi, lo. split_and!; try done.
    by apply plot_candle_drawn_from.
  - intros W wd candles HW Hget. apply mapM_Forall2. intros c Hin.
    destruct (candle_summary W wd candles c HW Hget Hin)
      as (hi & lo & Hhi & Hlo & ? & ?).
    rewrite Hhi, Hlo. eexists. split; [reflexivity|].
    exists hi, lo. split_and!; try done.
    by apply plot_candle_drawn_from.
Qed.

Lemma candle_bodies_sit_on_their_lines_witness :
  ∃ shapes,
    Charts.day_view_shapes (hourly_of bimodal_day) = Some shapes
    ∧ Forall2
        (λ row s, ∃ o c hi lo,
           Model.Hourly.first row = Some o ∧ Model.Hourly.last row = Some c
           ∧ Model.Hourly.max row = Some hi ∧ Model.Hourly.min row = Some lo
           ∧ drawn_from (inject_Z (Model.Hourly.timestamp row)) o c hi lo s)
        (hourly_of bimodal_day) shapes.
Proof.
  apply (proj1 candle_bodies_sit_on_their_lines bimodal_day).
  by vm_compute.
Defined.

(** ** Tick marks of the high-resolution view *)

(** X21.  For a window that passes validation the tick marks start at the first
    minute of the window and end at its last, are evenly spaced by 5, 10 or
    15 minutes for a window of one, two, or three to four hours, and there are
    17 of them for a window of four hours and 13 otherwise. *)
Theorem x_ticks_span_the_window (start_hour end_hour : Z) :
  ¬ invalid_window start_hour end_hour →
  let ticks := Charts.x_ticks start_hour end_hour in
  let step := Charts.tick_minutes ((end_hour - start_hour) * 60) in
  head ticks = Some (start_hour * 60)
  ∧ last ticks = Some (end_hour * 60)
  ∧ (∀ i t, ticks !! i = Some t → t = start_hour * 60 + Z.of_nat i * step)
  ∧ step = (if end_hour - start_hour =? 1 then 5
            else if end_hour - start_hour =? 2 then 10 else 15)
  ∧ length ticks = (if end_hour - start_hour =? 4 then 17%nat else 13%nat).
Proof.
  intros Hval ticks step. subst ticks step.
  assert (end_hour = start_hour + 1 ∨ end_hour = start_hour + 2
          ∨ end_hour = start_hour + 3 ∨ end_hour = start_hour + 4)
    as [-> | [-> | [-> | ->]]] by (unfold invalid_window in Hval; lia).
  all: unfold Charts.x_ticks.
  - replace ((start_hour + 1) * 60 - start_hour * 60) with 60 by lia.
    replace ((start_hour + 1 - start_hour) * 60) with 60 by lia.
    replace (start_hour + 1 - start_hour) with 1 by lia.
    cbv zeta. set (r := Charts.py_range_step _ _).
    vm_compute in r. subst r. cbn [fmap list_fmap head last].
    split_and!; try done; [f_equal; lia|f_equal; lia|].
    intros i t Hi. change (Charts.tick_minutes 60) with 5.
    do 13 (destruct i as [|i]; [injection Hi as <-; lia|]). done.
  - replace ((start_hour + 2) * 60 - start_hour * 60) with 120 by lia.
    replace ((start_hour + 2 - start_hour) * 60) with 120 by lia.
    replace (start_hour + 2 - start_hour) with 2 by lia.
    cbv zeta. set (r := Charts.py_range_step _ _).
    vm_compute in r. subst r. cbn [fmap list_fmap head last].
    split_and!; try done; [f_equal; lia|f_equal; lia|].
    intros i t Hi. change (Charts.tick_minutes 120) with 10.
    do 13 (destruct i as [|i]; [injection Hi as <-; lia|]). done.
  - replace ((start_hour + 3) * 60 - start_hour * 60) with 180 by lia.
    replace ((start_hour + 3 - start_hour) * 60) with 180 by lia.
    replace (start_hour + 3 - start_hour) with 3 by lia.
    cbv zeta. set (r := Charts.py_range_step _ _).
    vm_compute in r. subst r. cbn [fmap list_fmap head last].
    split_and!; try done; [f_equal; lia|f_equal; lia|].
    intros i t Hi. change (Charts.tick_minutes 180) with 15.
    do 13 (destruct i as [|i]; [injection Hi as <-; lia|]). done.
  - replace ((start_hour + 4) * 60 - start_hour * 60) with 240 by lia.
    replace ((start_hour + 4 - start_hour) * 60) with 240 by lia.
    replace (start_hour + 4 - start_hour) with 4 by lia.
    cbv zeta. set (r := Charts.py_range_step _ _).
    vm_compute in r. subst r. cbn [fmap list_fmap head last].
    split_and!; try done; [f_equal; lia|f_equal; lia|].
    intros i t Hi. change (Charts.tick_minutes 240) with 15.
    do 17 (destruct i as [|i]; [injection Hi as <-; lia|]). done.
Qed.

Lemma x_ticks_span_the_window_witness :
  head (Charts.x_ticks 8 10) = Some (8 * 60)
  ∧ last (Charts.x_ticks 8 10) = Some (10 * 60).
Proof.
  destruct (x_ticks_span_the_window 8 10) as (H1 & H2 & _);
    [unfold invalid_window; lia|done].
Defined.

(** ** Activity counts *)

Lemma three_bands (rs : list Row) :
  (length (List.filter (λ r, Float.Qltb (activity_level r) 30) rs)
   + length (List.filter (λ r, Qle_bool 30 (activity_level r)
                               && Float.Qltb (activity_level r) 60) rs)
   + length (List.filter (λ r, Qle_bool 60 (activity_level r)) rs))%nat
  = length rs.
Proof.
  induction rs as [|r rs IH]; [done|].
  cbn [List.filter].
  assert (Float.Qltb (activity_level r) 30 = negb (Qle_bool 30 (activity_level r)))
    as -> by done.
  assert (Float.Qltb (activity_level r) 60 = negb (Qle_bool 60 (activity_level r)))
    as -> by done.
  destruct (Qle_bool 30 (activity_level r)) eqn:E30;
    destruct (Qle_bool 60 (activity_level r)) eqn:E60; cbn [negb andb length];
    try lia.
  exfalso. apply Qle_bool_iff in E60.
  assert (¬ (30 <= activity_level r)%Q) as Hn
    by (rewrite <- Qle_bool_iff; congruence).
  apply Hn. lra.
Qed.

(** X22.  The activity counts of the time domain window are printed exactly when
    the current day has rows, and then every row of the day is counted in
    exactly one of the three bands: low, moderate and high add up to the
    total, which is not zero. *)
Theorem activity_bands_partition_the_day (σ : Session) :
  (TimeDomain.activity_counts σ = None
   ↔ ∀ day_data, Model.get_data_for_current_day σ = Some day_data →
                 rows day_data = [])
  ∧ ∀ c, TimeDomain.activity_counts σ = Some c →
      (TimeDomain.Counts.low c + TimeDomain.Counts.moderate c
       + TimeDomain.Counts.high c = TimeDomain.Counts.total c)%nat
      ∧ (0 < TimeDomain.Counts.total c)%nat
      ∧ ∃ day_data, Model.get_data_for_current_day σ = Some day_data
                    ∧ TimeDomain.Counts.total c = length (rows day_data).
Proof.
  unfold TimeDomain.activity_counts.
  destruct (Model.get_data_for_current_day σ) as [day_data|]; [|done].
  unfold Frame.len. case_bool_decide as Hlen.
  - split; [|done]. split; [|done]. intros _ dd [= <-].
    by apply length_zero_iff_nil.
  - split.
    + split; [done|]. intros H. destruct Hlen. by rewrite (H day_data).
    + intros c [= <-]. cbn [TimeDomain.Counts.low TimeDomain.Counts.moderate
                             TimeDomain.Counts.high TimeDomain.Counts.total].
      split; [apply three_bands|]. split; [lia|by exists day_data].
Qed.

Lemma activity_bands_partition_the_day_witness :
  ∃ c, TimeDomain.activity_counts three_days = Some c
       ∧ (TimeDomain.Counts.low c + TimeDomain.Counts.moderate c
          + TimeDomain.Counts.high c = TimeDomain.Counts.total c)%nat.
Proof.
  eexists. split; [by vm_compute|].
  apply (proj2 (activity_bands_partition_the_day three_days)).
  by vm_compute.
Defined.

(** ** Detecting the resolution twice *)

Lemma assign_assign c f df :
  (∀ r v, f (Frame.set_cell c v r) = f r) →
  Frame.assign c f (Frame.assign c f df) = Frame.assign c f df.
Proof.
  intros Hf. unfold Frame.assign. simpl. f_equal.
  - destruct (decide (c ∈ columns df)) as [Hin|Hnin].
    + by rewrite decide_True.
    + rewrite decide_True; [done|]. set_solver.
  - rewrite <- list_fmap_compose. apply list_fmap_ext. intros _ r _. simpl.
    rewrite Hf. unfold Frame.set_cell. simpl. f_equal. apply insert_insert_eq.
Qed.

(** X23.  On a series of at most 1000 rows a second run of
    [detect_data_resolution] changes nothing: the key column is already
    there and is written again with the same values, and the verdict is the
    same, whatever the random generator would have drawn. *)
Theorem detect_data_resolution_is_idempotent
    (draw draw' : list nat) (l : loc) (σ : Session) (df : DataFrame) :
  store σ !! l = Some df → (Frame.len df ≤ 1000)%nat →
  Model.detect_data_resolution draw' l (Model.detect_data_resolution draw l σ)
  = Model.detect_data_resolution draw l σ.
Proof.
  intros Hdf Hlen.
  set (stamp := Frame.assign "minute_key"
                  (λ r, CMinute (strftime_minute (timestamp r)))).
  assert (Model.detect_data_resolution draw l σ
          = Model.set_has_second_resolution
              (existsb (λ g, bool_decide (1 < g.2)%nat)
                 (groupby_size minute_key_leb
                    (λ r, strftime_minute (timestamp r)) (rows (stamp df))))
              (Model.set_store (<[l := stamp df]> (store σ)) σ)) as Hfirst.
  { unfold Model.detect_data_resolution. rewrite Hdf.
    destruct (decide (Nat.min 1000 (Frame.len df) < Frame.len df)%nat); [lia|].
    cbv zeta. rewrite lookup_alter_eq, Hdf. simpl.
    f_equal. f_equal. apply map_eq. intros k.
    destruct (decide (k = l)) as [->|Hk].
    - by rewrite lookup_alter_eq, lookup_insert_eq, Hdf.
    - by rewrite lookup_alter_ne, lookup_insert_ne. }
  rewrite Hfirst.
  unfold Model.detect_data_resolution at 1.
  cbn [store Model.set_has_second_resolution Model.set_store].
  rewrite lookup_insert_eq.
  assert (Frame.len (stamp df) = Frame.len df) as Hl
    by (unfold Frame.len, stamp, Frame.assign; simpl; by rewrite length_fmap).
  rewrite Hl.
  destruct (decide (Nat.min 1000 (Frame.len df) < Frame.len df)%nat); [lia|].
  cbv zeta. rewrite lookup_alter_eq, lookup_insert_eq. simpl.
  assert (stamp (stamp df) = stamp df) as Hss by (by apply assign_assign).
  change ((λ r : Row, Frame.set_cell "minute_key"
                        (CMinute (strftime_minute (timestamp r))) r)
          <$> ((λ r : Row, Frame.set_cell "minute_key"
                             (CMinute (strftime_minute (timestamp r))) r)
               <$> rows df))
    with (rows (stamp (stamp df))).
  rewrite Hss.
  unfold Model.set_has_second_resolution, Model.set_store. simpl.
  f_equal. apply map_eq. intros k.
  destruct (decide (k = l)) as [->|Hk].
  - rewrite lookup_alter_eq, !lookup_insert_eq. simpl.
    fold (stamp (stamp df)). by rewrite Hss.
  - by rewrite lookup_alter_ne, !lookup_insert_ne.
Qed.

Lemma detect_data_resolution_is_idempotent_witness :
  Model.detect_data_resolution [1%nat] 0%nat
    (Model.detect_data_resolution [] 0%nat (holding two_in_a_minute))
  = Model.detect_data_resolution [] 0%nat (holding two_in_a_minute).
Proof.
  apply (detect_data_resolution_is_idempotent [] [1%nat] 0%nat
           (holding two_in_a_minute) two_in_a_minute).
  - by vm_compute.
  - vm_compute. lia.
Defined.

(** ** The count column of the weekly aggregate *)

Lemma weekly_row_count df day :
  Model.Weekly.count
    (default Model.Weekly.nan_row
       ((λ hit, hit.2.2) <$> list_find (λ p, p.1 = day)
          ((λ g, let s := Frame.activity g.2 in
              (g.1, Model.Weekly.mk (Series.mean s) (Series.max s)
                      (Series.min s)
                      (Float.of_Z (Z.of_nat (Series.count s)))))
           <$> groupby String.leb day_of_week (rows df))))
  = match pooled day df with
    | [] => NaN
    | l => Float.of_Z (Z.of_nat (length l))
    end.
Proof.
  unfold pooled.
  destruct (list_find _ _) as [[i [d w]]|] eqn:E; simpl.
  - apply list_find_Some in E as (Hi & Hd & _). simpl in Hd. subst d.
    apply list_elem_of_lookup_2 in Hi.
    apply list_elem_of_fmap in Hi as ([k g] & Heq & Hg).
    simpl in Heq. injection Heq as -> ->.
    pose proof (groupby_nonempty _ _ _ _ _ Hg) as Hne.
    apply groupby_group in Hg as [-> _]. simpl.
    unfold Series.count. rewrite dropna_activity.
    unfold group in *.
    by destruct (filter (λ r, day_of_week r = k) (rows df)).
  - apply list_find_None in E.
    assert (filter (λ r, day_of_week r = day) (rows df) = []) as ->; [|done].
    destruct (filter (λ r, day_of_week r = day) (rows df)) as [|r g] eqn:Hf;
      [done|exfalso].
    assert (r ∈ filter (λ r, day_of_week r = day) (rows df)) as Hr
      by (rewrite Hf; set_solver).
    apply list_elem_of_filter in Hr as [Hday Hr].
    apply (groupby_complete String.leb day_of_week) in Hr.
    rewrite Forall_forall in E.
    apply (list_elem_of_fmap_2
             (λ g, let s := Frame.activity g.2 in
                   (g.1, Model.Weekly.mk (Series.mean s) (Series.max s)
                           (Series.min s)
                           (Float.of_Z (Z.of_nat (Series.count s)))))) in Hr.
    apply E in Hr. simpl in Hr. done.
Qed.

Lemma qsum_counts (n : string → nat) (ks : list string) :
  (Series.qsum
     (Series.dropna
        ((λ d, match n d with
               | O => NaN
               | S _ => Float.of_Z (Z.of_nat (n d))
               end) <$> ks))
   == inject_Z (Z.of_nat (sum_list (n <$> ks))))%Q.
Proof.
  induction ks as [|k ks IH]; [done|].
  rewrite !fmap_cons. cbn [sum_list sum_list_with].
  rewrite Nat2Z.inj_add, inject_Z_plus.
  unfold Series.dropna in *. cbn [omap list_omap].
  destruct (n k) as [|m] eqn:E; cbn [id Float.of_Z NaN Float.NaN].
  - rewrite IH. change (inject_Z (Z.of_nat 0)) with 0%Q. lra.
  - cbn [Series.qsum foldr]. unfold Series.qsum in IH. rewrite IH. lra.
Qed.

(** X24.  In a loaded session the count of a day name in the weekly aggregate is
    the number of rows of the series that carry the name, NaN for a name
    without rows, and the counts of the seven names add up to the number
    of rows of the series. *)
Theorem weekly_counts_add_up
    (σ : Session) (df : DataFrame) (w : list (string * Model.Weekly.t)) :
  consistent σ → Model.data_frame σ = Some df →
  Model.get_weekly_data σ = Some w →
  (∀ day row, (day, row) ∈ w →
     Model.Weekly.count row
     = match pooled day df with
       | [] => NaN
       | l => Float.of_Z (Z.of_nat (length l))
       end)
  ∧ (Series.qsum (Series.dropna (Model.Weekly.count <$> w.*2))
     == inject_Z (Z.of_nat (length (rows df))))%Q.
Proof.
  intros Hcons Hdf Hw. pose proof Hcons as (df' & Hdf' & _ & Hdow).
  rewrite Hdf in Hdf'. injection Hdf' as <-.
  pose proof (get_weekly_data_rows σ df Hdf) as Hw'.
  rewrite Hw in Hw'. apply (inj Some) in Hw'. subst w.
  split.
  - intros day row (d & [= -> ->] & _)%list_elem_of_fmap.
    apply weekly_row_count.
  - rewrite <- !list_fmap_compose.
    rewrite <- (sum_filter_lengths day_of_week DAYS_OF_WEEK (rows df)).
    + rewrite <- (qsum_counts
                    (λ k, length (filter (λ r, day_of_week r = k) (rows df)))).
      assert (∀ (l1 l2 : list float), l1 = l2 →
                (Series.qsum (Series.dropna l1)
                 == Series.qsum (Series.dropna l2))%Q) as Heq
        by (by intros ?? ->).
      apply Heq. apply list_fmap_ext. intros _ d _. simpl.
      rewrite weekly_row_count. unfold pooled.
      destruct (filter (λ r, day_of_week r = d) (rows df)) as [|r0 l0];
        [done|].
      simpl. by rewrite length_fmap.
    + apply (bool_decide_unpack _). by vm_compute.
    + intros r Hr. rewrite (Hdow r Hr). apply day_name_in_week.
Qed.

Lemma weekly_counts_add_up_witness :
  (Series.qsum
     (Series.dropna
        (Model.Weekly.count
           <$> (default [] (Model.get_weekly_data three_days)).*2))
   == inject_Z (Z.of_nat (length (rows (frame_of three_days)))))%Q.
Proof.
  apply (weekly_counts_add_up three_days (frame_of three_days)
           (default [] (Model.get_weekly_data three_days))).
  - apply (load_data_consistent [] _ fresh_session).
  - by vm_compute.
  - by vm_compute.
Defined.

(** ** The week analysis in general *)

Lemma argbest_min (s : list float) i y :
  Series.argbest (λ y x, Float.Qltb y x) s = Some (i, y) →
  s !! i = Some (Some y)
  ∧ (∀ j x, s !! j = Some (Some x) → (y <= x)%Q)
  ∧ (∀ j x, (j < i)%nat → s !! j = Some (Some x) → (y < x)%Q).
Proof.
  revert i y. induction s as [|a s IH]; intros i y; simpl; [done|].
  destruct (Series.argbest _ s) as [[k z]|] eqn:E; simpl.
  - destruct (IH k z eq_refl) as (Hk & Hall & Hbefore).
    destruct a as [x|].
    + destruct (Float.Qltb z x) eqn:Hlt.
      * apply Qltb_lt in Hlt. intros [= <- <-]. split; [done|]. split.
        -- intros [|j] w; simpl; [intros [= <-]; lra|apply Hall].
        -- intros [|j] w Hj; simpl; [intros [= <-]; done|].
           apply Hbefore. lia.
      * assert (x <= z)%Q as Hle.
        { apply Qnot_lt_le. intros H%Qltb_lt. congruence. }
        intros [= <- <-]. split; [done|]. split.
        -- intros [|j] w; simpl; [intros [= <-]; lra|].
           intros Hw%Hall. lra.
        -- intros j w Hj. lia.
    + intros [= <- <-]. split; [done|]. split.
      * intros [|j] w; simpl; [done|apply Hall].
      * intros [|j] w Hj; simpl; [done|]. apply Hbefore. lia.
  - assert (∀ j x, s !! j = Some (Some x) → False) as Hnone.
    { intros j x Hj.
      destruct (argbest_is_Some (λ y x, Float.Qltb y x) s) as [? Hs].
      - exists x. by eapply list_elem_of_lookup_2.
      - rewrite E in Hs. done. }
    destruct a as [x|]; [|done]. intros [= <- <-]. split; [done|]. split.
    + intros [|j] w; simpl; [intros [= <-]; lra|]. intros Hj.
      by destruct (Hnone j w).
    + intros j w Hj. lia.
Qed.

Lemma analyze_week_patterns_of_filled σ w (f0 f1 f2 f3 f4 f5 f6 : float) :
  Model.get_weekly_data σ = Some w → w ≠ [] →
  (λ p, (p.1, Float.fillna 0 (Model.Weekly.mean p.2))) <$> w
  = [("Monday", f0); ("Tuesday", f1); ("Wednesday", f2); ("Thursday", f3);
     ("Friday", f4); ("Saturday", f5); ("Sunday", f6)] →
  Model.analyze_week_patterns σ
  = Some
      (let avg := [("Monday", f0); ("Tuesday", f1); ("Wednesday", f2);
                   ("Thursday", f3); ("Friday", f4); ("Saturday", f5);
                   ("Sunday", f6)] in
       let cells := [f0; f1; f2; f3; f4; f5; f6] in
       Model.Week.mk
         (Model.week_pattern (Series.mean [f0; f1; f2; f3; f4])
            (Series.mean [f5; f6]) cells)
         (if negb (Series.isna_all cells)
          then Model.label_at avg (Series.idxmax cells) else None)
         (if negb (Series.isna_all cells)
          then Model.label_at avg (Series.idxmin cells) else None)
         (Series.mean [f0; f1; f2; f3; f4]) (Series.mean [f5; f6]) avg).
Proof.
  intros Hw Hne Havg. unfold Model.analyze_week_patterns. rewrite Hw.
  rewrite bool_decide_eq_false_2 by done. cbv zeta. rewrite Havg.
  lazy -[Series.mean Model.week_pattern Series.isna_all Series.idxmax
         Series.idxmin Model.label_at].
  reflexivity.
Qed.

Lemma fillna_default v a : Float.fillna v a = Some (default v a).
Proof. by destruct a. Qed.

Lemma label_of_lookup (labels : list string) (m : string → Q) i y :
  ((λ d, Some (m d)) <$> labels) !! i = Some (Some y) →
  ∃ d, labels !! i = Some d ∧ y = m d
       ∧ Model.label_at ((λ d, (d, Some (m d))) <$> labels) (Some i) = Some d.
Proof.
  rewrite list_lookup_fmap. destruct (labels !! i) as [d|] eqn:E; [|done].
  simpl. intros [= <-]. exists d. split; [done|]. split; [done|].
  unfold Model.label_at. simpl. by rewrite list_lookup_fmap, E.
Qed.

(** X25.  The week analysis of a loaded series, in general.  The analysis
    always exists.  Its daily averages are seven numbers, Monday to Sunday,
    none NaN: the mean column of the weekly aggregate with NaN replaced by
    0, so exactly 0 for a day name without samples.  The weekday average is
    the mean of the first five of them and the weekend average the mean of
    the last two, whichever of the days have samples, and both are numbers.
    A most and a least active day are always named: the first day of the
    week whose daily average is the largest, and the first whose daily
    average is the smallest, of the seven. *)
Theorem week_analysis_of_a_loaded_series (σ : Session) (df : DataFrame) :
  Model.data_frame σ = Some df →
  ∃ r w (m : string → Q),
    Model.analyze_week_patterns σ = Some r
    ∧ Model.get_weekly_data σ = Some w
    ∧ Model.Week.daily_averages r = (λ d, (d, Some (m d))) <$> DAYS_OF_WEEK
    ∧ (∀ day row, (day, row) ∈ w →
         Some (m day) = Float.fillna 0 (Model.Weekly.mean row))
    ∧ (∀ day, pooled day df = [] → m day = 0%Q)
    ∧ Model.Week.weekday_avg r
      = Series.mean ((λ d, Some (m d)) <$> take 5 DAYS_OF_WEEK)
    ∧ Model.Week.weekend_avg r
      = Series.mean ((λ d, Some (m d)) <$> drop 5 DAYS_OF_WEEK)
    ∧ is_Some (Model.Week.weekday_avg r) ∧ is_Some (Model.Week.weekend_avg r)
    ∧ (∃ d i, Model.Week.most_active_day r = Some d
              ∧ DAYS_OF_WEEK !! i = Some d
              ∧ (∀ d', d' ∈ DAYS_OF_WEEK → (m d' <= m d)%Q)
              ∧ ∀ j d', (j < i)%nat → DAYS_OF_WEEK !! j = Some d' →
                        (m d' < m d)%Q)
    ∧ (∃ d i, Model.Week.least_active_day r = Some d
              ∧ DAYS_OF_WEEK !! i = Some d
              ∧ (∀ d', d' ∈ DAYS_OF_WEEK → (m d <= m d')%Q)
              ∧ ∀ j d', (j < i)%nat → DAYS_OF_WEEK !! j = Some d' →
                        (m d < m d')%Q).
Proof.
  intros Hdf.
  pose proof (get_weekly_data_rows σ df Hdf) as Hw.
  set (m := λ d, default 0%Q
                   (Series.mean
                      (Frame.activity
                         (filter (λ r, day_of_week r = d) (rows df))))).
  assert (∀ d, Float.fillna 0
                 (Model.Weekly.mean
                    (default Model.Weekly.nan_row
                       ((λ hit, hit.2.2) <$> list_find (λ p, p.1 = d)
                          ((λ g, let s := Frame.activity g.2 in
                              (g.1, Model.Weekly.mk (Series.mean s) (Series.max s)
                                      (Series.min s)
                                      (Float.of_Z (Z.of_nat (Series.count s)))))
                           <$> groupby String.leb day_of_week (rows df)))))
               = Some (m d)) as Hfill.
  { intros d. rewrite fillna_default.
    destruct (weekly_row_pools df d) as (-> & _ & _). done. }
  rewrite (analyze_week_patterns_of_filled σ _
             (Some (m "Monday")) (Some (m "Tuesday")) (Some (m "Wednesday"))
             (Some (m "Thursday")) (Some (m "Friday")) (Some (m "Saturday"))
             (Some (m "Sunday")) Hw);
    [|done|].
  2:{ unfold DAYS_OF_WEEK. cbn [fmap list_fmap fst snd]. by rewrite !Hfill. }
  cbv zeta.
  change [("Monday", Some (m "Monday")); ("Tuesday", Some (m "Tuesday"));
          ("Wednesday", Some (m "Wednesday")); ("Thursday", Some (m "Thursday"));
          ("Friday", Some (m "Friday")); ("Saturday", Some (m "Saturday"));
          ("Sunday", Some (m "Sunday"))]
    with ((λ d, (d, Some (m d))) <$> DAYS_OF_WEEK).
  change [Some (m "Monday"); Some (m "Tuesday"); Some (m "Wednesday");
          Some (m "Thursday"); Some (m "Friday"); Some (m "Saturday");
          Some (m "Sunday")]
    with ((λ d, Some (m d)) <$> DAYS_OF_WEEK).
  eexists _, _, m. split; [reflexivity|]. split; [exact Hw|].
  cbn [Model.Week.daily_averages Model.Week.weekday_avg Model.Week.weekend_avg
       Model.Week.most_active_day Model.Week.least_active_day
       Model.Week.pattern_type].
  split; [done|].
  split.
  { intros day row (d & [= -> ->] & _)%list_elem_of_fmap. by rewrite Hfill. }
  split.
  { intros day Hnone. unfold pooled in Hnone. apply fmap_nil_inv in Hnone.
    unfold m. by rewrite Hnone. }
  split; [done|]. split; [done|]. split; [by eexists|]. split; [by eexists|].
  assert (Series.isna_all ((λ d, Some (m d)) <$> DAYS_OF_WEEK) = false)
    as -> by done.
  cbn [negb].
  assert (∃ x, Some x ∈ (λ d, Some (m d)) <$> DAYS_OF_WEEK) as Hex.
  { exists (m "Monday"). apply list_elem_of_here. }
  assert (∀ d', d' ∈ DAYS_OF_WEEK →
            ∃ j, ((λ d, Some (m d)) <$> DAYS_OF_WEEK) !! j = Some (Some (m d')))
    as Hpos.
  { intros d' [j Hj]%list_elem_of_lookup. exists j.
    by rewrite list_lookup_fmap, Hj. }
  assert (∀ j d', DAYS_OF_WEEK !! j = Some d' →
            ((λ d, Some (m d)) <$> DAYS_OF_WEEK) !! j = Some (Some (m d')))
    as Hat.
  { intros j d' Hj. by rewrite list_lookup_fmap, Hj. }
  split.
  - unfold Series.idxmax.
    destruct (argbest_is_Some (λ y x, Float.Qltb x y) _ Hex) as [[i y] Hi].
    rewrite Hi. destruct (argbest_max _ _ _ Hi) as (Hlook & Hall & Hfirst).
    destruct (label_of_lookup _ _ _ _ Hlook) as (d & Hd & -> & Hlabel).
    exists d, i. split; [exact Hlabel|]. split; [done|]. split.
    + intros d' Hd'. destruct (Hpos d' Hd') as [j Hj]. by apply (Hall j).
    + intros j d' Hj Hd'. apply (Hfirst j); [done|by apply Hat].
  - unfold Series.idxmin.
    destruct (argbest_is_Some (λ y x, Float.Qltb y x) _ Hex) as [[i y] Hi].
    rewrite Hi. destruct (argbest_min _ _ _ Hi) as (Hlook & Hall & Hfirst).
    destruct (label_of_lookup _ _ _ _ Hlook) as (d & Hd & -> & Hlabel).
    exists d, i. split; [exact Hlabel|]. split; [done|]. split.
    + intros d' Hd'. destruct (Hpos d' Hd') as [j Hj]. by apply (Hall j).
    + intros j d' Hj Hd'. apply (Hfirst j); [done|by apply Hat].
Qed.

Lemma week_analysis_of_a_loaded_series_witness :
  ∃ r w (m : string → Q),
    Model.analyze_week_patterns three_days = Some r
    ∧ Model.get_weekly_data three_days = Some w
    ∧ Model.Week.daily_averages r = (λ d, (d, Some (m d))) <$> DAYS_OF_WEEK.
Proof.
  destruct (week_analysis_of_a_loaded_series three_days (frame_of three_days))
    as (r & w & m & H1 & H2 & H3 & _); [by vm_compute|].
  exists r, w, m. split; [exact H1|]. split; [exact H2|exact H3].
Defined.
